(** * Identity, access control and visitor analytics of the school
      management backend

    A shallow embedding of the Express middlewares and route handlers of
    the backend: the token helper ([utils/jwtHelper.js]), the two
    authentication middlewares ([middleware/verifyToken.js] and
    [middleware/auth.js]), the login routes ([routes/auth.js]), the
    visitor tracking middleware ([middleware/visitorTracking.js]), the
    analytics model ([models/Analytics.js]) and the analytics controller
    ([controllers/analyticsController.js]).

    Collaborators that live outside the repository (the [jsonwebtoken]
    package, the Mongoose models of the credential store, [bcrypt],
    [useragent], [geoip-lite]) are fields of an environment record; the
    examples instantiate it with small test doubles. *)

From Stdlib Require Import Ascii String.
From stdpp Require Import gmap strings list fin_maps pretty sorting.

Open Scope string_scope.
Open Scope Z_scope.

(** ** JavaScript values and string primitives *)

Module Js.

(** A thrown [Error]: the middlewares only ever read [name]. *)
Record Error := mkError { name : string; errMessage : string }.

(** Result of a call that may throw. *)
Inductive outcome (A : Type) : Type :=
| Ok (a : A)
| Throw (e : Error).
Arguments Ok {A} a.
Arguments Throw {A} e.

(** Truthiness of a possibly [undefined] string: [undefined] and the
    empty string are falsy. *)
Definition truthy (v : option string) : bool :=
  match v with
  | Some s => negb (String.eqb s "")
  | None => false
  end.

(** [a || b] on possibly undefined strings. *)
Definition or_else (a b : option string) : option string :=
  if truthy a then a else b.

(** [s.startsWith(p)] *)
Fixpoint startsWith (p s : string) : bool :=
  match p, s with
  | EmptyString, _ => true
  | String _ _, EmptyString => false
  | String a p', String b s' => Ascii.eqb a b && startsWith p' s'
  end.

(** [s.split(sep)] for a one-character separator. *)
Fixpoint split (sep : ascii) (s : string) : list string :=
  match s with
  | EmptyString => [EmptyString]
  | String c s' =>
      if Ascii.eqb c sep then EmptyString :: split sep s'
      else match split sep s' with
           | [] => [String c EmptyString]
           | w :: ws => String c w :: ws
           end
  end.

(** [hay.includes(needle)]; also the meaning of [/needle/.test(hay)]
    for a pattern without metacharacters. *)
Fixpoint includes (needle hay : string) : bool :=
  startsWith needle hay ||
  match hay with
  | EmptyString => false
  | String _ hay' => includes needle hay'
  end.

(** [arr.join(sep)] *)
Definition join (sep : string) (l : list string) : string :=
  String.concat sep l.

(** [arr.includes(v)] for an array of strings and a possibly undefined
    value (strict equality: [undefined] is never found). *)
Definition arr_includes (l : list string) (v : option string) : bool :=
  match v with
  | Some s => existsb (String.eqb s) l
  | None => false
  end.

(** [v === s] for a possibly undefined [v] and a string literal [s]. *)
Definition strict_eq (v : option string) (s : string) : bool :=
  match v with
  | Some x => String.eqb x s
  | None => false
  end.

(** A value interpolated into a template literal. *)
Definition interpolate (v : option string) : string :=
  match v with
  | Some s => s
  | None => "undefined"
  end.

(** Case folding of the [i] flag on a pattern of ASCII letters: only the
    letters A-Z are folded, every other byte is kept. *)
Definition lower_ascii (c : ascii) : ascii :=
  let n := nat_of_ascii c in
  if (Nat.leb 65 n && Nat.leb n 90)%bool then ascii_of_nat (n + 32) else c.

Fixpoint lower (s : string) : string :=
  match s with
  | EmptyString => EmptyString
  | String c s' => String (lower_ascii c) (lower s')
  end.

(** [/pat/i.test(s)] for a lower-case literal pattern. *)
Definition test_i (pat s : string) : bool := includes pat (lower s).

End Js.

Import Js.

(** ** HTTP responses *)

Record Body := mkBody {
  success : bool;
  message : string;
  code : option string       (* absent when the handler sets no [code] *)
}.

Record Response := mkResponse {
  status : Z;
  body : Body
}.

Definition reject (st : Z) (msg : string) (c : option string) : Response :=
  mkResponse st (mkBody false msg c).

(** ** Credential store and token library *)

(** A principal document as the middlewares see it, whichever collection
    it was loaded from. *)
Record Principal := mkPrincipal {
  _id : string;
  isActive : bool;
  userType : option string;
  role : option string
}.

Definition set_userType (ut : option string) (u : Principal) : Principal :=
  mkPrincipal (_id u) (isActive u) ut (role u).

(** Decoded token payload [{ id, userType }]. *)
Record Claims := mkClaims {
  claim_id : string;
  claim_userType : option string
}.

(** What the handlers call outside the repository. [jwt_verify] is
    [jwt.verify(token, process.env.JWT_SECRET)] at the time of the request;
    the [find] functions are the Mongoose queries. *)
Record Env := mkEnv {
  jwt_verify : string -> outcome Claims;
  jwt_sign : Claims -> string;
  Student_findById : string -> outcome (option Principal);
  User_findById : string -> outcome (option Principal);
  User_findOne_email : string -> outcome (option Principal);
  Student_findOne_number : string -> outcome (option Principal);
  matchPassword : Principal -> string -> outcome bool;
  save_lastLogin : Principal -> outcome unit
}.

(** The part of a request the authentication layer reads. *)
Record AuthRequest := mkAuthRequest {
  authorization : option string;     (* req.headers.authorization *)
  cookie_token : option string       (* req.cookies.token *)
}.

(** Outcome of a middleware: it answers, or it calls [next()] with
    [req.user] as it then stands. *)
Inductive MwResult :=
| Respond (r : Response)
| Next (user : option Principal).

(** The route parameters the ownership checks read ([req.params.id],
    [req.params.studentId]). *)
Record RouteParams := mkRouteParams {
  param_id : option string;
  param_studentId : option string
}.

(** ** utils/jwtHelper.js *)

Module JwtHelper.

Definition generateToken (env : Env) (user : Principal) (ut : string) : string :=
  jwt_sign env (mkClaims (_id user) (Some ut)).

(** [verifyToken]: the decoded payload, or [null] for whatever
    [jwt.verify] throws. *)
Definition verifyToken (env : Env) (token : string) : option Claims :=
  match jwt_verify env token with
  | Ok decoded => Some decoded
  | Throw _ => None
  end.

End JwtHelper.

(** ** Credential extraction, shared verbatim by [verifyToken], [protect],
       [optionalAuth] and [GET /api/auth/check] *)

Definition extractToken (req : AuthRequest) : option string :=
  match authorization req with
  | Some a =>
      if (truthy (Some a) && startsWith "Bearer" a)%bool
      then nth_error (split " " a) 1
      else if truthy (cookie_token req) then cookie_token req else None
  | None => if truthy (cookie_token req) then cookie_token req else None
  end.

(** ** middleware/verifyToken.js *)

Module VerifyToken.

(** The [catch] block of [verifyToken]: it receives whatever the [try]
    block throws, be it from [jwt.verify] or from the store. *)
Definition catch_branch (e : Error) : Response :=
  if String.eqb (name e) "TokenExpiredError"
  then reject 401 "Token süresi dolmuş" (Some "TOKEN_EXPIRED")
  else if String.eqb (name e) "JsonWebTokenError"
  then reject 401 "Geçersiz token" (Some "TOKEN_MALFORMED")
  else reject 401 "Token doğrulanamadı" (Some "TOKEN_INVALID").

(** The end of the [try] block, once a document has been loaded: the
    [isActive] test, then [user.userType = userType; req.user = user;
    next()]. *)
Definition check_active (ut : option string) (user : Principal) : MwResult :=
  if negb (isActive user)
  then Respond (reject 401 "Hesabınız deaktif durumda" (Some "ACCOUNT_DEACTIVATED"))
  else Next (Some (set_userType ut user)).

(** The answer to [!token]. *)
Definition no_token : MwResult :=
  Respond (reject 401 "Erişim reddedildi. Lütfen giriş yapınız." (Some "NO_TOKEN")).

Definition verifyToken (env : Env) (req : AuthRequest) : MwResult :=
  let token := extractToken req in
  match token with
  | None => no_token
  | Some t =>
      if negb (truthy token) then no_token
      else
        match jwt_verify env t with
        | Throw e => Respond (catch_branch e)
        | Ok decoded =>
            let ut := claim_userType decoded in
            if strict_eq ut "student" then
              match Student_findById env (claim_id decoded) with
              | Throw e => Respond (catch_branch e)
              | Ok None =>
                  Respond (reject 401 "Öğrenci bulunamadı" (Some "USER_NOT_FOUND"))
              | Ok (Some user) => check_active ut user
              end
            else if (strict_eq ut "teacher" || strict_eq ut "admin")%bool then
              match User_findById env (claim_id decoded) with
              | Throw e => Respond (catch_branch e)
              | Ok None =>
                  Respond (reject 401 "Kullanıcı bulunamadı" (Some "USER_NOT_FOUND"))
              | Ok (Some user) => check_active ut user
              end
            else Respond (reject 401 "Geçersiz kullanıcı tipi" (Some "INVALID_USER_TYPE"))
        end
  end.

(** [authorizeRoles(...allowedRoles)] applied to [req.user]. *)
Definition denial_message (allowedRoles : list string) (userRole : option string) : string :=
  "Bu işlem için " ++ join " veya " allowedRoles ++
  " yetkisi gereklidir. Mevcut yetki: " ++ interpolate userRole.

Definition authorizeRoles (allowedRoles : list string) (req_user : option Principal)
  : MwResult :=
  match req_user with
  | None => Respond (reject 401 "Önce giriş yapmalısınız" (Some "NOT_AUTHENTICATED"))
  | Some u =>
      let userRole := userType u in
      if negb (arr_includes allowedRoles userRole)
      then Respond (reject 403 (denial_message allowedRoles userRole)
                      (Some "INSUFFICIENT_PERMISSION"))
      else Next (Some u)
  end.

Definition teacherOnly := authorizeRoles ["teacher"; "admin"].
Definition studentOnly := authorizeRoles ["student"].
Definition adminOnly := authorizeRoles ["admin"].

(** [checkOwnership(resourceField)] applied to [req.user] and
    [req.params]. Reading [req.user.userType] without a principal throws
    inside the [try], which the [catch] answers with 500. *)
Definition checkOwnership (req_user : option Principal) (params : RouteParams) : MwResult :=
  match req_user with
  | None =>
      Respond (reject 500 "Yetkilendirme kontrol hatası" (Some "AUTHORIZATION_ERROR"))
  | Some u =>
      let userRole := userType u in
      let userId := _id u in
      if strict_eq userRole "admin" then Next (Some u)
      else
        let resourceUserId := or_else (param_id params) (param_studentId params) in
        if (strict_eq userRole "student" && truthy resourceUserId &&
            negb (strict_eq resourceUserId userId))%bool
        then Respond (reject 403 "Bu kaynağa erişim yetkiniz bulunmamaktadır"
                        (Some "ACCESS_DENIED"))
        else Next (Some u)
  end.

(** [optionalAuth]: it always ends in [next()]; [req.user] is set only
    when everything succeeded. *)
Definition optionalAuth (env : Env) (req : AuthRequest) : MwResult :=
  let token := extractToken req in
  match token with
  | None => Next None
  | Some t =>
      if negb (truthy token) then Next None
      else
        match jwt_verify env t with
        | Throw _ => Next None
        | Ok decoded =>
            let ut := claim_userType decoded in
            let user :=
              if strict_eq ut "student" then Student_findById env (claim_id decoded)
              else if (strict_eq ut "teacher" || strict_eq ut "admin")%bool
              then User_findById env (claim_id decoded)
              else Ok None in
            match user with
            | Throw _ => Next None
            | Ok None => Next None
            | Ok (Some u) =>
                if isActive u then Next (Some (set_userType ut u)) else Next None
            end
        end
  end.

End VerifyToken.

(** ** middleware/auth.js *)

Module AuthMw.

(** The [catch] block of [protect]. *)
Definition invalid_token : MwResult :=
  Respond (reject 401 "Geçersiz token" None).

(** The end of the [try] block of [protect], for a loaded document. *)
Definition finish (user : Principal) : MwResult :=
  if negb (isActive user)
  then Respond (reject 401 "Hesap deaktif durumda" None)
  else Next (Some user).

(** [protect]. Assigning [user.userType] on a [null] lookup result throws
    a [TypeError] inside the [try], so a missing document ends in the
    [catch] answer. *)
Definition protect (env : Env) (req : AuthRequest) : MwResult :=
  let token := extractToken req in
  match token with
  | None => Respond (reject 401 "Erişim reddedildi. Lütfen giriş yapın." None)
  | Some t =>
      if negb (truthy token)
      then Respond (reject 401 "Erişim reddedildi. Lütfen giriş yapın." None)
      else
        match jwt_verify env t with
        | Throw _ => invalid_token
        | Ok decoded =>
            let ut := claim_userType decoded in
            if strict_eq ut "student" then
              match Student_findById env (claim_id decoded) with
              | Throw _ => invalid_token
              | Ok None => invalid_token
              | Ok (Some user) => finish (set_userType (Some "student") user)
              end
            else if (strict_eq ut "teacher" || strict_eq ut "admin")%bool then
              match User_findById env (claim_id decoded) with
              | Throw _ => invalid_token
              | Ok None => invalid_token
              | Ok (Some user) =>
                  finish (set_userType (or_else ut (Some "teacher")) user)
              end
            else Respond (reject 401 "Kullanıcı bulunamadı" None)
        end
  end.

(** [authorize(...roles)] applied to [req.user]. *)
Definition authorize (roles : list string) (req_user : option Principal) : MwResult :=
  match req_user with
  | None => Respond (reject 401 "Erişim reddedildi" None)
  | Some u =>
      let userRole := or_else (userType u) (role u) in
      if negb (arr_includes roles userRole)
      then Respond (reject 403 "Bu işlem için yetkiniz yok" None)
      else Next (Some u)
  end.

(** [ownershipOrAdmin(resourceField)] applied to [req.user] and
    [req.params]. *)
Definition ownershipOrAdmin (req_user : option Principal) (params : RouteParams) : MwResult :=
  match req_user with
  | None => Respond (reject 500 "Yetkilendirme hatası" None)
  | Some u =>
      let userRole := or_else (userType u) (role u) in
      if strict_eq userRole "admin" then Next (Some u)
      else if (strict_eq userRole "student" && truthy (param_id params) &&
               negb (strict_eq (param_id params) (_id u)))%bool
      then Respond (reject 403 "Bu kaynağa erişim yetkiniz yok" None)
      else Next (Some u)
  end.

(** [optionalAuth] of this file. As in [protect], a lookup that finds
    nothing makes the assignment to [user.userType] throw, which the
    [catch] swallows. *)
Definition optionalAuth (env : Env) (req : AuthRequest) : MwResult :=
  let token := extractToken req in
  match token with
  | None => Next None
  | Some t =>
      if negb (truthy token) then Next None
      else
        match jwt_verify env t with
        | Throw _ => Next None
        | Ok decoded =>
            let ut := claim_userType decoded in
            let user :=
              if strict_eq ut "student" then
                match Student_findById env (claim_id decoded) with
                | Ok (Some u) => Ok (Some (set_userType (Some "student") u))
                | Ok None => Throw (mkError "TypeError" "Cannot set properties of null")
                | Throw e => Throw e
                end
              else if (strict_eq ut "teacher" || strict_eq ut "admin")%bool then
                match User_findById env (claim_id decoded) with
                | Ok (Some u) =>
                    Ok (Some (set_userType (or_else ut (Some "teacher")) u))
                | Ok None => Throw (mkError "TypeError" "Cannot set properties of null")
                | Throw e => Throw e
                end
              else Ok None in
            match user with
            | Throw _ => Next None
            | Ok None => Next None
            | Ok (Some u) => if isActive u then Next (Some u) else Next None
            end
        end
  end.

End AuthMw.

(** ** routes/admin.js *)

Module AdminRoutes.

(** [router.use(verifyToken); router.use(adminOnly)]: what every handler
    of the admin router sits behind. *)
Definition gate (env : Env) (req : AuthRequest) : MwResult :=
  match VerifyToken.verifyToken env req with
  | Respond r => Respond r
  | Next u => VerifyToken.adminOnly u
  end.

End AdminRoutes.

(** ** How Express runs a request through its middleware *)

Module Express.

(** The request as the authentication code sees it: the credentials it
    reads, and the [user] property that authenticators assign and gates
    read. *)
Record Req := mkReq {
  credentials : AuthRequest;
  user : option Principal
}.

(** A middleware either answers the request or calls [next()], handing
    the request on as it left it. *)
Inductive Step :=
| Answer (r : Response)
| Continue (req : Req).

Definition Middleware : Type := Req -> Step.

(** The stack is run in the order of mounting, until a middleware
    answers. *)
Fixpoint dispatch (stack : list Middleware) (req : Req) : Step :=
  match stack with
  | [] => Continue req
  | mw :: rest =>
      match mw req with
      | Answer r => Answer r
      | Continue req' => dispatch rest req'
      end
  end.

(** An authenticator such as [verifyToken]: when it calls [next()] after
    finding a principal, it has assigned it to [req.user]. *)
Definition authenticator (f : AuthRequest -> MwResult) : Middleware :=
  fun req =>
    match f (credentials req) with
    | Respond r => Answer r
    | Next (Some p) => Continue (mkReq (credentials req) (Some p))
    | Next None => Continue req
    end.

(** A gate such as [authorizeRoles(...)]: it reads [req.user] and leaves
    the request as it is. *)
Definition gate (f : option Principal -> MwResult) : Middleware :=
  fun req =>
    match f (user req) with
    | Respond r => Answer r
    | Next _ => Continue req
    end.

End Express.

(** ** routes/analytics.js *)

Module AnalyticsRoutes.

(** [router.get('/weekly', teacherOnly, getWeeklyStats)] and, declared in
    the same way, [/monthly], [/popular-pages], [/referrers],
    [/online-details] and [/dashboard]: the middleware of the route, in
    front of its handler. *)
Definition detailed : list Express.Middleware :=
  [Express.gate VerifyToken.teacherOnly].

End AnalyticsRoutes.

(** ** app.js *)

Module App.

(** The third-party middleware [app.js] mounts before its routers. *)
Record Libs := mkLibs {
  helmet : Express.Middleware;
  cors : Express.Middleware;
  limiter : Express.Middleware;
  json : Express.Middleware;
  urlencoded : Express.Middleware;
  cookieParser : Express.Middleware;
  compression : Express.Middleware;
  morgan : Express.Middleware;
  session : Express.Middleware;
  staticUploads : Express.Middleware;
  staticPublic : Express.Middleware
}.

(** They are mounted in this order; the rate limiter is mounted on
    [/api/] when [NODE_ENV] is not [development], and not at all when it
    is. *)
Definition thirdParty (development : bool) (l : Libs) : list Express.Middleware :=
  ([helmet l; cors l] ++ (if development then [] else [limiter l]) ++
   [json l; urlencoded l; cookieParser l; compression l; morgan l; session l;
    staticUploads l; staticPublic l])%list.

(** [app.use(analytics)]: [middleware/analytics.js] writes to the store
    (that is [VisitorTracking.analytics]) and then always calls [next()];
    it reads [req.user] and never assigns it. *)
Definition analytics : Express.Middleware := fun req => Express.Continue req.

(** What a request for one of the detailed analytics routes runs through:
    everything mounted before the routers, then the route's own
    middleware (the routers mounted on other prefixes are passed over). *)
Definition toAnalyticsDetailed (development : bool) (l : Libs)
  : list Express.Middleware :=
  (thirdParty development l ++ [analytics] ++ AnalyticsRoutes.detailed)%list.

End App.

(** ** routes/auth.js *)

Module AuthRoutes.

(** The validated body of a login request; [valid] is the verdict of the
    express-validator chain ([errors.isEmpty()]). *)
Record LoginRequest := mkLoginRequest {
  valid : bool;
  identifier : string;       (* email, or studentNumber *)
  password : string
}.

(** What [sendTokenResponse] writes: the token goes into the JSON body
    and into the [token] cookie. *)
Record TokenResponse := mkTokenResponse {
  tr_status : Z;
  tr_cookie : string;
  tr_body_token : string;
  tr_userType : string;
  tr_message : string
}.

Inductive LoginResult :=
| Rejected (r : Response)
| TokenSent (t : TokenResponse)
| NextError (e : Error).

(** [sendTokenResponse(user, statusCode, res, userType = 'teacher')]:
    the default applies when the argument is [undefined]. *)
Definition sendTokenResponse (env : Env) (user : Principal) (statusCode : Z)
    (ut : option string) : LoginResult :=
  let ut' := match ut with Some x => x | None => "teacher" end in
  let token := JwtHelper.generateToken env user ut' in
  TokenSent (mkTokenResponse statusCode token token ut'
    (if String.eqb ut' "student" then "Öğrenci girişi başarılı"
     else "Öğretmen girişi başarılı")).

(** [POST /api/auth/login] *)
Definition login (env : Env) (req : LoginRequest) : LoginResult :=
  if negb (valid req)
  then Rejected (reject 400 "Email ve şifre gereklidir" None)
  else
    match User_findOne_email env (identifier req) with
    | Throw e => NextError e
    | Ok None => Rejected (reject 401 "Geçersiz email veya şifre" None)
    | Ok (Some user) =>
        if negb (isActive user)
        then Rejected (reject 401 "Hesabınız deaktif durumda" None)
        else
          match matchPassword env user (password req) with
          | Throw e => NextError e
          | Ok false => Rejected (reject 401 "Geçersiz email veya şifre" None)
          | Ok true =>
              match save_lastLogin env user with
              | Throw e => NextError e
              | Ok _ => sendTokenResponse env user 200 (role user)
              end
          end
    end.

(** [POST /api/auth/student-login] *)
Definition student_login (env : Env) (req : LoginRequest) : LoginResult :=
  if negb (valid req)
  then Rejected (reject 400 "Öğrenci numarası ve şifre gereklidir" None)
  else
    match Student_findOne_number env (identifier req) with
    | Throw e => NextError e
    | Ok None => Rejected (reject 401 "Geçersiz öğrenci numarası veya şifre" None)
    | Ok (Some student) =>
        if negb (isActive student)
        then Rejected (reject 401 "Hesabınız deaktif durumda" None)
        else
          match matchPassword env student (password req) with
          | Throw e => NextError e
          | Ok false =>
              Rejected (reject 401 "Geçersiz öğrenci numarası veya şifre" None)
          | Ok true =>
              match save_lastLogin env student with
              | Throw e => NextError e
              | Ok _ => sendTokenResponse env student 200 (Some "student")
              end
          end
    end.

(** The token a login hands out, if any. *)
Definition issued (r : LoginResult) : option string :=
  match r with
  | TokenSent t => Some (tr_body_token t)
  | _ => None
  end.

(** [GET /api/auth/check]: always HTTP 200. *)
Record CheckResponse := mkCheckResponse {
  chk_status : Z;
  chk_success : bool;
  authenticated : bool;
  chk_userType : option string
}.

Definition unauthenticated : CheckResponse := mkCheckResponse 200 true false None.

Definition check (env : Env) (req : AuthRequest) : CheckResponse :=
  let token := extractToken req in
  match token with
  | None => unauthenticated
  | Some t =>
      if negb (truthy token) then unauthenticated
      else
        match jwt_verify env t with
        | Throw _ => unauthenticated
        | Ok decoded =>
            let find := if strict_eq (claim_userType decoded) "student"
                        then Student_findById env else User_findById env in
            match find (claim_id decoded) with
            | Throw _ => unauthenticated
            | Ok None => unauthenticated
            | Ok (Some user) =>
                if negb (isActive user) then unauthenticated
                else mkCheckResponse 200 true true (claim_userType decoded)
            end
        end
  end.

End AuthRoutes.

(** ** models/Analytics.js: documents *)

Record NameVersion := mkNameVersion {
  nv_name : string;
  nv_version : string
}.

Record Location := mkLocation {
  country : string;
  region : string;
  city : string;
  timezone : string;
  coordinates : list QArith_base.Q
}.

(** One document of the [OnlineUser] collection (unique on [sessionId]).
    Dates are milliseconds since the epoch. *)
Record OnlineUser := mkOnlineUser {
  ou_sessionId : string;
  ou_userId : option string;
  ou_teacherId : option string;
  ou_studentId : option string;
  ou_ip : string;
  ou_userAgent : string;
  ou_browser : NameVersion;
  ou_os : NameVersion;
  ou_device : string;
  ou_location : Location;
  ou_isAuthenticated : bool;
  ou_userRole : string;
  ou_currentPage : string;
  ou_lastActivity : Z;
  ou_loginTime : Z
}.

Record PageVisit := mkPageVisit {
  pg_url : string;
  pg_title : string;
  pg_visitTime : Z;
  pg_duration : option Z
}.

(** One document of the [Visitor] collection (unique on [(ip, sessionId)]). *)
Record Visitor := mkVisitor {
  v_ip : string;
  v_sessionId : string;
  v_firstVisit : Z;
  v_lastVisit : Z;
  v_visitCount : Z;
  v_totalDuration : Z;
  v_pages : list PageVisit;
  v_referrer : string;
  v_userAgent : string;
  v_browser : NameVersion;
  v_os : NameVersion;
  v_device : string;
  v_location : Location;
  v_isBot : bool;
  v_userId : option string;
  v_teacherId : option string;
  v_studentId : option string
}.

Record SiteStats := mkSiteStats {
  totalVisitors : Z;
  totalPageViews : Z;
  totalUsers : Z;
  totalTeachers : Z;
  totalStudents : Z;
  totalNews : Z;
  totalGalleries : Z;
  lastUpdated : Z
}.

(** The three collections the tracking middleware writes. *)
Record Db := mkDb {
  onlineUsers : gmap string OnlineUser;
  visitors : gmap (string * string) Visitor;
  siteStats : option SiteStats
}.

Definition emptyDb : Db := mkDb ∅ ∅ None.

(** ** middleware/visitorTracking.js *)

Module VisitorTracking.

(** What the tracking code reads from the request. *)
Record Request := mkRequest {
  path : string;
  sessionID : option string;
  h_user_agent : option string;
  h_referrer : option string;
  h_x_page_title : option string;
  h_x_forwarded_for : option string;
  h_x_real_ip : option string;
  connection_remoteAddress : option string;
  socket_remoteAddress : option string;
  connection_socket_remoteAddress : option string;
  req_ip : option string;
  req_user : option Principal;
  req_teacher : option Principal;
  req_student : option Principal
}.

(** Result of [geoip.lookup]. *)
Record Geo := mkGeo {
  geo_country : option string;
  geo_region : option string;
  geo_city : option string;
  geo_timezone : option string;
  geo_ll : option (list QArith_base.Q)
}.

(** The [useragent] and [geoip-lite] packages and the server's local
    calendar ([startOfDay t] is [t] after [setHours(0, 0, 0, 0)]). *)
Record Lib := mkLib {
  agent_family : string -> option string;
  agent_toVersion : string -> option string;
  agent_os_family : string -> option string;
  agent_os_toVersion : string -> option string;
  geoip_lookup : string -> outcome (option Geo);
  startOfDay : Z -> Z
}.

(** One reading of the clock and of [Math.random()] (as the template
    literal prints it). A tracking call reads the clock several times;
    the model gives all its readings the same instant. *)
Record Tick := mkTick {
  now : Z;
  random : string
}.

Definition BOT_PATTERNS : list string :=
  [ "bot"; "crawler"; "spider"; "scraper";
    "googlebot"; "bingbot"; "slurp"; "duckduckbot";
    "baiduspider"; "yandexbot"; "facebookexternalhit";
    "twitterbot"; "linkedinbot"; "whatsapp";
    "telegrambot"; "applebot"; "curl"; "wget" ].

Definition getClientIP (req : Request) : string :=
  interpolate
    (or_else (h_x_forwarded_for req)
    (or_else (h_x_real_ip req)
    (or_else (connection_remoteAddress req)
    (or_else (socket_remoteAddress req)
    (or_else (connection_socket_remoteAddress req)
    (or_else (req_ip req) (Some "127.0.0.1"))))))).

(** [req.get('User-Agent') || ''] *)
Definition userAgentString (req : Request) : string :=
  interpolate (or_else (h_user_agent req) (Some "")).

Definition unknown_if_falsy (v : option string) : string :=
  interpolate (or_else v (Some "Unknown")).

Definition analyzeUserAgent (lib : Lib) (ua : string)
  : NameVersion * NameVersion * string :=
  let device :=
    if truthy (Some ua) then
      if (includes "Mobile" ua || includes "Android" ua ||
          includes "iPhone" ua || includes "iPad" ua)%bool
      then if includes "iPad" ua then "tablet" else "mobile"
      else "desktop"
    else "unknown" in
  (mkNameVersion (unknown_if_falsy (agent_family lib ua))
                 (unknown_if_falsy (agent_toVersion lib ua)),
   mkNameVersion (unknown_if_falsy (agent_os_family lib ua))
                 (unknown_if_falsy (agent_os_toVersion lib ua)),
   device).

Definition unknown_location : Location :=
  mkLocation "Unknown" "Unknown" "Unknown" "UTC" [QArith_base.Qmake 0 1; QArith_base.Qmake 0 1].

Definition getLocationInfo (lib : Lib) (ip : string) : Location :=
  if (String.eqb ip "127.0.0.1" || String.eqb ip "::1" ||
      startsWith "192.168." ip || startsWith "10." ip)%bool
  then mkLocation "Turkey" "Local" "Local" "Europe/Istanbul" [QArith_base.Qmake 29 1; QArith_base.Qmake 41 1]
  else
    match geoip_lookup lib ip with
    | Ok (Some geo) =>
        mkLocation (unknown_if_falsy (geo_country geo))
                   (unknown_if_falsy (geo_region geo))
                   (unknown_if_falsy (geo_city geo))
                   (interpolate (or_else (geo_timezone geo) (Some "UTC")))
                   (match geo_ll geo with Some ll => ll | None => [QArith_base.Qmake 0 1; QArith_base.Qmake 0 1] end)
    | Ok None => unknown_location
    | Throw _ => unknown_location
    end.

Definition isBot (userAgentString : string) : bool :=
  if negb (truthy (Some userAgentString)) then false
  else existsb (fun pattern => test_i pattern userAgentString) BOT_PATTERNS.

Definition getUserRole (req : Request) : string :=
  match req_user req with
  | Some u => if strict_eq (role u) "admin" then "admin" else "teacher"
  | None =>
      match req_student req with
      | Some _ => "student"
      | None =>
          match req_teacher req with
          | Some _ => "teacher"
          | None => "guest"
          end
      end
  end.

(** [req.sessionID || `guest_${Date.now()}_${Math.random()}`] *)
Definition guestKey (c : Tick) : string :=
  "guest_" ++ pretty (now c) ++ "_" ++ random c.

Definition sessionIdOf (c : Tick) (req : Request) : string :=
  interpolate (or_else (sessionID req) (Some (guestKey c))).

(** [userId], [teacherId], [studentId] *)
Definition subjectIds (req : Request)
  : option string * option string * option string :=
  match req_user req with
  | Some u => (Some (_id u), None, None)
  | None =>
      match req_teacher req with
      | Some t => (None, Some (_id t), None)
      | None =>
          match req_student req with
          | Some s => (None, None, Some (_id s))
          | None => (None, None, None)
          end
      end
  end.

Definition isAuthenticatedReq (req : Request) : bool :=
  match req_user req, req_student req, req_teacher req with
  | None, None, None => false
  | _, _, _ => true
  end.

Definition skipOnline (p : string) : bool :=
  (startsWith "/uploads" p || startsWith "/favicon" p ||
   String.eqb p "/api/health" || String.eqb p "/robots.txt" ||
   String.eqb p "/sitemap.xml")%bool.

Definition skipVisitor (p : string) : bool :=
  (startsWith "/api" p || startsWith "/uploads" p || startsWith "/favicon" p ||
   String.eqb p "/robots.txt" || String.eqb p "/sitemap.xml")%bool.

(** [OnlineUser.findOneAndUpdate({ sessionId }, { $set, $setOnInsert },
    { upsert: true })]: every [$set] field is overwritten, [loginTime]
    is written on insert only. *)
Definition upsertOnline (lib : Lib) (c : Tick) (req : Request)
    (m : gmap string OnlineUser) : gmap string OnlineUser :=
  let ip := getClientIP req in
  let ua := userAgentString req in
  let sessionId := sessionIdOf c req in
  let '(br, os, device) := analyzeUserAgent lib ua in
  let '(userId, teacherId, studentId) := subjectIds req in
  let loginTime :=
    match m !! sessionId with
    | Some old => ou_loginTime old
    | None => now c
    end in
  <[sessionId :=
      mkOnlineUser sessionId userId teacherId studentId ip ua br os device
        (getLocationInfo lib ip) (isAuthenticatedReq req) (getUserRole req)
        (path req) (now c) loginTime]> m.

(** [trackOnlineUser]: the state of the store after the call (the
    request itself always goes on to [next()]). *)
Definition trackOnlineUser (lib : Lib) (c : Tick) (req : Request) (db : Db) : Db :=
  if skipOnline (path req) then db
  else if isBot (userAgentString req) then db
  else mkDb (upsertOnline lib c req (onlineUsers db)) (visitors db) (siteStats db).

(** [Visitor.findOneAndUpdate({ ip, sessionId }, { $set, $setOnInsert },
    { upsert: true, new: true })]: the stored document after the update,
    which is also the one handed back. *)
Definition upsertVisitor (lib : Lib) (c : Tick) (req : Request)
    (m : gmap (string * string) Visitor) : Visitor :=
  let ip := getClientIP req in
  let ua := userAgentString req in
  let sessionId := sessionIdOf c req in
  let referrer := interpolate (or_else (h_referrer req) (Some "direct")) in
  let '(br, os, device) := analyzeUserAgent lib ua in
  let '(userId, teacherId, studentId) := subjectIds req in
  match m !! (ip, sessionId) with
  | Some old =>
      mkVisitor (v_ip old) (v_sessionId old) (v_firstVisit old) (now c)
        (v_visitCount old) (v_totalDuration old) (v_pages old) (v_referrer old)
        ua br os device (getLocationInfo lib ip) false userId teacherId studentId
  | None =>
      mkVisitor ip sessionId (now c) (now c) 0 0 [] referrer
        ua br os device (getLocationInfo lib ip) false userId teacherId studentId
  end.

(** The in-memory changes between the upsert and [visitor.save()]. *)
Definition recordPage (c : Tick) (req : Request) (visitor : Visitor) : Visitor :=
  let pageTitle := interpolate (or_else (h_x_page_title req) (Some (path req))) in
  mkVisitor (v_ip visitor) (v_sessionId visitor) (v_firstVisit visitor) (now c)
    (v_visitCount visitor + 1) (v_totalDuration visitor)
    (v_pages visitor ++ [mkPageVisit (path req) pageTitle (now c) None])
    (v_referrer visitor) (v_userAgent visitor) (v_browser visitor) (v_os visitor)
    (v_device visitor) (v_location visitor) (v_isBot visitor)
    (v_userId visitor) (v_teacherId visitor) (v_studentId visitor).

(** [updateSiteStats] *)
Definition updateSiteStats (lib : Lib) (c : Tick)
    (vs : gmap (string * string) Visitor) (st : option SiteStats) : option SiteStats :=
  let todayVisitors :=
    Z.of_nat (size (filter (fun kv => startOfDay lib (now c) ≤ v_lastVisit kv.2) vs)) in
  match st with
  | Some s =>
      Some (mkSiteStats (totalVisitors s) (totalPageViews s + 1) (totalUsers s)
              (totalTeachers s) (totalStudents s) (totalNews s) (totalGalleries s)
              (now c))
  | None => Some (mkSiteStats todayVisitors 1 0 0 0 0 0 (now c))
  end.

(** [visitor.save()] validates the document before it writes. Of the
    paths the schema requires, [ip] and [sessionId] are the non-empty
    values of the query, and [device] is one of the enum's values;
    [userAgent] is whatever the request sent, [''] when it sent none, and
    Mongoose's [required] refuses the empty string. *)
Definition passesValidation (visitor : Visitor) : bool :=
  truthy (Some (v_userAgent visitor)).

(** [trackVisitor]: the state of the store after the call. When [save()]
    rejects the document, the [catch] logs the error and calls [next()]:
    the store keeps what the upsert wrote, without the page entry, and
    [updateSiteStats] is not reached. *)
Definition trackVisitor (lib : Lib) (c : Tick) (req : Request) (db : Db) : Db :=
  if skipVisitor (path req) then db
  else if isBot (userAgentString req) then db
  else
    let key := (getClientIP req, sessionIdOf c req) in
    let visitor := upsertVisitor lib c req (visitors db) in
    let upserted := <[key := visitor]> (visitors db) in
    if passesValidation (recordPage c req visitor) then
      let saved := <[key := recordPage c req visitor]> upserted in
      mkDb (onlineUsers db) saved (updateSiteStats lib c saved (siteStats db))
    else mkDb (onlineUsers db) upserted (siteStats db).

(** [middleware/analytics.js]: both trackers, one after the other. *)
Definition analytics (lib : Lib) (c1 c2 : Tick) (req : Request) (db : Db) : Db :=
  trackVisitor lib c2 req (trackOnlineUser lib c1 req db).

End VisitorTracking.

(** ** The aggregation stages and date operators the queries use (MongoDB,
       dates in UTC) *)

Module Mongo.

Definition msPerDay : Z := 86400000.

(** Day index (days since 1970-01-01) of an instant. *)
Definition dayIndex (t : Z) : Z := t `div` msPerDay.

(** Proleptic Gregorian calendar date of a day index. *)
Definition civil_from_days (days : Z) : Z * Z * Z :=
  let z := days + 719468 in
  let era := z `div` 146097 in
  let doe := z - era * 146097 in
  let yoe := (doe - doe `div` 1460 + doe `div` 36524 - doe `div` 146096) `div` 365 in
  let doy := doe - (365 * yoe + yoe `div` 4 - yoe `div` 100) in
  let mp := (5 * doy + 2) `div` 153 in
  let d := doy - (153 * mp + 2) `div` 5 + 1 in
  let m := if mp <? 10 then mp + 3 else mp - 9 in
  let y := yoe + era * 400 in
  (if m <=? 2 then y + 1 else y, m, d).

Definition days_from_civil (y m d : Z) : Z :=
  let y' := if m <=? 2 then y - 1 else y in
  let era := y' `div` 400 in
  let yoe := y' - era * 400 in
  let doy := (153 * (if 2 <? m then m - 3 else m + 9) + 2) `div` 5 + d - 1 in
  let doe := yoe * 365 + yoe `div` 4 - yoe `div` 100 + doy in
  era * 146097 + doe - 719468.

(** [{ year: { $year: t }, month: { $month: t }, day: { $dayOfMonth: t } }] *)
Definition ymd (t : Z) : Z * Z * Z := civil_from_days (dayIndex t).

(** [$dateFromParts] *)
Definition dateFromParts (k : Z * Z * Z) : Z :=
  let '(y, m, d) := k in days_from_civil y m d * msPerDay.

Section Group.
Context {A K Acc : Type} `{EqDecision K}.
Variables (key : A -> K) (init : Acc) (step : A -> Acc -> Acc).

(** One document entering a [$group] stage. *)
Fixpoint group_add (a : A) (gs : list (K * Acc)) : list (K * Acc) :=
  match gs with
  | [] => [(key a, step a init)]
  | (k, acc) :: gs' =>
      if decide (key a = k) then (k, step a acc) :: gs'
      else (k, acc) :: group_add a gs'
  end.

(** [$group]: one output document per distinct key, in order of first
    appearance. *)
Definition group (docs : list A) : list (K * Acc) :=
  foldl (fun gs a => group_add a gs) [] docs.
End Group.

(** [$limit: n]; the server refuses a limit that is not positive. *)
Definition limit {A : Type} (n : Z) (l : list A) : outcome (list A) :=
  if n <=? 0 then Throw (mkError "MongoServerError" "the limit must be positive")
  else Ok (take (Z.to_nat n) l).

(** [$round: [sum / count, 0]] for non-negative integers: to the nearest
    integer, halves to the even one. *)
Definition round_avg (sum count : Z) : Z :=
  let q := sum `div` count in
  let r := sum `mod` count in
  if 2 * r <? count then q
  else if count <? 2 * r then q + 1
  else if Z.even q then q else q + 1.

End Mongo.

(** ** models/Analytics.js: static methods *)

Module AnalyticsModel.

Definition window : Z := 30 * 60 * 1000.

(** [OnlineUser.getOnlineCount()] evaluated at instant [now]. *)
Definition getOnlineCount (now : Z) (m : gmap string OnlineUser) : nat :=
  size (filter (fun kv => now - window ≤ ou_lastActivity kv.2) m).

(** [OnlineUser.getOnlineByRole()]: [(_id, count)] pairs. *)
Definition getOnlineByRole (now : Z) (m : gmap string OnlineUser) : list (string * Z) :=
  Mongo.group ou_userRole 0 (fun _ n => n + 1)
    (filter (fun d => now - window ≤ ou_lastActivity d) (map_to_list m).*2).

Record TodayStats := mkTodayStats {
  ts_totalVisitors : Z;
  ts_uniqueVisitors : Z;
  ts_totalPageViews : Z;
  ts_avgDuration : Z
}.

(** [Visitor.getTodayStats()], [today] and [tomorrow] being the local
    midnights around the call. *)
Definition getTodayStats (today tomorrow : Z) (coll : list Visitor) : list TodayStats :=
  let matched := filter (fun v => today ≤ v_lastVisit v < tomorrow) coll in
  (fun g : unit * (Z * gset string * Z * Z) =>
     let '(_, (n, ips, views, dur)) := g in
     mkTodayStats n (Z.of_nat (size ips)) views (Mongo.round_avg dur n))
  <$> Mongo.group (fun _ => tt) (0, ∅, 0, 0)
        (fun v '(n, ips, views, dur) =>
           (n + 1, {[v_ip v]} ∪ ips, views + Z.of_nat (length (v_pages v)),
            dur + v_totalDuration v))
        matched.

(** [onlineUserSchema.methods.updateActivity(page)], the document before
    [save()]. *)
Definition updateActivity (now : Z) (page : option string) (d : OnlineUser) : OnlineUser :=
  mkOnlineUser (ou_sessionId d) (ou_userId d) (ou_teacherId d) (ou_studentId d)
    (ou_ip d) (ou_userAgent d) (ou_browser d) (ou_os d) (ou_device d)
    (ou_location d) (ou_isAuthenticated d) (ou_userRole d)
    (interpolate (or_else page (Some (ou_currentPage d)))) now (ou_loginTime d).

(** [visitorSchema.methods.addPageVisit(url, title, duration)], the
    document before [save()]; [visitTime] and [lastVisit] are the two
    clock readings of the call. A [duration] that is [undefined] or 0 is
    falsy and leaves [totalDuration] alone. *)
Definition addPageVisit (visitTime lastVisit : Z) (url title : string)
    (duration : option Z) (v : Visitor) : Visitor :=
  mkVisitor (v_ip v) (v_sessionId v) (v_firstVisit v) lastVisit
    (v_visitCount v + 1)
    (match duration with
     | Some d => if d =? 0 then v_totalDuration v else v_totalDuration v + d
     | None => v_totalDuration v
     end)
    (v_pages v ++ [mkPageVisit url title visitTime duration])
    (v_referrer v) (v_userAgent v) (v_browser v) (v_os v) (v_device v)
    (v_location v) (v_isBot v) (v_userId v) (v_teacherId v) (v_studentId v).

(** The virtual [isNewVisitor]. *)
Definition isNewVisitor (v : Visitor) : bool := v_visitCount v =? 1.

(** [page.duration || 0] *)
Definition durationOrZero (p : PageVisit) : Z := default 0 (pg_duration p).

(** The virtual [avgPageDuration]: [Math.round] of the mean, that is the
    nearest integer, halves upwards. *)
Definition avgPageDuration (v : Visitor) : Z :=
  if decide (length (v_pages v) = 0%nat) then 0
  else
    let totalDuration := foldl (fun sum page => sum + durationOrZero page) 0 (v_pages v) in
    (2 * totalDuration + Z.of_nat (length (v_pages v)))
      `div` (2 * Z.of_nat (length (v_pages v))).

End AnalyticsModel.

(** ** middleware/visitorTracking.js: reading and cleaning the store *)

Module OnlineStats.

(** [getOnlineStats]: an object with the keys [total], [guests],
    [students], [teachers], [admins], into which every role group of
    [getOnlineByRole] is written under its name followed by an s. The two
    queries read the clock one after the other, at [now1] and [now2]. *)
Definition getOnlineStats (now1 now2 : Z) (m : gmap string OnlineUser) : gmap string Z :=
  foldl (fun stats (role : string * Z) => <[role.1 ++ "s" := role.2]> stats)
    (<["admins" := 0]> (<["teachers" := 0]> (<["students" := 0]> (<["guests" := 0]>
       {["total" := Z.of_nat (AnalyticsModel.getOnlineCount now1 m)]}))))
    (AnalyticsModel.getOnlineByRole now2 m).

(** [cleanupOldRecords]: [Visitor.deleteMany({ lastVisit: { $lt:
    thirtyDaysAgo } })], [thirtyDaysAgo] being the instant of the sweep
    moved back thirty calendar days. *)
Definition cleanupOldRecords (thirtyDaysAgo : Z) (db : Db) : Db :=
  mkDb (onlineUsers db)
       (filter (fun kv => ¬ v_lastVisit kv.2 < thirtyDaysAgo) (visitors db))
       (siteStats db).

End OnlineStats.

(** ** controllers/analyticsController.js *)

Module AnalyticsController.

(** The documents of the [Visitor] collection. *)
Definition docs (db : Db) : list Visitor := (map_to_list (visitors db)).*2.

(** [parseInt(req.query.x) || dflt]: [None] is [NaN]. *)
Definition param (q : option Z) (dflt : Z) : Z :=
  match q with
  | Some n => if n =? 0 then dflt else n
  | None => dflt
  end.

Record DayRow := mkDayRow {
  date : Z;
  visitors_ : Z;
  uniqueVisitors : Z;
  pageViews : Z;
  newVisitors : Z
}.

(** The [$group] accumulators of the weekly and monthly pipelines:
    [visitors], [uniqueIPs], [pageViews], [newVisitors]. *)
Definition dayStep (v : Visitor) (acc : Z * gset string * Z * Z)
  : Z * gset string * Z * Z :=
  let '(n, ips, views, fresh) := acc in
  (n + 1, {[v_ip v]} ∪ ips, views + Z.of_nat (length (v_pages v)),
   fresh + (if v_visitCount v =? 1 then 1 else 0)).

Definition dayProject (g : (Z * Z * Z) * (Z * gset string * Z * Z)) : DayRow :=
  let '(k, (n, ips, views, fresh)) := g in
  mkDayRow (Mongo.dateFromParts k) n (Z.of_nat (size ips)) views fresh.

Definition byDate (a b : DayRow) : Prop := date a ≤ date b.

#[global] Instance byDate_dec : RelDecision byDate.
Proof. intros a b. unfold byDate. apply _. Defined.

(** The pipeline shared by [getWeeklyStats] and [getMonthlyStats]:
    [$match] on [lastVisit], [$group] on the calendar day of [lastVisit],
    [$project], [$sort: { date: 1 }]. ([$sort] is a merge sort here; where
    sort keys tie, as [views] may below, the server is free to order the
    rows otherwise.) *)
Definition dailyPipeline (startDate endDate : Z) (coll : list Visitor) : list DayRow :=
  merge_sort byDate
    (dayProject <$>
       Mongo.group (fun v => Mongo.ymd (v_lastVisit v)) (0, ∅, 0, 0) dayStep
         (filter (fun v => startDate ≤ v_lastVisit v ≤ endDate) coll)).

(** [getWeeklyStats]: [endDate] is the instant of the call, [startDate]
    the same wall-clock time seven calendar days earlier. The weekly rows
    do not carry [newVisitors]. *)
Definition getWeeklyStats (startDate endDate : Z) (coll : list Visitor) : list DayRow :=
  (fun r => mkDayRow (date r) (visitors_ r) (uniqueVisitors r) (pageViews r) 0)
  <$> dailyPipeline startDate endDate coll.

(** [getMonthlyStats]: [startDate] is one calendar month before
    [endDate]. *)
Definition getMonthlyStats (startDate endDate : Z) (coll : list Visitor) : list DayRow :=
  dailyPipeline startDate endDate coll.

Record PageRow := mkPageRow {
  pr_url : string;
  pr_title : option string;
  pr_views : Z;
  pr_uniqueVisitors : Z
}.

(** [$unwind: '$pages'] *)
Definition unwind (coll : list Visitor) : list (Visitor * PageVisit) :=
  v ← coll; (fun p => (v, p)) <$> v_pages v.

Definition pageStep (vp : Visitor * PageVisit) (acc : option string * Z * gset string)
  : option string * Z * gset string :=
  let '(title, views, ips) := acc in
  (match title with Some t => Some t | None => Some (pg_title vp.2) end,
   views + 1, {[v_ip vp.1]} ∪ ips).

Definition pageProject (g : string * (option string * Z * gset string)) : PageRow :=
  let '(url, (title, views, ips)) := g in
  mkPageRow url title views (Z.of_nat (size ips)).

Definition byViewsDesc (a b : PageRow) : Prop := pr_views b ≤ pr_views a.

#[global] Instance byViewsDesc_dec : RelDecision byViewsDesc.
Proof. intros a b. unfold byViewsDesc. apply _. Defined.

(** The rows of [getPopularPages] before [$limit]. *)
Definition popularRows (startDate : Z) (coll : list Visitor) : list PageRow :=
  merge_sort byViewsDesc
    (pageProject <$>
       Mongo.group (fun vp : Visitor * PageVisit => pg_url vp.2) (None, 0, ∅) pageStep
         (filter (fun vp : Visitor * PageVisit => startDate ≤ pg_visitTime vp.2)
            (unwind (filter (fun v => startDate ≤ v_lastVisit v) coll)))).

(** [getPopularPages]: [startDate] is the instant of the call moved back
    [param days 7] calendar days; [lim] is [param limit 20]. *)
Definition getPopularPages (startDate lim : Z) (coll : list Visitor)
  : outcome (list PageRow) :=
  Mongo.limit lim (popularRows startDate coll).

Record ReferrerRow := mkReferrerRow {
  rr_referrer : string;
  rr_visitors : Z;
  rr_uniqueVisitors : Z
}.

Definition byVisitorsDesc (a b : ReferrerRow) : Prop := rr_visitors b ≤ rr_visitors a.

#[global] Instance byVisitorsDesc_dec : RelDecision byVisitorsDesc.
Proof. intros a b. unfold byVisitorsDesc. apply _. Defined.

Definition referrerRows (startDate : Z) (coll : list Visitor) : list ReferrerRow :=
  merge_sort byVisitorsDesc
    ((fun g : string * (Z * gset string) =>
        mkReferrerRow g.1 g.2.1 (Z.of_nat (size g.2.2)))
     <$> Mongo.group v_referrer (0, ∅)
           (fun v '(n, ips) => (n + 1, {[v_ip v]} ∪ ips))
           (filter (fun v => startDate ≤ v_lastVisit v ∧ v_referrer v ≠ "direct") coll)).

(** [getReferrerStats] *)
Definition getReferrerStats (startDate lim : Z) (coll : list Visitor)
  : outcome (list ReferrerRow) :=
  Mongo.limit lim (referrerRows startDate coll).

(** The counts [getSiteStats] takes from the collections of users,
    students, news and galleries. *)
Record Counts := mkCounts {
  cnt_users : Z;
  cnt_teachers : Z;
  cnt_students : Z;
  cnt_news : Z;
  cnt_galleries : Z
}.

(** [getSiteStats]: the store after the handler's
    [SiteStats.findOneAndUpdate({ _id: 'site_stats' }, {...}, { upsert:
    true })]; [totalPageViews] is [pageViewsResult[0]?.totalPageViews ||
    0] of the [$group] over the whole visit log. *)
Definition getSiteStats (cnt : Counts) (now : Z) (db : Db) : Db :=
  let totalVisitors := Z.of_nat (size (visitors db)) in
  let pageViewsResult :=
    Mongo.group (fun _ : Visitor => tt) 0
      (fun v total => total + Z.of_nat (length (v_pages v))) (docs db) in
  let totalPageViews :=
    match pageViewsResult with
    | g :: _ => g.2
    | [] => 0
    end in
  mkDb (onlineUsers db) (visitors db)
    (Some (mkSiteStats totalVisitors totalPageViews (cnt_users cnt) (cnt_teachers cnt)
             (cnt_students cnt) (cnt_news cnt) (cnt_galleries cnt) now)).

End AnalyticsController.

(** ** Test doubles for the examples *)

Module Sample.

Definition alice : Principal := mkPrincipal "u-alice" true (Some "teacher") None.
Definition bora : Principal := mkPrincipal "u-bora" false (Some "teacher") None.
Definition cem : Principal := mkPrincipal "s-cem" true None None.
Definition deniz : Principal := mkPrincipal "s-deniz" false None None.

Definition expired : Error := mkError "TokenExpiredError" "jwt expired".
Definition badSignature : Error := mkError "JsonWebTokenError" "invalid signature".
Definition malformed : Error := mkError "JsonWebTokenError" "jwt malformed".

(** A token library that knows a handful of tokens. *)
Definition verify (token : string) : outcome Claims :=
  if String.eqb token "tok-alice" then Ok (mkClaims "u-alice" (Some "teacher"))
  else if String.eqb token "tok-bora" then Ok (mkClaims "u-bora" (Some "teacher"))
  else if String.eqb token "tok-cem" then Ok (mkClaims "s-cem" (Some "student"))
  else if String.eqb token "tok-deniz" then Ok (mkClaims "s-deniz" (Some "student"))
  else if String.eqb token "tok-ghost" then Ok (mkClaims "u-ghost" (Some "admin"))
  else if String.eqb token "tok-robot" then Ok (mkClaims "u-alice" (Some "robot"))
  else if String.eqb token "tok-old" then Throw expired
  else if String.eqb token "tok-forged" then Throw badSignature
  else Throw malformed.

Definition users (key : string) : outcome (option Principal) :=
  if String.eqb key "u-alice" then Ok (Some alice)
  else if String.eqb key "u-bora" then Ok (Some bora)
  else Ok None.

Definition students (key : string) : outcome (option Principal) :=
  if String.eqb key "s-cem" then Ok (Some cem)
  else if String.eqb key "s-deniz" then Ok (Some deniz)
  else Ok None.

Definition usersByEmail (email : string) : outcome (option Principal) :=
  if String.eqb email "alice@okul.example" then Ok (Some alice)
  else if String.eqb email "bora@okul.example" then Ok (Some bora)
  else Ok None.

Definition studentsByNumber (number : string) : outcome (option Principal) :=
  if String.eqb number "1001" then Ok (Some cem)
  else if String.eqb number "1002" then Ok (Some deniz)
  else Ok None.

Definition env : Env :=
  mkEnv verify
        (fun c => "tok-" ++ claim_id c)
        students users usersByEmail studentsByNumber
        (fun _ pw => Ok (String.eqb pw "secret123"))
        (fun _ => Ok tt).

Definition bearer (token : string) : AuthRequest :=
  mkAuthRequest (Some ("Bearer " ++ token)) None.

Definition lib : VisitorTracking.Lib :=
  VisitorTracking.mkLib
    (fun _ => Some "Firefox") (fun _ => Some "120.0.0")
    (fun _ => Some "Linux") (fun _ => None)
    (fun _ => Ok None)
    (fun t => t `div` 86400000 * 86400000).

Definition firefox : string :=
  "Mozilla/5.0 (X11; Linux x86_64; rv:120.0) Gecko/20100101 Firefox/120.0".

Definition googlebot : string :=
  "Mozilla/5.0 (compatible; Googlebot/2.1; +http://www.google.com/bot.html)".

(** A request for [p] from 203.0.113.7. *)
Definition browse (p : string) (sid : option string) (ua : string)
  : VisitorTracking.Request :=
  VisitorTracking.mkRequest p sid (Some ua) None None None None
    (Some "203.0.113.7") None None None None None None.

(** A request for [p] from 203.0.113.7 that sends no [User-Agent]. *)
Definition noAgent (p : string) (sid : option string) : VisitorTracking.Request :=
  VisitorTracking.mkRequest p sid None None None None None
    (Some "203.0.113.7") None None None None None None.

(** Third-party middleware that passes every request on untouched. *)
Definition passOn : App.Libs :=
  App.mkLibs Express.Continue Express.Continue Express.Continue Express.Continue
    Express.Continue Express.Continue Express.Continue Express.Continue
    Express.Continue Express.Continue Express.Continue.

(** A visitor seen on day 2 and again on day 3. *)
Definition trip : Visitor :=
  mkVisitor "203.0.113.7" "sess-1"
    (2 * 86400000 + 1) (3 * 86400000 + 5) 2 0
    [ mkPageVisit "/" "/" (2 * 86400000 + 1) None;
      mkPageVisit "/haberler" "/haberler" (3 * 86400000 + 5) None ]
    "direct" firefox (mkNameVersion "Firefox" "120.0.0") (mkNameVersion "Linux" "Unknown")
    "desktop" VisitorTracking.unknown_location false None None None.

(** The presence record of a guest. *)
Definition guest : OnlineUser :=
  mkOnlineUser "sess-1" None None None "203.0.113.7" firefox
    (mkNameVersion "Firefox" "120.0.0") (mkNameVersion "Linux" "Unknown")
    "desktop" VisitorTracking.unknown_location false "guest" "/" 0 0.

(** An administrator, and a token library that signs what it verifies. *)
Definition emine : Principal := mkPrincipal "u-emine" true (Some "admin") None.

Definition verify2 (token : string) : outcome Claims :=
  if String.eqb token "tok-emine" then Ok (mkClaims "u-emine" (Some "teacher"))
  else if String.eqb token "tok-emine-admin" then Ok (mkClaims "u-emine" (Some "admin"))
  else verify token.

Definition sign2 (c : Claims) : string :=
  if String.eqb (claim_id c) "u-emine"
  then (if strict_eq (claim_userType c) "admin" then "tok-emine-admin" else "tok-emine")
  else if String.eqb (claim_id c) "u-alice" then "tok-alice"
  else if String.eqb (claim_id c) "s-cem" then "tok-cem"
  else "tok-ghost".

Definition env2 : Env :=
  mkEnv verify2 sign2 students
        (fun key => if String.eqb key "u-emine" then Ok (Some emine) else users key)
        (fun email => if String.eqb email "emine@okul.example" then Ok (Some emine)
                      else usersByEmail email)
        studentsByNumber
        (fun _ pw => Ok (String.eqb pw "secret123"))
        (fun _ => Ok tt).

End Sample.

(** ** Vocabulary of the statements *)

(** The middleware answered with status [st], [success: false] and the
    given [code] field ([None]: the body has no [code]). *)
Definition rejects_with (res : MwResult) (st : Z) (c : option string) : Prop :=
  exists r, res = Respond r /\ status r = st /\ success (body r) = false /\
            code (body r) = c.

(** The reason codes of [verifyToken]. *)
Definition reasonCodes : list string :=
  [ "NO_TOKEN"; "TOKEN_EXPIRED"; "TOKEN_MALFORMED"; "TOKEN_INVALID";
    "USER_NOT_FOUND"; "ACCOUNT_DEACTIVATED"; "INVALID_USER_TYPE" ].

(** The request carries a well-formed bearer header. *)
Definition bearerPresent (req : AuthRequest) : bool :=
  match authorization req with
  | Some a => truthy (Some a) && startsWith "Bearer" a
  | None => false
  end.

(** What is left of [s] after the prefix [p], when [s] starts with it. *)
Fixpoint afterPrefix (p s : string) : option string :=
  match p, s with
  | EmptyString, _ => Some s
  | String _ _, EmptyString => None
  | String a p', String b s' => if Ascii.eqb a b then afterPrefix p' s' else None
  end.

(** The extraction as the specification words it: the token of an
    [Authorization: Bearer <token>] header when the request has one, else
    the token cookie when it has one, else no credential; the first match
    wins. *)
Definition specExtract (req : AuthRequest) : option string :=
  match authorization req ≫= afterPrefix "Bearer " with
  | Some (String c t) => Some (String c t)
  | _ => if truthy (cookie_token req) then cookie_token req else None
  end.

(** A middleware that, when it calls [next()], has left [req.user] as it
    found it; and one that never answers the request itself. *)
Definition leavesUserAlone (mw : Express.Middleware) : Prop :=
  forall req req', mw req = Express.Continue req' -> Express.user req' = Express.user req.

Definition callsNext (mw : Express.Middleware) : Prop :=
  forall req, exists req', mw req = Express.Continue req'.

(** A presence record whose last activity lies in the trailing window
    [[now - 30 min, now]]. *)
Definition inWindow (now : Z) (d : OnlineUser) : Prop :=
  now - AnalyticsModel.window ≤ ou_lastActivity d ≤ now.

#[global] Instance inWindow_dec (now : Z) (d : OnlineUser) : Decision (inWindow now d).
Proof. unfold inWindow. apply _. Defined.

(** The presence records of the window, read off the collection. *)
Definition recordsInWindow (now : Z) (m : gmap string OnlineUser) : list OnlineUser :=
  filter (inWindow now) (map_to_list m).*2.

(** No stored presence or visit record comes from a crawler. *)
Definition botFree (db : Db) : Prop :=
  (forall k d, onlineUsers db !! k = Some d ->
     VisitorTracking.isBot (ou_userAgent d) = false) /\
  (forall k v, visitors db !! k = Some v ->
     VisitorTracking.isBot (v_userAgent v) = false /\ v_isBot v = false).

(** The request reaches the presence tracker's upsert. *)
Definition trackedOnline (req : VisitorTracking.Request) : Prop :=
  VisitorTracking.skipOnline (VisitorTracking.path req) = false /\
  VisitorTracking.isBot (VisitorTracking.userAgentString req) = false.

(** The page entry [trackVisitor] makes up for a request, and what of it
    reaches the store: the entry is written by [visitor.save()], which
    goes through only for a request that came with a [User-Agent]. *)
Definition pageEntry (c : VisitorTracking.Tick) (req : VisitorTracking.Request) : PageVisit :=
  mkPageVisit (VisitorTracking.path req)
    (interpolate (or_else (VisitorTracking.h_x_page_title req)
                    (Some (VisitorTracking.path req))))
    (VisitorTracking.now c) None.

Definition savedEntries (c : VisitorTracking.Tick) (req : VisitorTracking.Request)
  : list PageVisit :=
  if truthy (Some (VisitorTracking.userAgentString req)) then [pageEntry c req] else [].

(** The request reaches the visit log's upsert. *)
Definition trackedVisit (req : VisitorTracking.Request) : Prop :=
  VisitorTracking.skipVisitor (VisitorTracking.path req) = false /\
  VisitorTracking.isBot (VisitorTracking.userAgentString req) = false.

Section GroupVocabulary.
Context {A K Acc : Type} `{EqDecision K}.
Variables (key : A -> K) (init : Acc) (step : A -> Acc -> Acc).

(** The accumulator of key [k] after the documents [docs]. *)
Definition accOf (k : K) (docs : list A) : Acc :=
  foldl (fun acc a => step a acc) init (filter (fun a => key a = k) docs).

(** First group with key [k]. *)
Fixpoint glookup (k : K) (gs : list (K * Acc)) : option Acc :=
  match gs with
  | [] => None
  | (k', acc) :: gs' => if decide (k = k') then Some acc else glookup k gs'
  end.
End GroupVocabulary.

(** The same visit record with the timestamps of its page entries
    replaced. *)
Definition retime (f : PageVisit -> Z) (v : Visitor) : Visitor :=
  mkVisitor (v_ip v) (v_sessionId v) (v_firstVisit v) (v_lastVisit v)
    (v_visitCount v) (v_totalDuration v)
    ((fun p => mkPageVisit (pg_url p) (pg_title p) (f p) (pg_duration p)) <$> v_pages v)
    (v_referrer v) (v_userAgent v) (v_browser v) (v_os v) (v_device v)
    (v_location v) (v_isBot v) (v_userId v) (v_teacherId v) (v_studentId v).

(** Number of page entries held by a list of visit records. *)
Definition sumPages (l : list Visitor) : Z :=
  foldr (fun v n => Z.of_nat (length (v_pages v)) + n) 0 l.

(** The visit records selected by [lastVisit] in [[s, e]] whose
    [lastVisit] falls on calendar day [k]. *)
Definition bucket (s e : Z) (k : Z * Z * Z) (coll : list Visitor) : list Visitor :=
  filter (fun v => Mongo.ymd (v_lastVisit v) = k)
    (filter (fun v => s ≤ v_lastVisit v ≤ e) coll).

(** Number of page entries of the collection visited on the calendar day
    that starts at [day]. *)
Definition entriesOnDay (day : Z) (coll : list Visitor) : Z :=
  Z.of_nat (length (filter (fun vp : Visitor * PageVisit =>
                              Mongo.dateFromParts (Mongo.ymd (pg_visitTime vp.2)) = day)
                      (AnalyticsController.unwind coll))).

(** The page entries [getPopularPages] counts: entries visited since
    [s], of records last seen since [s]. *)
Definition countedEntries (s : Z) (coll : list Visitor) : list (Visitor * PageVisit) :=
  filter (fun vp : Visitor * PageVisit => s ≤ pg_visitTime vp.2)
    (AnalyticsController.unwind (filter (fun v => s ≤ v_lastVisit v) coll)).

(** The store after a sequence of requests, each handled to its end by
    the analytics middleware before the next one starts; every request
    comes with the clock and random readings of its two tracking calls. *)
Definition run (lib : VisitorTracking.Lib)
    (reqs : list (VisitorTracking.Tick * VisitorTracking.Tick * VisitorTracking.Request))
    (db : Db) : Db :=
  foldl (fun db x => VisitorTracking.analytics lib x.1.1 x.1.2 x.2 db) db reqs.

(** What writes to the visit log or to the site-wide counter between two
    sweeps: a request handled by the analytics middleware, or a call of
    the dashboard's [getSiteStats] handler. *)
Inductive Event :=
| PageRequest (c1 c2 : VisitorTracking.Tick) (req : VisitorTracking.Request)
| SiteStatsCall (cnt : AnalyticsController.Counts) (now : Z).

Definition serve (lib : VisitorTracking.Lib) (db : Db) (e : Event) : Db :=
  match e with
  | PageRequest c1 c2 req => VisitorTracking.analytics lib c1 c2 req db
  | SiteStatsCall cnt now => AnalyticsController.getSiteStats cnt now db
  end.

Definition serveAll (lib : VisitorTracking.Lib) (events : list Event) (db : Db) : Db :=
  foldl (serve lib) db events.

(** The values the schemas allow for [device] and [userRole]. *)
Definition deviceEnum : list string := ["desktop"; "mobile"; "tablet"; "unknown"].
Definition roleEnum : list string := ["admin"; "teacher"; "student"; "guest"].

(** What holds of every presence record the tracker writes. *)
Definition presenceWellFormed (k : string) (d : OnlineUser) : Prop :=
  ou_sessionId d = k /\ ou_ip d <> "" /\
  ou_device d ∈ deviceEnum /\ ou_userRole d ∈ roleEnum /\
  (ou_isAuthenticated d = false <-> ou_userRole d = "guest").

(** What holds of every visit record the tracker writes. A record
    without page entries was last written by a request without
    [User-Agent]: its [userAgent] is empty. *)
Definition visitWellFormed (k : string * string) (v : Visitor) : Prop :=
  (v_ip v, v_sessionId v) = k /\ v_ip v <> "" /\
  v_device v ∈ deviceEnum /\
  v_visitCount v = Z.of_nat (length (v_pages v)) /\
  (v_userAgent v <> "" -> 1 ≤ v_visitCount v) /\
  v_totalDuration v = 0.

(** Number of page entries in the whole visit log. *)
Definition totalEntries (m : gmap (string * string) Visitor) : Z :=
  sumPages (map_to_list m).*2.

(** The site-wide page view counter agrees with the visit log: the log
    holds as many page entries as the counter says, and none as long as
    there is no counter. *)
Definition counterAgrees (db : Db) : Prop :=
  totalEntries (visitors db)
    = match siteStats db with
      | Some st => totalPageViews st
      | None => 0
      end.

(** Sum of a list of counts. *)
Definition sumZ (l : list Z) : Z := foldr Z.add 0 l.

(** The presence records [getOnlineByRole] counts for [role] at [now]. *)
Definition onlineWithRole (now : Z) (role : string) (m : gmap string OnlineUser)
  : list OnlineUser :=
  filter (fun d => ou_userRole d = role)
    (filter (fun d => now - AnalyticsModel.window ≤ ou_lastActivity d) (map_to_list m).*2).

(** A request on which no authenticator has left a principal. *)
Definition anonymous (req : VisitorTracking.Request) : Prop :=
  VisitorTracking.req_user req = None /\ VisitorTracking.req_teacher req = None /\
  VisitorTracking.req_student req = None.

(** The marks of an anonymous request on a presence and on a visit
    record. *)
Definition anonymousRecord (d : OnlineUser) : Prop :=
  ou_userRole d = "guest" /\ ou_isAuthenticated d = false /\
  ou_userId d = None /\ ou_teacherId d = None /\ ou_studentId d = None.

Definition anonymousVisit (v : Visitor) : Prop :=
  v_userId v = None /\ v_teacherId v = None /\ v_studentId v = None.

(** The addresses [getLocationInfo] treats as local. *)
Definition isLocalIP (ip : string) : bool :=
  (String.eqb ip "127.0.0.1" || String.eqb ip "::1" ||
   startsWith "192.168." ip || startsWith "10." ip)%bool.

(** [totalDuration] is the sum of the durations of the page entries. *)
Definition durationsAddUp (v : Visitor) : Prop :=
  v_totalDuration v
    = foldr (fun p sum => AnalyticsModel.durationOrZero p + sum) 0 (v_pages v).

(** * Properties *)

(** ** String primitives *)

Lemma append_cons (c : ascii) (s t : string) : String c s ++ t = String c (s ++ t).
Proof. reflexivity. Qed.

Lemma append_empty_r (s : string) : s ++ "" = s.
Proof. induction s as [|c s IH]; [done | by rewrite append_cons, IH]. Qed.

Lemma startsWith_app (x b : string) : startsWith x (x ++ b) = true.
Proof.
  induction x as [|c x IH]; [done|].
  rewrite append_cons. simpl. by rewrite Ascii.eqb_refl.
Qed.

Lemma startsWith_app_l (x a b : string) :
  startsWith x a = true -> startsWith x (a ++ b) = true.
Proof.
  revert a. induction x as [|c x IH]; intros a H; [done|].
  destruct a as [|d a]; [done|].
  rewrite append_cons. simpl in *.
  apply andb_true_iff in H as [-> H]. by apply IH.
Qed.

Lemma includes_here (x b : string) : includes x (x ++ b) = true.
Proof.
  destruct (x ++ b) eqn:E; simpl; rewrite <- E, startsWith_app; done.
Qed.

Lemma includes_app_r (x a b : string) :
  includes x b = true -> includes x (a ++ b) = true.
Proof.
  intros H. induction a as [|c a IH]; [done|].
  rewrite append_cons. simpl. rewrite IH. apply orb_true_r.
Qed.

Lemma includes_app_l (x a b : string) :
  includes x a = true -> includes x (a ++ b) = true.
Proof.
  induction a as [|c a IH].
  - simpl. rewrite orb_false_r. destruct x; [|done]. intros _. by destruct b.
  - simpl. intros [H|H]%orb_true_iff.
    + pose proof (startsWith_app_l x (String c a) b H) as H'.
      rewrite append_cons in H'. by rewrite H'.
    + rewrite (IH H). apply orb_true_r.
Qed.

Lemma includes_join (sep r : string) (l : list string) :
  r ∈ l -> includes r (join sep l) = true.
Proof.
  unfold join. induction l as [|a l IH]; intros Hin.
  - by apply elem_of_nil in Hin.
  - apply elem_of_cons in Hin as [->|Hin].
    + destruct l; simpl.
      * rewrite <- (append_empty_r a) at 2. apply includes_here.
      * apply includes_here.
    + destruct l as [|b l]; [by apply elem_of_nil in Hin|].
      change (String.concat sep (a :: b :: l))
        with (a ++ sep ++ String.concat sep (b :: l)).
      do 2 apply includes_app_r. by apply IH.
Qed.

Lemma split_no_sep (sep : ascii) (t : string) :
  includes (String sep EmptyString) t = false -> split sep t = [t].
Proof.
  induction t as [|c t IH]; simpl; [done|].
  rewrite (Ascii.eqb_sym sep c).
  destruct (Ascii.eqb c sep); simpl; [done|].
  intros H. by rewrite (IH H).
Qed.

Lemma arr_includes_false (l : list string) (r : string) :
  r ∉ l -> arr_includes l (Some r) = false.
Proof.
  intros H. simpl. apply not_true_is_false. intros E.
  apply existsb_exists in E as (x & Hx & Heq).
  apply String.eqb_eq in Heq as ->. apply H. by apply list_elem_of_In.
Qed.

(** ** Authentication and authorization *)

Lemma catch_branch_shape (e : Error) :
  status (VerifyToken.catch_branch e) = 401 /\
  success (body (VerifyToken.catch_branch e)) = false /\
  exists c, code (body (VerifyToken.catch_branch e)) = Some c /\ c ∈ reasonCodes.
Proof.
  unfold VerifyToken.catch_branch, reasonCodes.
  repeat case_match; simpl; repeat split; eexists; split; try reflexivity;
    set_solver.
Qed.

Lemma verifyToken_rejection_shape (env : Env) (req : AuthRequest) (r : Response) :
  VerifyToken.verifyToken env req = Respond r ->
  status r = 401 /\ success (body r) = false /\
  exists c, code (body r) = Some c /\ c ∈ reasonCodes.
Proof.
  unfold VerifyToken.verifyToken, VerifyToken.no_token, VerifyToken.check_active.
  intros H.
  repeat case_match; simplify_eq; try apply catch_branch_shape;
    simpl; repeat split; eexists; (split; [reflexivity|]);
    unfold reasonCodes; set_solver.
Qed.

Lemma protect_rejection_shape (env : Env) (req : AuthRequest) (r : Response) :
  AuthMw.protect env req = Respond r ->
  status r = 401 /\ success (body r) = false /\ code (body r) = None.
Proof.
  unfold AuthMw.protect, AuthMw.invalid_token, AuthMw.finish.
  intros H. repeat case_match; simplify_eq; done.
Qed.

Lemma truthy_Some (t : string) : t <> "" -> truthy (Some t) = true.
Proof.
  intros H. simpl. apply negb_true_iff, not_true_is_false.
  by intros ?%String.eqb_eq.
Qed.

Lemma catch_branch_other (e : Error) :
  name e <> "TokenExpiredError" -> name e <> "JsonWebTokenError" ->
  VerifyToken.catch_branch e
    = reject 401 "Token doğrulanamadı" (Some "TOKEN_INVALID").
Proof.
  intros H1 H2. unfold VerifyToken.catch_branch.
  destruct (String.eqb_spec (name e) "TokenExpiredError"); [done|].
  by destruct (String.eqb_spec (name e) "JsonWebTokenError").
Qed.

(** C1 (as amended): every rejection of [verifyToken] is a 401 whose body
    carries a reason code, and the code tells the failure cases apart:
    [NO_TOKEN] without credential, [TOKEN_EXPIRED] for an expired token,
    [TOKEN_MALFORMED] for any other [JsonWebTokenError], [TOKEN_INVALID]
    for any other error raised while verifying the token or loading the
    principal, [USER_NOT_FOUND], [ACCOUNT_DEACTIVATED], and
    [INVALID_USER_TYPE] for an unknown principal kind. [protect], the other
    strict middleware, also always answers 401, but its body never has a
    [code] field. *)
Theorem C1_rejection_codes (env : Env) (req : AuthRequest) :
  (forall r, VerifyToken.verifyToken env req = Respond r ->
     status r = 401 /\ success (body r) = false /\
     exists c, code (body r) = Some c /\ c ∈ reasonCodes) /\
  (truthy (extractToken req) = false ->
     rejects_with (VerifyToken.verifyToken env req) 401 (Some "NO_TOKEN")) /\
  (forall t, extractToken req = Some t -> t <> "" ->
     (forall e, jwt_verify env t = Throw e -> name e = "TokenExpiredError" ->
        rejects_with (VerifyToken.verifyToken env req) 401 (Some "TOKEN_EXPIRED")) /\
     (forall e, jwt_verify env t = Throw e -> name e = "JsonWebTokenError" ->
        rejects_with (VerifyToken.verifyToken env req) 401 (Some "TOKEN_MALFORMED")) /\
     (forall e, jwt_verify env t = Throw e ->
        name e <> "TokenExpiredError" -> name e <> "JsonWebTokenError" ->
        rejects_with (VerifyToken.verifyToken env req) 401 (Some "TOKEN_INVALID")) /\
     (forall d e, jwt_verify env t = Ok d ->
        (claim_userType d = Some "student" /\
         Student_findById env (claim_id d) = Throw e) \/
        ((claim_userType d = Some "teacher" \/ claim_userType d = Some "admin") /\
         User_findById env (claim_id d) = Throw e) ->
        VerifyToken.verifyToken env req = Respond (VerifyToken.catch_branch e) /\
        (name e <> "TokenExpiredError" -> name e <> "JsonWebTokenError" ->
         rejects_with (VerifyToken.verifyToken env req) 401 (Some "TOKEN_INVALID"))) /\
     (forall d, jwt_verify env t = Ok d ->
        (claim_userType d = Some "student" ->
         Student_findById env (claim_id d) = Ok None ->
         rejects_with (VerifyToken.verifyToken env req) 401 (Some "USER_NOT_FOUND")) /\
        (claim_userType d = Some "teacher" \/ claim_userType d = Some "admin" ->
         User_findById env (claim_id d) = Ok None ->
         rejects_with (VerifyToken.verifyToken env req) 401 (Some "USER_NOT_FOUND")) /\
        (forall u, isActive u = false ->
         (claim_userType d = Some "student" /\
          Student_findById env (claim_id d) = Ok (Some u)) \/
         ((claim_userType d = Some "teacher" \/ claim_userType d = Some "admin") /\
          User_findById env (claim_id d) = Ok (Some u)) ->
         rejects_with (VerifyToken.verifyToken env req) 401
           (Some "ACCOUNT_DEACTIVATED")) /\
        (claim_userType d <> Some "student" -> claim_userType d <> Some "teacher" ->
         claim_userType d <> Some "admin" ->
         rejects_with (VerifyToken.verifyToken env req) 401
           (Some "INVALID_USER_TYPE")))) /\
  (forall r, AuthMw.protect env req = Respond r ->
     status r = 401 /\ success (body r) = false /\ code (body r) = None).
Proof.
  split; [apply verifyToken_rejection_shape|].
  split.
  { intros H. unfold VerifyToken.verifyToken, VerifyToken.no_token.
    destruct (extractToken req) as [t|]; [rewrite H|]; simpl;
      by eexists. }
  split; [|apply protect_rejection_shape].
  intros t Ht Hne. unfold VerifyToken.verifyToken.
  rewrite Ht, (truthy_Some t Hne). simpl.
  split; [|split; [|split; [|split]]].
  - intros e -> Hn. unfold VerifyToken.catch_branch. rewrite Hn. by eexists.
  - intros e -> Hn. unfold VerifyToken.catch_branch. rewrite Hn. by eexists.
  - intros e -> H1 H2. rewrite (catch_branch_other e H1 H2). by eexists.
  - intros d e -> Hthrow.
    assert ((if strict_eq (claim_userType d) "student"
             then match Student_findById env (claim_id d) with
                  | Throw e => Respond (VerifyToken.catch_branch e)
                  | Ok None =>
                      Respond (reject 401 "Öğrenci bulunamadı" (Some "USER_NOT_FOUND"))
                  | Ok (Some user) => VerifyToken.check_active (claim_userType d) user
                  end
             else if (strict_eq (claim_userType d) "teacher"
                      || strict_eq (claim_userType d) "admin")%bool
             then match User_findById env (claim_id d) with
                  | Throw e => Respond (VerifyToken.catch_branch e)
                  | Ok None =>
                      Respond (reject 401 "Kullanıcı bulunamadı" (Some "USER_NOT_FOUND"))
                  | Ok (Some user) => VerifyToken.check_active (claim_userType d) user
                  end
             else Respond (reject 401 "Geçersiz kullanıcı tipi" (Some "INVALID_USER_TYPE")))
            = Respond (VerifyToken.catch_branch e)) as ->.
    { destruct Hthrow as [[-> ->] | [[-> | ->] ->]]; reflexivity. }
    split; [done|]. intros H1 H2. rewrite (catch_branch_other e H1 H2). by eexists.
  - intros d ->. repeat split.
    + intros -> ->. by eexists.
    + intros [-> | ->] ->; by eexists.
    + intros u Hu [[-> ->] | [[-> | ->] ->]]; simpl;
        unfold VerifyToken.check_active; rewrite Hu; by eexists.
    + intros H1 H2 H3. destruct (claim_userType d) as [x|]; simpl; [|by eexists].
      destruct (String.eqb_spec x "student"); [congruence|].
      destruct (String.eqb_spec x "teacher"); [congruence|].
      destruct (String.eqb_spec x "admin"); [congruence|].
      by eexists.
Qed.

(** A run of C1: an expired token is answered with 401 and
    [TOKEN_EXPIRED]. *)
Lemma C1_rejection_codes_witness :
  rejects_with (VerifyToken.verifyToken Sample.env (Sample.bearer "tok-old")) 401
    (Some "TOKEN_EXPIRED").
Proof.
  destruct (C1_rejection_codes Sample.env (Sample.bearer "tok-old"))
    as (_ & _ & H & _).
  destruct (H "tok-old" eq_refl ltac:(discriminate)) as (H1 & _).
  exact (H1 Sample.expired eq_refl eq_refl).
Defined.

(** C1 as stated fails on [protect]: a request without any credential, one
    with an expired token and one with a forged token all get the same 401
    body, and that body has no [code] field. *)
Lemma C1_protect_has_no_code :
  AuthMw.protect Sample.env (mkAuthRequest None None)
    = Respond (reject 401 "Erişim reddedildi. Lütfen giriş yapın." None) /\
  AuthMw.protect Sample.env (Sample.bearer "tok-old")
    = Respond (reject 401 "Geçersiz token" None) /\
  AuthMw.protect Sample.env (Sample.bearer "tok-forged")
    = Respond (reject 401 "Geçersiz token" None) /\
  ~ (forall env req r, AuthMw.protect env req = Respond r ->
       exists c, code (body r) = Some c).
Proof.
  repeat split; try reflexivity.
  intros H.
  destruct (H Sample.env (mkAuthRequest None None) _ eq_refl) as (c & Hc).
  discriminate Hc.
Qed.

(** C2: a principal whose [isActive] flag is false gets no token from
    either login route (a valid request is answered with the deactivation
    401 whatever the password and whatever [matchPassword] would say), and
    [verifyToken] rejects a verifying token of such a principal with
    [ACCOUNT_DEACTIVATED]; the verdict follows the flag of the document
    loaded for this request, since with the flag set the same token is let
    through. *)
Theorem C2_deactivated_principals (env : Env) (u : Principal) :
  (isActive u = false ->
   (forall req, User_findOne_email env (AuthRoutes.identifier req) = Ok (Some u) ->
      AuthRoutes.issued (AuthRoutes.login env req) = None /\
      (AuthRoutes.valid req = true ->
       AuthRoutes.login env req
         = AuthRoutes.Rejected (reject 401 "Hesabınız deaktif durumda" None))) /\
   (forall req, Student_findOne_number env (AuthRoutes.identifier req) = Ok (Some u) ->
      AuthRoutes.issued (AuthRoutes.student_login env req) = None /\
      (AuthRoutes.valid req = true ->
       AuthRoutes.student_login env req
         = AuthRoutes.Rejected (reject 401 "Hesabınız deaktif durumda" None)))) /\
  (forall req t d, extractToken req = Some t -> t <> "" -> jwt_verify env t = Ok d ->
     (claim_userType d = Some "student" /\
      Student_findById env (claim_id d) = Ok (Some u)) \/
     ((claim_userType d = Some "teacher" \/ claim_userType d = Some "admin") /\
      User_findById env (claim_id d) = Ok (Some u)) ->
     (isActive u = false ->
      rejects_with (VerifyToken.verifyToken env req) 401 (Some "ACCOUNT_DEACTIVATED")) /\
     (isActive u = true ->
      VerifyToken.verifyToken env req
        = Next (Some (set_userType (claim_userType d) u)))).
Proof.
  split.
  - intros Hoff. split; intros req Hfind.
    + unfold AuthRoutes.login. rewrite Hfind, Hoff. simpl.
      destruct (AuthRoutes.valid req); simpl; split; try done.
    + unfold AuthRoutes.student_login. rewrite Hfind, Hoff. simpl.
      destruct (AuthRoutes.valid req); simpl; split; try done.
  - intros req t d Ht Hne Hd Hload.
    unfold VerifyToken.verifyToken. rewrite Ht, (truthy_Some t Hne), Hd. simpl.
    unfold VerifyToken.check_active.
    destruct Hload as [[-> ->] | [[-> | ->] ->]]; simpl;
      (split; intros ->; simpl; [by eexists | done]).
Qed.

(** A run of C2: the deactivated teacher logs in with the right password
    and is turned away; the token issued earlier is refused. *)
Lemma C2_deactivated_principals_witness :
  AuthRoutes.login Sample.env (AuthRoutes.mkLoginRequest true "bora@okul.example" "secret123")
    = AuthRoutes.Rejected (reject 401 "Hesabınız deaktif durumda" None) /\
  rejects_with (VerifyToken.verifyToken Sample.env (Sample.bearer "tok-bora")) 401
    (Some "ACCOUNT_DEACTIVATED").
Proof.
  destruct (C2_deactivated_principals Sample.env Sample.bora) as (Ha & Hb).
  split.
  - destruct (Ha eq_refl) as (Hl & _).
    exact (proj2 (Hl (AuthRoutes.mkLoginRequest true "bora@okul.example" "secret123")
                     eq_refl) eq_refl).
  - refine (proj1 (Hb (Sample.bearer "tok-bora") "tok-bora"
                      (mkClaims "u-bora" (Some "teacher")) eq_refl _ eq_refl _) eq_refl).
    + discriminate.
    + right. split; [by left | reflexivity].
Defined.

Lemma denial_message_names (allowed : list string) (r : string) :
  includes r (VerifyToken.denial_message allowed (Some r)) = true /\
  forall a, a ∈ allowed ->
    includes a (VerifyToken.denial_message allowed (Some r)) = true.
Proof.
  unfold VerifyToken.denial_message, interpolate. split.
  - do 3 apply includes_app_r.
    rewrite <- (append_empty_r r) at 2. apply includes_here.
  - intros a Ha. apply includes_app_r, includes_app_l. by apply includes_join.
Qed.

(** C3 (as amended): [authorizeRoles] answers a principal whose role is
    not allowed with 403 and [INSUFFICIENT_PERMISSION], and the message
    contains every required role and the caller's role. [authorize]
    answers 403 as well (neither 401 nor a pass-through), with a fixed
    message and no [code] field. *)
Theorem C3_insufficient_permission (allowed : list string) (u : Principal) (r : string) :
  r ∉ allowed ->
  (userType u = Some r ->
   exists resp,
     VerifyToken.authorizeRoles allowed (Some u) = Respond resp /\
     status resp = 403 /\
     code (body resp) = Some "INSUFFICIENT_PERMISSION" /\
     includes r (message (body resp)) = true /\
     forall a, a ∈ allowed -> includes a (message (body resp)) = true) /\
  (or_else (userType u) (role u) = Some r ->
   AuthMw.authorize allowed (Some u)
     = Respond (reject 403 "Bu işlem için yetkiniz yok" None)).
Proof.
  intros Hnot. split.
  - intros Hu. unfold VerifyToken.authorizeRoles. rewrite Hu.
    rewrite (arr_includes_false _ _ Hnot).
    exists (reject 403 (VerifyToken.denial_message allowed (Some r))
              (Some "INSUFFICIENT_PERMISSION")).
    split; [reflexivity|]. do 2 (split; [reflexivity|]).
    destruct (denial_message_names allowed r) as [H1 H2].
    split; [exact H1 | exact H2].
  - intros Hu. unfold AuthMw.authorize. rewrite Hu.
    by rewrite (arr_includes_false _ _ Hnot).
Qed.

(** A run of C3: a student on a teacher-or-admin route. *)
Lemma C3_insufficient_permission_witness :
  exists resp,
    VerifyToken.teacherOnly (Some (set_userType (Some "student") Sample.cem))
      = Respond resp /\
    status resp = 403 /\
    code (body resp) = Some "INSUFFICIENT_PERMISSION" /\
    includes "student" (message (body resp)) = true /\
    forall a, a ∈ ["teacher"; "admin"] -> includes a (message (body resp)) = true.
Proof.
  refine (proj1 (C3_insufficient_permission ["teacher"; "admin"]
                   (set_userType (Some "student") Sample.cem) "student" _) eq_refl).
  intros H. repeat (apply elem_of_cons in H as [H|H]; [discriminate H|]).
  by apply elem_of_nil in H.
Defined.

(** C3 as stated fails on [authorize]: the same student on the same kind of
    route gets a 403 without [code], whose message names neither the
    required roles nor the caller's role. *)
Lemma C3_authorize_has_no_code :
  exists resp,
    AuthMw.authorize ["teacher"; "admin"] (Some (set_userType (Some "student") Sample.cem))
      = Respond resp /\
    status resp = 403 /\
    code (body resp) = None /\
    includes "student" (message (body resp)) = false /\
    includes "teacher" (message (body resp)) = false /\
    includes "admin" (message (body resp)) = false.
Proof. eexists. split; [reflexivity|]. by vm_compute. Qed.

(** ** Credential extraction *)

Lemma split_bearer (t : string) :
  includes " " t = false -> split " " ("Bearer " ++ t) = ["Bearer"; t].
Proof.
  intros H. apply split_no_sep in H.
  do 7 rewrite append_cons. simpl. change ("" ++ t) with t. by rewrite H.
Qed.

Lemma bearer_prefix (t : string) :
  truthy (Some ("Bearer " ++ t)) = true /\
  startsWith "Bearer" ("Bearer " ++ t) = true.
Proof. do 7 rewrite append_cons. done. Qed.

Lemma extractToken_cookie (req : AuthRequest) :
  bearerPresent req = false ->
  extractToken req = if truthy (cookie_token req) then cookie_token req else None.
Proof.
  unfold bearerPresent, extractToken.
  destruct (authorization req) as [a|]; [|done]. by intros ->.
Qed.

Lemma includes_char_cons (c d : ascii) (s : string) :
  includes (String c EmptyString) (String d s)
    = (Ascii.eqb c d || includes (String c EmptyString) s)%bool.
Proof. simpl. by rewrite andb_true_r. Qed.

Lemma split_app_sep (sep : ascii) (p x : string) :
  includes (String sep EmptyString) p = false ->
  split sep (p ++ String sep x) = p :: split sep x.
Proof.
  induction p as [|c p IH]; intros Hp.
  - change ("" ++ String sep x) with (String sep x). simpl. by rewrite Ascii.eqb_refl.
  - rewrite append_cons. simpl in *.
    rewrite (Ascii.eqb_sym sep c) in Hp.
    destruct (Ascii.eqb c sep); [done|]. simpl in Hp. by rewrite (IH Hp).
Qed.

Lemma split_first_field (t rest : string) :
  includes " " t = false -> rest = "" \/ startsWith " " rest = true ->
  exists ws, split " " (t ++ rest) = t :: ws.
Proof.
  intros Ht [-> | Hr].
  - rewrite append_empty_r. exists []. by apply split_no_sep.
  - destruct rest as [|c r]; [done|].
    change ((Ascii.eqb " " c && true)%bool = true) in Hr.
    apply andb_true_iff in Hr as [Hc _]. apply Ascii.eqb_eq in Hc as <-.
    exists (split " " r). by apply split_app_sep.
Qed.

Lemma startsWith_nonempty (x s : string) :
  x <> "" -> startsWith x s = true -> truthy (Some s) = true.
Proof. destruct x; [done|]. by destruct s. Qed.

Lemma startsWith_before_sep (x p r : string) (sep : ascii) :
  includes (String sep EmptyString) x = false ->
  startsWith x (p ++ String sep r) = true -> startsWith x p = true.
Proof.
  revert p. induction x as [|c x IH]; intros p Hx Hs; [done|].
  rewrite includes_char_cons in Hx. apply orb_false_iff in Hx as [Hc Hx].
  destruct p as [|d p].
  - change ("" ++ String sep r) with (String sep r) in Hs. simpl in Hs.
    apply andb_true_iff in Hs as [E _]. rewrite Ascii.eqb_sym in E. congruence.
  - rewrite append_cons in Hs. simpl in *.
    apply andb_true_iff in Hs as [-> Hs]. by apply IH.
Qed.

Lemma cut_at_sep (sep : ascii) (s : string) :
  includes (String sep EmptyString) s = false \/
  exists p r, s = p ++ String sep r /\ includes (String sep EmptyString) p = false.
Proof.
  induction s as [|c s IH]; [by left|].
  destruct (Ascii.eqb sep c) eqn:E.
  - right. apply Ascii.eqb_eq in E as <-. by exists "", s.
  - destruct IH as [Hs | (p & r & -> & Hp)].
    + left. by rewrite includes_char_cons, E.
    + right. exists (String c p), r. split; [by rewrite append_cons|].
      by rewrite includes_char_cons, E.
Qed.

Lemma afterPrefix_startsWith (p s t : string) :
  afterPrefix p s = Some t -> startsWith p s = true.
Proof.
  revert s. induction p as [|a p IH]; intros [|b s]; simpl; try done.
  destruct (Ascii.eqb a b); [apply IH | done].
Qed.

Lemma afterPrefix_app (p t : string) : afterPrefix p (p ++ t) = Some t.
Proof.
  induction p as [|a p IH]; [done|]. rewrite append_cons. simpl.
  by rewrite Ascii.eqb_refl.
Qed.

Lemma extractToken_header (a : string) (ck : option string) :
  startsWith "Bearer" a = true ->
  extractToken (mkAuthRequest (Some a) ck) = nth_error (split " " a) 1.
Proof.
  intros Hb. unfold extractToken. cbn [authorization].
  by rewrite (startsWith_nonempty "Bearer" a), Hb.
Qed.

(** C4 (as amended): for every request the [Authorization] header is
    looked at first, and a header that starts with [Bearer] decides alone:
    the credential is its second field between spaces, whatever the cookie
    holds. So [Bearer <token>] wins over a cookie, while a header without
    a second field, or with an empty one, presents no credential even
    when a token cookie is there. Only a request without such a header is
    judged by its [token] cookie. Every request is of one of these kinds.
    A request that presents no credential gets [NO_TOKEN] from
    [verifyToken], while [optionalAuth] lets it pass without principal and
    the public [GET /api/auth/check] answers 200 with [authenticated:
    false]. On a request with a proper [Bearer <token>] header, or without
    any header starting with [Bearer], the code extracts what the
    specification says. *)
Theorem C4_credential_extraction :
  (forall t ck, t <> "" -> includes " " t = false ->
     extractToken (mkAuthRequest (Some ("Bearer " ++ t)) ck) = Some t) /\
  (forall req ck, bearerPresent req = false -> cookie_token req = Some ck ->
     ck <> "" -> extractToken req = Some ck) /\
  (forall req, bearerPresent req = false -> truthy (cookie_token req) = false ->
     extractToken req = None /\
     forall env,
       VerifyToken.verifyToken env req = VerifyToken.no_token /\
       AuthRoutes.check env req = AuthRoutes.mkCheckResponse 200 true false None) /\
  (forall p ck, startsWith "Bearer" p = true -> includes " " p = false ->
     extractToken (mkAuthRequest (Some p) ck) = None) /\
  (forall p t rest ck,
     startsWith "Bearer" p = true -> includes " " p = false ->
     includes " " t = false -> rest = "" \/ startsWith " " rest = true ->
     extractToken (mkAuthRequest (Some (p ++ " " ++ t ++ rest)) ck) = Some t) /\
  (forall req,
     bearerPresent req = false \/
     (exists p, authorization req = Some p /\
        startsWith "Bearer" p = true /\ includes " " p = false) \/
     (exists p t rest, authorization req = Some (p ++ " " ++ t ++ rest) /\
        startsWith "Bearer" p = true /\ includes " " p = false /\
        includes " " t = false /\ (rest = "" \/ startsWith " " rest = true))) /\
  (forall req env, truthy (extractToken req) = false ->
     VerifyToken.verifyToken env req = VerifyToken.no_token /\
     VerifyToken.optionalAuth env req = Next None /\
     AuthRoutes.check env req = AuthRoutes.mkCheckResponse 200 true false None) /\
  (forall req, bearerPresent req = false -> extractToken req = specExtract req) /\
  (forall t ck, t <> "" -> includes " " t = false ->
     specExtract (mkAuthRequest (Some ("Bearer " ++ t)) ck) = Some t).
Proof.
  split; [|split; [|split; [|split; [|split; [|split; [|split; [|split]]]]]]].
  - intros t ck Hne Hsp. unfold extractToken. cbn [authorization].
    destruct (bearer_prefix t) as [-> ->]. cbn [andb].
    by rewrite (split_bearer t Hsp).
  - intros req ck Hb Hck Hne. rewrite (extractToken_cookie req Hb), Hck.
    by rewrite (truthy_Some ck Hne).
  - intros req Hb Hck.
    assert (extractToken req = None) as He
      by (by rewrite (extractToken_cookie req Hb), Hck).
    split; [done|]. intros env.
    unfold VerifyToken.verifyToken, AuthRoutes.check. by rewrite He.
  - intros p ck Hb Hp. rewrite (extractToken_header p ck Hb).
    by rewrite (split_no_sep " " p Hp).
  - intros p t rest ck Hb Hp Ht Hrest.
    assert (startsWith "Bearer" (p ++ " " ++ t ++ rest) = true) as Hb'
      by (by apply startsWith_app_l).
    rewrite (extractToken_header _ ck Hb').
    change (" " ++ t ++ rest) with (String " " (t ++ rest)).
    rewrite (split_app_sep " " p (t ++ rest) Hp).
    destruct (split_first_field t rest Ht Hrest) as (ws & ->). done.
  - intros req. unfold bearerPresent.
    destruct (authorization req) as [a|]; [|by left].
    destruct (startsWith "Bearer" a) eqn:Hb; [|left; apply andb_false_r].
    right. destruct (cut_at_sep " " a) as [Ha | (p & r & -> & Hp)].
    + left. by exists a.
    + right. assert (startsWith "Bearer" p = true) as Hbp
        by (by apply (startsWith_before_sep "Bearer" p r " ")).
      destruct (cut_at_sep " " r) as [Hr | (t & r' & -> & Ht)].
      * exists p, r, "". rewrite append_empty_r. repeat split; try done. by left.
      * exists p, t, (String " " r'). repeat split; try done. by right.
  - intros req env Hno.
    unfold VerifyToken.verifyToken, VerifyToken.optionalAuth, AuthRoutes.check.
    destruct (extractToken req) as [t|]; [|done]. by rewrite Hno.
  - intros req Hb. rewrite (extractToken_cookie req Hb). unfold specExtract.
    unfold bearerPresent in Hb. destruct (authorization req) as [a|]; [|done].
    cbn [mbind option_bind].
    destruct (afterPrefix "Bearer " a) as [t|] eqn:Ha; [|done].
    apply afterPrefix_startsWith in Ha.
    assert (startsWith "Bearer" a = true) as Hs.
    { clear Hb. do 6 (destruct a as [|? a]; [done|]). simpl in *.
      repeat (apply andb_true_iff in Ha as [-> Ha]). done. }
    rewrite Hs, (startsWith_nonempty "Bearer" a) in Hb; done.
  - intros t ck Hne Hsp. unfold specExtract. cbn [authorization mbind option_bind].
    rewrite (afterPrefix_app "Bearer " t). by destruct t.
Qed.

(** A run of C4: header and cookie both present, the header wins; cookie
    alone; neither. *)
Lemma C4_credential_extraction_witness :
  extractToken (mkAuthRequest (Some "Bearer tok-alice") (Some "tok-cem")) = Some "tok-alice" /\
  extractToken (mkAuthRequest None (Some "tok-cem")) = Some "tok-cem" /\
  extractToken (mkAuthRequest None None) = None.
Proof.
  destruct C4_credential_extraction as (H1 & H2 & H3 & _).
  split; [|split].
  - exact (H1 "tok-alice" (Some "tok-cem") ltac:(discriminate) eq_refl).
  - exact (H2 (mkAuthRequest None (Some "tok-cem")) "tok-cem" eq_refl eq_refl
              ltac:(discriminate)).
  - exact (proj1 (H3 (mkAuthRequest None None) eq_refl eq_refl)).
Defined.

(** C4 as stated fails on a header that names the scheme without a
    token: the specification's extraction passes on to the cookie, which
    holds a valid token, whereas the code stops at the header, finds no
    credential and [verifyToken] answers [NO_TOKEN]; the same cookie
    without the header is accepted. *)
Lemma C4_header_without_token_hides_cookie :
  specExtract (mkAuthRequest (Some "Bearer") (Some "tok-alice")) = Some "tok-alice" /\
  extractToken (mkAuthRequest (Some "Bearer") (Some "tok-alice")) = None /\
  VerifyToken.verifyToken Sample.env (mkAuthRequest (Some "Bearer") (Some "tok-alice"))
    = VerifyToken.no_token /\
  VerifyToken.verifyToken Sample.env (mkAuthRequest None (Some "tok-alice"))
    = Next (Some (set_userType (Some "teacher") Sample.alice)) /\
  ~ (forall req, extractToken req = specExtract req).
Proof.
  repeat split; try reflexivity.
  intros H. specialize (H (mkAuthRequest (Some "Bearer") (Some "tok-alice"))).
  discriminate H.
Qed.

(** A header that holds the scheme alone hides the cookie: the branches
    are exclusive, so the request counts as carrying no credential. *)
Example bare_scheme_hides_cookie :
  extractToken (mkAuthRequest (Some "Bearer") (Some "tok-alice")) = None /\
  VerifyToken.verifyToken Sample.env (mkAuthRequest (Some "Bearer") (Some "tok-alice"))
    = VerifyToken.no_token.
Proof. split; reflexivity. Qed.

(** ** Token helper *)

(** C5 (as amended): [jwtHelper.verifyToken] returns the decoded claims of
    a token that verifies and [null] for every token that does not, so its
    caller cannot tell the causes apart. Only the [verifyToken] middleware
    looks at the error, and it has two classes: [TOKEN_EXPIRED] for an
    expired token and [TOKEN_MALFORMED] for every other [JsonWebTokenError],
    whatever its message. *)
Theorem C5_verify_collapses_causes (env : Env) :
  (forall t d, jwt_verify env t = Ok d -> JwtHelper.verifyToken env t = Some d) /\
  (forall t e, jwt_verify env t = Throw e -> JwtHelper.verifyToken env t = None) /\
  (forall t1 t2 e1 e2, jwt_verify env t1 = Throw e1 -> jwt_verify env t2 = Throw e2 ->
     JwtHelper.verifyToken env t1 = JwtHelper.verifyToken env t2) /\
  (forall e1 e2, name e1 = "JsonWebTokenError" -> name e2 = "JsonWebTokenError" ->
     VerifyToken.catch_branch e1 = VerifyToken.catch_branch e2 /\
     code (body (VerifyToken.catch_branch e1)) = Some "TOKEN_MALFORMED") /\
  (forall e, name e = "TokenExpiredError" ->
     code (body (VerifyToken.catch_branch e)) = Some "TOKEN_EXPIRED").
Proof.
  unfold JwtHelper.verifyToken, VerifyToken.catch_branch.
  split; [|split; [|split; [|split]]].
  - by intros t d ->.
  - by intros t e ->.
  - by intros t1 t2 e1 e2 -> ->.
  - intros e1 e2 H1 H2. by rewrite H1, H2.
  - intros e H. by rewrite H.
Qed.

(** A run of C5 on the sample token library. *)
Lemma C5_verify_collapses_causes_witness :
  JwtHelper.verifyToken Sample.env "tok-alice" = Some (mkClaims "u-alice" (Some "teacher")) /\
  JwtHelper.verifyToken Sample.env "tok-old" = JwtHelper.verifyToken Sample.env "tok-forged".
Proof.
  destruct (C5_verify_collapses_causes Sample.env) as (H1 & _ & H3 & _).
  split.
  - exact (H1 "tok-alice" _ eq_refl).
  - exact (H3 "tok-old" "tok-forged" Sample.expired Sample.badSignature eq_refl eq_refl).
Defined.

(** C5 as stated fails: an expired token, a token with a bad signature and
    a token that does not parse are three different failures of
    [jwt.verify], and [jwtHelper.verifyToken] returns the same [null] for
    all three. *)
Lemma C5_causes_not_distinguishable :
  jwt_verify Sample.env "tok-old" = Throw Sample.expired /\
  jwt_verify Sample.env "tok-forged" = Throw Sample.badSignature /\
  jwt_verify Sample.env "tok-garbled" = Throw Sample.malformed /\
  JwtHelper.verifyToken Sample.env "tok-old" = None /\
  JwtHelper.verifyToken Sample.env "tok-forged" = None /\
  JwtHelper.verifyToken Sample.env "tok-garbled" = None /\
  ~ (forall env t1 t2 e1 e2,
       jwt_verify env t1 = Throw e1 -> jwt_verify env t2 = Throw e2 -> e1 <> e2 ->
       JwtHelper.verifyToken env t1 <> JwtHelper.verifyToken env t2).
Proof.
  repeat split; try reflexivity.
  intros H.
  apply (H Sample.env "tok-old" "tok-forged" _ _ eq_refl eq_refl); [discriminate|].
  reflexivity.
Qed.

(** ** Tracking middleware *)

Import VisitorTracking AnalyticsModel.

Lemma upsertOnline_lookup (lib : Lib) (c : Tick) (req : Request)
    (m : gmap string OnlineUser) :
  exists d, upsertOnline lib c req m = <[sessionIdOf c req := d]> m /\
            ou_lastActivity d = now c /\
            ou_userAgent d = userAgentString req /\
            ou_sessionId d = sessionIdOf c req.
Proof.
  unfold upsertOnline.
  destruct (analyzeUserAgent lib (userAgentString req)) as [[br os] device].
  destruct (subjectIds req) as [[userId teacherId] studentId].
  eexists. split; [reflexivity|]. done.
Qed.

Lemma upsertVisitor_fields (lib : Lib) (c : Tick) (req : Request)
    (m : gmap (string * string) Visitor) :
  let v := upsertVisitor lib c req m in
  v_userAgent v = userAgentString req /\ v_isBot v = false /\
  v_lastVisit v = now c /\
  v_visitCount v = default 0 (v_visitCount <$> m !! (getClientIP req, sessionIdOf c req)) /\
  v_pages v = default [] (v_pages <$> m !! (getClientIP req, sessionIdOf c req)).
Proof.
  unfold upsertVisitor.
  destruct (analyzeUserAgent lib (userAgentString req)) as [[br os] device].
  destruct (subjectIds req) as [[userId teacherId] studentId].
  destruct (m !! _); done.
Qed.

Lemma passesValidation_recordPage (lib : Lib) (c : Tick) (req : Request)
    (m : gmap (string * string) Visitor) :
  passesValidation (recordPage c req (upsertVisitor lib c req m))
    = truthy (Some (userAgentString req)).
Proof.
  unfold passesValidation. cbn [recordPage v_userAgent].
  by rewrite (proj1 (upsertVisitor_fields lib c req m)).
Qed.

Lemma trackVisitor_tracked (lib : Lib) (c : Tick) (req : Request) (db : Db) :
  trackedVisit req ->
  visitors (trackVisitor lib c req db)
    = <[(getClientIP req, sessionIdOf c req) :=
          if truthy (Some (userAgentString req))
          then recordPage c req (upsertVisitor lib c req (visitors db))
          else upsertVisitor lib c req (visitors db)]> (visitors db) /\
  onlineUsers (trackVisitor lib c req db) = onlineUsers db.
Proof.
  intros [Hs Hb]. unfold trackVisitor. rewrite Hs, Hb. cbv zeta.
  rewrite passesValidation_recordPage.
  destruct (truthy (Some (userAgentString req))); simpl; [|done].
  by rewrite insert_insert_eq.
Qed.

Lemma trackVisitor_onlineUsers (lib : Lib) (c : Tick) (req : Request) (db : Db) :
  onlineUsers (trackVisitor lib c req db) = onlineUsers db.
Proof. unfold trackVisitor. by repeat case_match. Qed.

Lemma trackVisitor_untracked (lib : Lib) (c : Tick) (req : Request) (db : Db) :
  skipVisitor (path req) = true \/ isBot (userAgentString req) = true ->
  trackVisitor lib c req db = db.
Proof.
  unfold trackVisitor. intros [-> | ->]; [done|]. by destruct (skipVisitor (path req)).
Qed.

Lemma trackVisitor_siteStats (lib : Lib) (c : Tick) (req : Request) (db : Db) :
  trackedVisit req ->
  siteStats (trackVisitor lib c req db)
    = if truthy (Some (userAgentString req))
      then updateSiteStats lib c (visitors (trackVisitor lib c req db)) (siteStats db)
      else siteStats db.
Proof.
  intros [Hs Hb]. unfold trackVisitor. rewrite Hs, Hb. cbv zeta.
  rewrite passesValidation_recordPage.
  by destruct (truthy (Some (userAgentString req))).
Qed.

Lemma trackVisitor_record (lib : Lib) (c : Tick) (req : Request) (db : Db) :
  trackedVisit req ->
  exists v,
    visitors (trackVisitor lib c req db)
      = <[(getClientIP req, sessionIdOf c req) := v]> (visitors db) /\
    v_userAgent v = userAgentString req /\ v_isBot v = false /\
    v_lastVisit v = now c /\
    v_pages v
      = (default [] (v_pages <$> visitors db !! (getClientIP req, sessionIdOf c req))
         ++ savedEntries c req)%list /\
    v_visitCount v
      = default 0 (v_visitCount <$> visitors db !! (getClientIP req, sessionIdOf c req))
        + Z.of_nat (length (savedEntries c req)).
Proof.
  intros T. destruct (trackVisitor_tracked lib c req db T) as [E _].
  destruct (upsertVisitor_fields lib c req (visitors db)) as (Hua & Hbot & Hlast & Hn & Hp).
  eexists. split; [exact E|]. unfold savedEntries.
  destruct (truthy (Some (userAgentString req))); cbn [recordPage v_userAgent v_isBot
    v_lastVisit v_pages v_visitCount length].
  - rewrite Hn, Hp. done.
  - rewrite Hn, Hp, app_nil_r. repeat split; try done. lia.
Qed.

(** ** Bot filter *)

(** C8: a request whose user agent matches the crawler list leaves the
    three collections exactly as they were, in either tracker; and no
    tracking call ever stores a presence or visit record whose user agent
    is a crawler's. *)
Theorem C8_bots_never_recorded (lib : Lib) (c : Tick) (req : Request) (db : Db) :
  (isBot (userAgentString req) = true ->
   trackOnlineUser lib c req db = db /\ trackVisitor lib c req db = db) /\
  (botFree db ->
   botFree (trackOnlineUser lib c req db) /\ botFree (trackVisitor lib c req db)).
Proof.
  split.
  - intros Hbot. unfold trackOnlineUser, trackVisitor. rewrite Hbot.
    split; by case_match.
  - intros [Ho Hv]. split.
    + unfold trackOnlineUser.
      destruct (skipOnline (path req)); [done|].
      destruct (isBot (userAgentString req)) eqn:Hbot; [done|].
      split; [|exact Hv]. simpl.
      destruct (upsertOnline_lookup lib c req (onlineUsers db)) as (d & -> & _ & Hua & _).
      intros k d' [[<- <-] | [_ Hk]]%lookup_insert_Some; [by rewrite Hua | eauto].
    + destruct (skipVisitor (path req)) eqn:Hskip;
        [unfold trackVisitor; by rewrite Hskip|].
      destruct (isBot (userAgentString req)) eqn:Hbot;
        [unfold trackVisitor; by rewrite Hskip, Hbot|].
      destruct (trackVisitor_record lib c req db (conj Hskip Hbot))
        as (v' & E & Hua & Hfl & _).
      destruct (trackVisitor_tracked lib c req db (conj Hskip Hbot)) as [_ Eo].
      split; [by rewrite Eo|]. rewrite E.
      intros k v [[<- <-] | [_ Hk]]%lookup_insert_Some; [|eauto].
      by rewrite Hua, Hfl.
Qed.

(** A run of C8: Googlebot asks for the home page of a site with one
    visitor on record. *)
Lemma C8_bots_never_recorded_witness :
  let db := analytics Sample.lib (mkTick 1000 "0.25") (mkTick 1001 "0.75")
              (Sample.browse "/" (Some "sess-1") Sample.firefox) emptyDb in
  analytics Sample.lib (mkTick 2000 "0.5") (mkTick 2001 "0.125")
    (Sample.browse "/" (Some "sess-2") Sample.googlebot) db = db.
Proof.
  intros db. unfold analytics.
  destruct (C8_bots_never_recorded Sample.lib (mkTick 2000 "0.5")
              (Sample.browse "/" (Some "sess-2") Sample.googlebot) db) as [H1 _].
  destruct (C8_bots_never_recorded Sample.lib (mkTick 2001 "0.125")
              (Sample.browse "/" (Some "sess-2") Sample.googlebot) db) as [H2 _].
  rewrite (proj1 (H1 eq_refl)). exact (proj2 (H2 eq_refl)).
Defined.

(** ** Presence window *)

Lemma size_filter_values {K A} `{Countable K} (P : A -> Prop) `{!forall x, Decision (P x)}
    (m : gmap K A) :
  size (filter (fun kv => P kv.2) m) = length (filter P (map_to_list m).*2).
Proof.
  induction m as [|i x m Hi IH] using map_ind.
  - by rewrite map_filter_empty, map_to_list_empty.
  - rewrite (map_to_list_insert m i x Hi). simpl.
    rewrite map_filter_insert. simpl. destruct (decide (P x)) as [Hx|Hx].
    + rewrite filter_cons_True by done. simpl.
      rewrite map_size_insert_None; [by rewrite IH|].
      by rewrite map_lookup_filter, Hi.
    + rewrite filter_cons_False by done.
      rewrite delete_id by done. exact IH.
Qed.

Lemma filter_ext_elem {A} (P Q : A -> Prop) `{!forall x, Decision (P x)}
    `{!forall x, Decision (Q x)} (l : list A) :
  (forall x, x ∈ l -> P x <-> Q x) -> filter P l = filter Q l.
Proof.
  induction l as [|a l IH]; intros Hext; [done|].
  rewrite !filter_cons.
  rewrite IH by (intros x Hx; apply Hext; by right).
  destruct (decide (P a)) as [Ha|Ha], (decide (Q a)) as [Hb|Hb]; try done.
  - destruct Hb. apply Hext; [by left | done].
  - destruct Ha. apply Hext; [by left | done].
Qed.

Lemma size_insert_delete {A} (m : gmap string A) (i : string) (x : A) :
  size (<[i:=x]> m) = S (size (delete i m)).
Proof.
  rewrite <- insert_delete_eq. apply map_size_insert_None, lookup_delete_eq.
Qed.

(** C6: [getOnlineCount] is the number of presence records whose last
    activity lies in the trailing 30 minutes (no record being stamped later
    than the query); a record older than that does not count; and a tracked
    request of a session stamps its record with the time of the request, so
    that for the next 30 minutes the session counts once, on top of the
    other sessions. *)
Theorem C6_online_count :
  (forall now m,
     (forall k d, m !! k = Some d -> ou_lastActivity d ≤ now) ->
     getOnlineCount now m = length (recordsInWindow now m)) /\
  (forall now m sid d,
     m !! sid = Some d -> ou_lastActivity d < now - window ->
     getOnlineCount now m = getOnlineCount now (delete sid m)) /\
  (forall lib c req db sid,
     sessionID req = Some sid -> sid <> "" -> trackedOnline req ->
     let db' := trackOnlineUser lib c req db in
     (exists d, onlineUsers db' !! sid = Some d /\ ou_lastActivity d = VisitorTracking.now c) /\
     forall q, q - window ≤ VisitorTracking.now c ->
       getOnlineCount q (onlineUsers db')
         = S (getOnlineCount q (delete sid (onlineUsers db)))).
Proof.
  split; [|split].
  - intros now m Hle. unfold getOnlineCount, recordsInWindow.
    etrans; [exact (size_filter_values (fun d => now - window ≤ ou_lastActivity d) m)|].
    f_equal. apply filter_ext_elem. intros d Hd.
    apply list_elem_of_fmap in Hd as ([k d'] & -> & Hd).
    apply elem_of_map_to_list in Hd. unfold inWindow. simpl.
    specialize (Hle k d' Hd). lia.
  - intros now m sid d Hd Hold. unfold getOnlineCount.
    rewrite map_filter_delete_not; [done|].
    intros y Hy. simpl. simplify_eq. lia.
  - intros lib c req db sid Hsid Hne [Hskip Hbot] db'.
    assert (sessionIdOf c req = sid) as Hkey.
    { unfold sessionIdOf, or_else. by rewrite Hsid, (truthy_Some sid Hne). }
    assert (onlineUsers db' = upsertOnline lib c req (onlineUsers db)) as Hdb.
    { unfold db', trackOnlineUser. by rewrite Hskip, Hbot. }
    destruct (upsertOnline_lookup lib c req (onlineUsers db)) as (d & Hup & Ht & _).
    rewrite Hkey in Hup. rewrite Hdb, Hup. split.
    + exists d. by rewrite lookup_insert_eq.
    + intros q Hq. unfold getOnlineCount.
      rewrite map_filter_insert_True by (simpl; lia).
      rewrite size_insert_delete. by rewrite map_filter_delete.
Qed.

(** A run of C6: a session seen at t = 1000 ms is counted 30 minutes
    later, not one millisecond after that, and again once it has been seen
    anew. *)
Lemma C6_online_count_witness :
  let seen t db := trackOnlineUser Sample.lib (mkTick t "0.5")
                     (Sample.browse "/" (Some "sess-1") Sample.firefox) db in
  getOnlineCount 1801000 (onlineUsers (seen 1000 emptyDb)) = 1%nat /\
  getOnlineCount 1801001 (onlineUsers (seen 1000 emptyDb)) = 0%nat /\
  getOnlineCount 1801001 (onlineUsers (seen 1801001 (seen 1000 emptyDb))) = 1%nat.
Proof.
  intros seen. destruct C6_online_count as (_ & Hout & Hin).
  pose (req := Sample.browse "/" (Some "sess-1") Sample.firefox).
  assert (trackedOnline req) as Ht by (split; reflexivity).
  assert ("sess-1" <> "") as Hne by discriminate.
  split; [|split].
  - destruct (Hin Sample.lib (mkTick 1000 "0.5") req emptyDb "sess-1" eq_refl Hne Ht)
      as [_ Hq].
    unfold seen. fold req. rewrite (Hq 1801000) by (vm_compute; discriminate).
    reflexivity.
  - destruct (Hin Sample.lib (mkTick 1000 "0.5") req emptyDb "sess-1" eq_refl Hne Ht)
      as [(d & Hd & Hact) _].
    unfold seen. fold req. rewrite (Hout 1801001 _ "sess-1" d Hd)
      by (rewrite Hact; reflexivity).
    reflexivity.
  - destruct (Hin Sample.lib (mkTick 1801001 "0.5") req (seen 1000 emptyDb) "sess-1"
                eq_refl Hne Ht) as [_ Hq].
    unfold seen at 1. fold req. rewrite (Hq 1801001) by (vm_compute; discriminate).
    reflexivity.
Defined.

(** ** Visit log *)

Lemma sessionIdOf_present (c : Tick) (req : Request) (sid : string) :
  sessionID req = Some sid -> sid <> "" -> sessionIdOf c req = sid.
Proof.
  intros Hsid Hne. unfold sessionIdOf, or_else.
  by rewrite Hsid, (truthy_Some sid Hne).
Qed.

Lemma sessionIdOf_absent (c : Tick) (req : Request) :
  truthy (sessionID req) = false -> sessionIdOf c req = guestKey c.
Proof. intros H. unfold sessionIdOf, or_else. by rewrite H. Qed.

Lemma recordPage_fields (c : Tick) (req : Request) (v : Visitor) :
  v_visitCount (recordPage c req v) = v_visitCount v + 1 /\
  v_pages (recordPage c req v)
    = (v_pages v ++ [mkPageVisit (path req)
                      (interpolate (or_else (h_x_page_title req) (Some (path req))))
                      (VisitorTracking.now c) None])%list /\
  v_lastVisit (recordPage c req v) = VisitorTracking.now c.
Proof. done. Qed.

(** C9, what the code does: of two tracked page views with the same IP
    and session identifier, handled one after the other, each that came
    with a
    [User-Agent] adds one to the visit count of the record of that pair
    (counted from 0 when there was no record) and appends its page entry,
    in order, and [lastVisit] is the time of the second view. A view
    that came without [User-Agent] updates the record but is not counted
    and leaves no page entry: [visitor.save()] refuses the document. Two
    such views leave count and pages as they were. *)
Theorem C9_two_page_views (lib : Lib) (c1 c2 : Tick) (r1 r2 : Request) (db : Db) (ip sid : string) :
  trackedVisit r1 -> trackedVisit r2 ->
  getClientIP r1 = ip -> getClientIP r2 = ip ->
  sessionID r1 = Some sid -> sessionID r2 = Some sid -> sid <> "" ->
  let before := visitors db !! (ip, sid) in
  let db2 := trackVisitor lib c2 r2 (trackVisitor lib c1 r1 db) in
  exists v,
    visitors db2 !! (ip, sid) = Some v /\
    v_lastVisit v = VisitorTracking.now c2 /\
    v_pages v
      = (default [] (v_pages <$> before) ++ savedEntries c1 r1 ++ savedEntries c2 r2)%list /\
    v_visitCount v
      = default 0 (v_visitCount <$> before)
        + Z.of_nat (length (savedEntries c1 r1 ++ savedEntries c2 r2)) /\
    (userAgentString r1 <> "" -> userAgentString r2 <> "" ->
     v_visitCount v = default 0 (v_visitCount <$> before) + 2 /\
     v_pages v = (default [] (v_pages <$> before) ++ [pageEntry c1 r1; pageEntry c2 r2])%list) /\
    (userAgentString r1 = "" -> userAgentString r2 = "" ->
     v_visitCount v = default 0 (v_visitCount <$> before) /\
     v_pages v = default [] (v_pages <$> before)).
Proof.
  intros T1 T2 Hip1 Hip2 Hs1 Hs2 Hne before db2.
  destruct (trackVisitor_record lib c1 r1 db T1) as (v1 & E1 & _ & _ & _ & Hp1 & Hn1).
  destruct (trackVisitor_record lib c2 r2 (trackVisitor lib c1 r1 db) T2)
    as (v2 & E2 & _ & _ & Hl2 & Hp2 & Hn2).
  rewrite Hip1, (sessionIdOf_present c1 r1 sid Hs1 Hne) in E1, Hp1, Hn1.
  rewrite Hip2, (sessionIdOf_present c2 r2 sid Hs2 Hne) in E2, Hp2, Hn2.
  assert (visitors (trackVisitor lib c1 r1 db) !! (ip, sid) = Some v1) as Hl
    by (rewrite E1; apply lookup_insert_eq).
  rewrite Hl in Hp2, Hn2. cbn [fmap option_fmap option_map default] in Hp2, Hn2.
  unfold id in Hp2, Hn2. fold before in Hp1, Hn1.
  assert (v_pages v2
          = (default [] (v_pages <$> before) ++ savedEntries c1 r1 ++ savedEntries c2 r2)%list)
    as Hpages by (by rewrite Hp2, Hp1, <- app_assoc).
  assert (v_visitCount v2
          = default 0 (v_visitCount <$> before)
            + Z.of_nat (length (savedEntries c1 r1 ++ savedEntries c2 r2))) as Hcount
    by (rewrite Hn2, Hn1, length_app; lia).
  exists v2. split; [unfold db2; rewrite E2; apply lookup_insert_eq|].
  split; [done|]. split; [done|]. split; [done|]. split.
  - intros H1 H2. rewrite Hcount, Hpages. unfold savedEntries.
    rewrite (truthy_Some _ H1), (truthy_Some _ H2). split; [simpl; lia | done].
  - intros H1 H2. rewrite Hcount, Hpages. unfold savedEntries. rewrite H1, H2.
    simpl. split; [lia | by rewrite app_nil_r].
Qed.

(** A run of C9 where it goes wrong: two views of one session, sent
    without [User-Agent], on an empty log. The record is there, last seen
    at the second view, with visit count 0 and no page entry. *)
Lemma C9_two_page_views_witness :
  exists v,
    visitors (trackVisitor Sample.lib (mkTick 2000 "0.5")
                (Sample.noAgent "/haberler" (Some "sess-1"))
                (trackVisitor Sample.lib (mkTick 1000 "0.25")
                   (Sample.noAgent "/" (Some "sess-1")) emptyDb))
      !! ("203.0.113.7", "sess-1") = Some v /\
    v_lastVisit v = 2000 /\ v_visitCount v = 0 /\ v_pages v = [].
Proof.
  destruct (C9_two_page_views Sample.lib (mkTick 1000 "0.25") (mkTick 2000 "0.5")
              (Sample.noAgent "/" (Some "sess-1"))
              (Sample.noAgent "/haberler" (Some "sess-1"))
              emptyDb "203.0.113.7" "sess-1"
              (conj eq_refl eq_refl) (conj eq_refl eq_refl)
              eq_refl eq_refl eq_refl eq_refl ltac:(discriminate))
    as (v & Hv & Hlast & _ & _ & _ & Hnone).
  exists v. split; [exact Hv|]. split; [exact Hlast|]. exact (Hnone eq_refl eq_refl).
Defined.

(** The same two views sent by a browser are both counted. *)
Example two_page_views_of_a_browser :
  exists v,
    visitors (trackVisitor Sample.lib (mkTick 2000 "0.5")
                (Sample.browse "/haberler" (Some "sess-1") Sample.firefox)
                (trackVisitor Sample.lib (mkTick 1000 "0.25")
                   (Sample.browse "/" (Some "sess-1") Sample.firefox) emptyDb))
      !! ("203.0.113.7", "sess-1") = Some v /\
    v_visitCount v = 2 /\ (pg_url <$> v_pages v) = ["/"; "/haberler"].
Proof. eexists. split; [reflexivity|]. split; reflexivity. Qed.

(** ** Requests without a session *)

Lemma pretty_N_char_not_underscore (x : N) : Ascii.eqb "_" (pretty_N_char x) = false.
Proof. unfold pretty_N_char. by repeat case_match. Qed.

Lemma pretty_N_go_no_underscore (x : N) (s : string) :
  includes "_" s = false -> includes "_" (pretty_N_go x s) = false.
Proof.
  revert s. induction (N.lt_wf_0 x) as [x _ IH]; intros s Hs.
  destruct (decide (x = 0)%N) as [->|Hx]; [by rewrite pretty_N_go_0|].
  rewrite pretty_N_go_step by lia. apply IH.
  - apply N.div_lt; lia.
  - by rewrite includes_char_cons, pretty_N_char_not_underscore, Hs.
Qed.

Lemma pretty_Z_no_underscore (z : Z) : includes "_" (pretty z) = false.
Proof.
  unfold pretty, pretty_Z, pretty, pretty_positive, pretty, pretty_N.
  destruct z as [|p|p]; [done| |].
  - simpl. by apply pretty_N_go_no_underscore.
  - rewrite append_cons, includes_char_cons. simpl.
    by apply pretty_N_go_no_underscore.
Qed.

Lemma split_at_underscore (d1 d2 r1 r2 : string) :
  includes "_" d1 = false -> includes "_" d2 = false ->
  d1 ++ "_" ++ r1 = d2 ++ "_" ++ r2 -> d1 = d2 /\ r1 = r2.
Proof.
  revert d2. induction d1 as [|c d1 IH]; intros [|c' d2] H1 H2 E.
  - by injection E.
  - rewrite append_cons in E. injection E as <- _.
    rewrite includes_char_cons in H2. simpl in H2. done.
  - rewrite append_cons in E. injection E as -> _.
    rewrite includes_char_cons in H1. simpl in H1. done.
  - rewrite !append_cons in E. injection E as -> E.
    rewrite includes_char_cons in H1, H2.
    apply orb_false_iff in H1 as [_ H1]. apply orb_false_iff in H2 as [_ H2].
    destruct (IH d2 H1 H2 E) as [-> ->]. done.
Qed.

Lemma guestKey_inj (c1 c2 : Tick) : guestKey c1 = guestKey c2 -> c1 = c2.
Proof.
  unfold guestKey. intros E.
  do 6 rewrite append_cons in E. repeat (injection E as E).
  change ("" ++ ?x) with x in E.
  apply split_at_underscore in E as [En Er]; try apply pretty_Z_no_underscore.
  apply (inj pretty) in En. destruct c1, c2. simpl in *. by subst.
Qed.

Lemma trackOnlineUser_tracked (lib : Lib) (c : Tick) (req : Request) (db : Db) :
  trackedOnline req ->
  exists d, onlineUsers (trackOnlineUser lib c req db)
              = <[sessionIdOf c req := d]> (onlineUsers db) /\
            ou_sessionId d = sessionIdOf c req /\
            ou_lastActivity d = now c.
Proof.
  intros [Hs Hb]. unfold trackOnlineUser. rewrite Hs, Hb. simpl.
  destruct (upsertOnline_lookup lib c req (onlineUsers db)) as (d & -> & Ht & _ & Hk).
  by exists d.
Qed.

(** C10, what the code does: a request without session identifier is
    keyed by the guest key its tracking call makes up from the clock and
    [Math.random()], and
    different readings give different keys. Two such requests from one IP
    whose readings differ, none of the keys being on record yet, leave two
    visit records and two presence records: both collections grow by two
    documents instead of one document being updated twice. Each visit
    record has visit count 1 and one page entry when its request came
    with a [User-Agent], and visit count 0 and no page entry when it came
    without: [visitor.save()] refuses the document. *)
Theorem C10_sessionless_requests (lib : Lib) (c1 c2 : Tick) (r1 r2 : Request) (db : Db) (ip : string) :
  truthy (sessionID r1) = false -> truthy (sessionID r2) = false ->
  getClientIP r1 = ip -> getClientIP r2 = ip ->
  trackedVisit r1 -> trackedVisit r2 -> trackedOnline r1 -> trackedOnline r2 ->
  c1 <> c2 ->
  visitors db !! (ip, guestKey c1) = None ->
  visitors db !! (ip, guestKey c2) = None ->
  onlineUsers db !! guestKey c1 = None ->
  onlineUsers db !! guestKey c2 = None ->
  let dbv := trackVisitor lib c2 r2 (trackVisitor lib c1 r1 db) in
  let dbo := trackOnlineUser lib c2 r2 (trackOnlineUser lib c1 r1 db) in
  (sessionIdOf c1 r1 = guestKey c1 /\ sessionIdOf c2 r2 = guestKey c2) /\
  (exists v1 v2,
     visitors dbv !! (ip, guestKey c1) = Some v1 /\
     visitors dbv !! (ip, guestKey c2) = Some v2 /\
     v_pages v1 = savedEntries c1 r1 /\
     v_visitCount v1 = Z.of_nat (length (savedEntries c1 r1)) /\
     v_pages v2 = savedEntries c2 r2 /\
     v_visitCount v2 = Z.of_nat (length (savedEntries c2 r2)) /\
     (userAgentString r1 <> "" -> v_visitCount v1 = 1 /\ length (v_pages v1) = 1%nat) /\
     (userAgentString r2 <> "" -> v_visitCount v2 = 1 /\ length (v_pages v2) = 1%nat) /\
     (userAgentString r1 = "" -> v_visitCount v1 = 0 /\ v_pages v1 = []) /\
     (userAgentString r2 = "" -> v_visitCount v2 = 0 /\ v_pages v2 = []) /\
     size (visitors dbv) = S (S (size (visitors db)))) /\
  (exists o1 o2,
     onlineUsers dbo !! guestKey c1 = Some o1 /\
     onlineUsers dbo !! guestKey c2 = Some o2 /\
     ou_sessionId o1 <> ou_sessionId o2 /\
     size (onlineUsers dbo) = S (S (size (onlineUsers db)))).
Proof.
  intros Hs1 Hs2 Hip1 Hip2 Tv1 Tv2 To1 To2 Hticks Hv1 Hv2 Ho1 Ho2 dbv dbo.
  assert (guestKey c1 <> guestKey c2) as Hkeys
    by (intros E; by apply Hticks, guestKey_inj).
  pose proof (sessionIdOf_absent c1 r1 Hs1) as K1.
  pose proof (sessionIdOf_absent c2 r2 Hs2) as K2.
  split; [done|]. split.
  - destruct (trackVisitor_record lib c1 r1 db Tv1) as (v1 & E1 & _ & _ & _ & Hp1 & Hn1).
    destruct (trackVisitor_record lib c2 r2 (trackVisitor lib c1 r1 db) Tv2)
      as (v2 & E2 & _ & _ & _ & Hp2 & Hn2).
    rewrite Hip1, K1 in E1, Hn1, Hp1. rewrite Hip2, K2 in E2, Hn2, Hp2.
    assert ((ip, guestKey c1) <> (ip, guestKey c2)) as Hne by congruence.
    assert (visitors (trackVisitor lib c1 r1 db) !! (ip, guestKey c2) = None) as Hl2
      by (by rewrite E1, lookup_insert_ne).
    rewrite Hv1 in Hn1, Hp1. rewrite Hl2 in Hn2, Hp2.
    cbn [fmap option_fmap option_map default app] in Hn1, Hp1, Hn2, Hp2.
    exists v1, v2. unfold dbv.
    split; [rewrite E2, lookup_insert_ne by done; rewrite E1; apply lookup_insert_eq|].
    split; [rewrite E2; apply lookup_insert_eq|].
    split; [done|]. split; [lia|]. split; [done|]. split; [lia|].
    split; [|split; [|split; [|split]]].
    + intros H. rewrite Hn1, Hp1. unfold savedEntries. by rewrite (truthy_Some _ H).
    + intros H. rewrite Hn2, Hp2. unfold savedEntries. by rewrite (truthy_Some _ H).
    + intros H. rewrite Hn1, Hp1. unfold savedEntries. by rewrite H.
    + intros H. rewrite Hn2, Hp2. unfold savedEntries. by rewrite H.
    + rewrite E2, map_size_insert_None by done.
      by rewrite E1, map_size_insert_None.
  - destruct (trackOnlineUser_tracked lib c1 r1 db To1) as (o1 & E1 & Hk1 & _).
    destruct (trackOnlineUser_tracked lib c2 r2 (trackOnlineUser lib c1 r1 db) To2)
      as (o2 & E2 & Hk2 & _).
    rewrite K1 in E1, Hk1. rewrite K2 in E2, Hk2.
    assert (onlineUsers (trackOnlineUser lib c1 r1 db) !! guestKey c2 = None) as Hl2
      by (by rewrite E1, lookup_insert_ne).
    exists o1, o2. unfold dbo.
    split; [rewrite E2, lookup_insert_ne by done; rewrite E1; apply lookup_insert_eq|].
    split; [rewrite E2; apply lookup_insert_eq|].
    split; [congruence|].
    rewrite E2, map_size_insert_None by done.
    by rewrite E1, map_size_insert_None.
Qed.

(** A run of C10 where it goes wrong: two sessionless requests within the
    same millisecond, sent without [User-Agent]. Two visit records, none
    of which counts a visit or holds a page entry, and two presence
    records. *)
Lemma C10_sessionless_requests_witness :
  let r := Sample.noAgent "/" None in
  let c1 := mkTick 1000 "0.25" in
  let c2 := mkTick 1000 "0.75" in
  let dbv := trackVisitor Sample.lib c2 r (trackVisitor Sample.lib c1 r emptyDb) in
  (exists v1 v2,
     visitors dbv !! ("203.0.113.7", guestKey c1) = Some v1 /\
     visitors dbv !! ("203.0.113.7", guestKey c2) = Some v2 /\
     (v_visitCount v1 = 0 /\ v_pages v1 = []) /\
     (v_visitCount v2 = 0 /\ v_pages v2 = [])) /\
  size (visitors dbv) = 2%nat /\
  size (onlineUsers (trackOnlineUser Sample.lib c2 r (trackOnlineUser Sample.lib c1 r emptyDb)))
    = 2%nat.
Proof.
  intros r c1 c2 dbv.
  assert (c1 <> c2) as Hk by discriminate.
  destruct (C10_sessionless_requests Sample.lib c1 c2 r r emptyDb "203.0.113.7"
              eq_refl eq_refl eq_refl eq_refl
              (conj eq_refl eq_refl) (conj eq_refl eq_refl)
              (conj eq_refl eq_refl) (conj eq_refl eq_refl)
              Hk eq_refl eq_refl eq_refl eq_refl)
    as (_ & (v1 & v2 & L1 & L2 & _ & _ & _ & _ & _ & _ & Z1 & Z2 & Hv)
          & (o1 & o2 & _ & _ & _ & Ho)).
  split; [|split; [exact Hv | exact Ho]].
  exists v1, v2. split; [exact L1|]. split; [exact L2|].
  split; [exact (Z1 eq_refl) | exact (Z2 eq_refl)].
Defined.

(** The same two requests sent by a browser: each record counts one
    visit. *)
Example sessionless_requests_of_a_browser :
  let r := Sample.browse "/" None Sample.firefox in
  let c1 := mkTick 1000 "0.25" in
  let c2 := mkTick 1000 "0.75" in
  let dbv := trackVisitor Sample.lib c2 r (trackVisitor Sample.lib c1 r emptyDb) in
  (v_visitCount <$> visitors dbv !! ("203.0.113.7", guestKey c1)) = Some 1 /\
  (v_visitCount <$> visitors dbv !! ("203.0.113.7", guestKey c2)) = Some 1.
Proof. split; reflexivity. Qed.

(** ** Aggregate queries *)

Import AnalyticsController.

Section GroupProperties.
Context {A K Acc : Type} `{EqDecision K}.
Variables (key : A -> K) (init : Acc) (step : A -> Acc -> Acc).

Lemma glookup_group_add (a : A) (k : K) (gs : list (K * Acc)) :
  glookup k (Mongo.group_add key init step a gs)
    = if decide (key a = k) then Some (step a (default init (glookup k gs)))
      else glookup k gs.
Proof.
  induction gs as [|[k' acc] gs IH]; simpl.
  - repeat case_decide; simplify_eq; done.
  - destruct (decide (key a = k')) as [E|E]; simpl.
    + repeat case_decide; simplify_eq; done.
    + rewrite IH. repeat case_decide; simplify_eq; done.
Qed.

Lemma keys_group_add (a : A) (gs : list (K * Acc)) :
  (Mongo.group_add key init step a gs).*1
    = if decide (key a ∈ gs.*1) then gs.*1 else (gs.*1 ++ [key a])%list.
Proof.
  induction gs as [|[k acc] gs IH].
  - simpl. destruct (decide (key a ∈ [])) as [Hin|Hin]; [|done].
    by apply elem_of_nil in Hin.
  - cbn [Mongo.group_add fmap list_fmap fst].
    destruct (decide (key a = k)) as [E|E].
    + destruct (decide (key a ∈ k :: gs.*1)) as [Hin|Hin]; [done|].
      destruct Hin. apply elem_of_cons. by left.
    + cbn [fmap list_fmap fst]. fold (fmap (M:=list) (@fst K Acc)). rewrite IH.
      destruct (decide (key a ∈ gs.*1)) as [Hin|Hin],
               (decide (key a ∈ k :: gs.*1)) as [Hin'|Hin']; try done.
      * destruct Hin'. apply elem_of_cons. by right.
      * apply elem_of_cons in Hin' as [?|?]; congruence.
Qed.

Lemma group_snoc (docs : list A) (a : A) :
  Mongo.group key init step (docs ++ [a])%list
    = Mongo.group_add key init step a (Mongo.group key init step docs).
Proof. unfold Mongo.group. by rewrite foldl_app. Qed.

Lemma accOf_snoc (k : K) (docs : list A) (a : A) :
  accOf key init step k (docs ++ [a])%list
    = if decide (key a = k) then step a (accOf key init step k docs) else accOf key init step k docs.
Proof.
  unfold accOf. rewrite filter_app, filter_cons, filter_nil.
  destruct (decide (key a = k)).
  - by rewrite foldl_app.
  - by rewrite app_nil_r.
Qed.

Lemma elem_of_keys_snoc (k : K) (docs : list A) (a : A) :
  k ∈ key <$> (docs ++ [a])%list <-> k ∈ key <$> docs \/ k = key a.
Proof.
  rewrite fmap_app, elem_of_app. simpl. by rewrite list_elem_of_singleton.
Qed.

Lemma keys_group (docs : list A) :
  NoDup (Mongo.group key init step docs).*1 /\
  forall k, k ∈ (Mongo.group key init step docs).*1 <-> k ∈ key <$> docs.
Proof.
  induction docs as [|a docs [IH1 IH2]] using rev_ind.
  - split; [constructor | done].
  - rewrite group_snoc, keys_group_add.
    destruct (decide (key a ∈ (Mongo.group key init step docs).*1)) as [Hin|Hin].
    + split; [done|]. intros k. rewrite elem_of_keys_snoc, <- IH2.
      split; [by left | intros [?|E]; [done | by rewrite E]].
    + split.
      * apply NoDup_app. split; [done|]. split; [|apply NoDup_singleton].
        intros x Hx ->%list_elem_of_singleton. done.
      * intros k. rewrite elem_of_keys_snoc, elem_of_app, list_elem_of_singleton, <- IH2. done.
Qed.

Lemma accOf_absent (k : K) (docs : list A) :
  k ∉ key <$> docs -> accOf key init step k docs = init.
Proof.
  intros Hk. unfold accOf.
  replace (filter (fun a => key a = k) docs) with (@nil A); [done|].
  symmetry. induction docs as [|a docs IH]; [done|].
  rewrite filter_cons, decide_False.
  - apply IH. intros Hin. apply Hk. rewrite fmap_cons. apply elem_of_cons. by right.
  - intros E. apply Hk. rewrite fmap_cons. apply elem_of_cons. by left.
Qed.

Lemma glookup_group (k : K) (docs : list A) :
  glookup k (Mongo.group key init step docs)
    = if decide (k ∈ key <$> docs) then Some (accOf key init step k docs) else None.
Proof.
  induction docs as [|a docs IH] using rev_ind.
  - destruct (decide (k ∈ key <$> [])) as [Hin|Hin]; [|done].
    by apply elem_of_nil in Hin.
  - rewrite group_snoc, glookup_group_add, IH, accOf_snoc.
    pose proof (elem_of_keys_snoc k docs a) as Hsnoc.
    destruct (decide (key a = k)) as [E|E],
             (decide (k ∈ key <$> docs)) as [Hin|Hin],
             (decide (k ∈ key <$> (docs ++ [a])%list)) as [Hin'|Hin'];
      simpl; try done.
    + destruct Hin'. apply Hsnoc. by left.
    + by rewrite accOf_absent.
    + destruct Hin'. apply Hsnoc. by right.
    + destruct Hin'. apply Hsnoc. by left.
    + apply Hsnoc in Hin' as [?|?]; [done | congruence].
Qed.

Lemma elem_of_glookup (k : K) (acc : Acc) (gs : list (K * Acc)) :
  NoDup gs.*1 -> (k, acc) ∈ gs <-> glookup k gs = Some acc.
Proof.
  induction gs as [|[k' acc'] gs IH]; intros Hnd.
  - split; [by intros ?%elem_of_nil | done].
  - rewrite fmap_cons in Hnd. apply NoDup_cons in Hnd as [Hk' Hnd]. simpl in Hk'.
    rewrite elem_of_cons, (IH Hnd). simpl.
    destruct (decide (k = k')) as [->|E].
    + split; [|intros [= ->]; by left].
      intros [[= ->] | Hl]; [done|]. destruct Hk'.
      apply (proj2 (IH Hnd)) in Hl.
      apply list_elem_of_fmap. by exists (k', acc).
    + split; [intros [[= -> ->] | Hl]; done | by right].
Qed.

(** The groups of a [$group] stage: one per key that occurs, holding the
    fold of the documents of that key. *)
Lemma elem_of_group (k : K) (acc : Acc) (docs : list A) :
  (k, acc) ∈ Mongo.group key init step docs
  <-> k ∈ key <$> docs /\ acc = accOf key init step k docs.
Proof.
  rewrite (elem_of_glookup _ _ _ (proj1 (keys_group docs))), glookup_group.
  destruct (decide (k ∈ key <$> docs)); split; try done.
  - intros [= <-]. done.
  - intros [_ ->]. done.
  - intros [? _]. done.
Qed.

End GroupProperties.

Lemma group_fmap_ext {A B K Acc} `{EqDecision K} (g : B -> A)
    (key : A -> K) (key' : B -> K) (init : Acc)
    (step : A -> Acc -> Acc) (step' : B -> Acc -> Acc) (l : list B) :
  (forall b, key (g b) = key' b) ->
  (forall b acc, step (g b) acc = step' b acc) ->
  Mongo.group key init step (g <$> l) = Mongo.group key' init step' l.
Proof.
  intros Hk Hs. unfold Mongo.group. generalize (@nil (K * Acc)).
  induction l as [|b l IH]; intros gs; [done|]. simpl. rewrite <- IH. f_equal.
  induction gs as [|[k acc] gs IHgs]; simpl.
  - by rewrite Hk, Hs.
  - rewrite Hk, Hs, IHgs. done.
Qed.

Lemma filter_fmap_comm {A B} (g : B -> A) (P : A -> Prop) `{!forall a, Decision (P a)}
    (l : list B) :
  filter P (g <$> l) = g <$> filter (fun b => P (g b)) l.
Proof.
  induction l as [|b l IH]; [done|]. rewrite fmap_cons, !filter_cons, IH.
  by destruct (decide (P (g b))).
Qed.

Lemma dayStep_fold (l : list Visitor) (acc : Z * gset string * Z * Z) :
  let r := foldl (fun acc v => dayStep v acc) acc l in
  r.1.1.1 = acc.1.1.1 + Z.of_nat (length l) /\ r.1.2 = acc.1.2 + sumPages l.
Proof.
  revert acc. induction l as [|v l IH]; intros acc; simpl.
  - split; lia.
  - destruct (IH (dayStep v acc)) as [H1 H2]. rewrite H1, H2.
    destruct acc as [[[n ips] views] fresh]. simpl. split; lia.
Qed.

Lemma dailyPipeline_rows (s e : Z) (coll : list Visitor) (row : DayRow) :
  row ∈ dailyPipeline s e coll <->
  exists v, v ∈ coll /\ s ≤ v_lastVisit v ≤ e /\
    row = dayProject (Mongo.ymd (v_lastVisit v),
                      accOf (fun v => Mongo.ymd (v_lastVisit v)) (0, ∅, 0, 0) dayStep
                        (Mongo.ymd (v_lastVisit v))
                        (filter (fun v => s ≤ v_lastVisit v ≤ e) coll)).
Proof.
  unfold dailyPipeline. rewrite merge_sort_Permutation, list_elem_of_fmap. split.
  - intros ([k acc] & -> & Hg). apply elem_of_group in Hg as [Hk ->].
    apply list_elem_of_fmap in Hk as (v & -> & Hv).
    apply list_elem_of_filter in Hv as [Hr Hv]. by exists v.
  - intros (v & Hv & Hr & ->). eexists. split; [reflexivity|].
    apply elem_of_group. split; [|done].
    apply list_elem_of_fmap. exists v. split; [done|].
    by apply list_elem_of_filter.
Qed.

Lemma pageStep_fold (l : list (Visitor * PageVisit))
    (acc : option string * Z * gset string) :
  (foldl (fun acc vp => pageStep vp acc) acc l).1.2 = acc.1.2 + Z.of_nat (length l).
Proof.
  revert acc. induction l as [|vp l IH]; intros acc; simpl; [lia|].
  rewrite IH. destruct acc as [[title views] ips]. simpl. lia.
Qed.

Lemma retime_daily (s e : Z) (coll : list Visitor) (f : PageVisit -> Z) :
  dailyPipeline s e (retime f <$> coll) = dailyPipeline s e coll.
Proof.
  unfold dailyPipeline. rewrite filter_fmap_comm. do 2 f_equal.
  apply group_fmap_ext; [done|].
  intros v [[[n ips] views] fresh]. simpl. by rewrite length_fmap.
Qed.

Lemma retime_referrers (s : Z) (coll : list Visitor) (f : PageVisit -> Z) :
  referrerRows s (retime f <$> coll) = referrerRows s coll.
Proof.
  unfold referrerRows. rewrite filter_fmap_comm. do 2 f_equal.
  by apply group_fmap_ext.
Qed.

Lemma daily_row_bucket (s e : Z) (coll : list Visitor) (v : Visitor) :
  let row := dayProject (Mongo.ymd (v_lastVisit v),
               accOf (fun v => Mongo.ymd (v_lastVisit v)) (0, ∅, 0, 0) dayStep
                 (Mongo.ymd (v_lastVisit v))
                 (filter (fun v => s ≤ v_lastVisit v ≤ e) coll)) in
  date row = Mongo.dateFromParts (Mongo.ymd (v_lastVisit v)) /\
  visitors_ row = Z.of_nat (length (bucket s e (Mongo.ymd (v_lastVisit v)) coll)) /\
  pageViews row = sumPages (bucket s e (Mongo.ymd (v_lastVisit v)) coll).
Proof.
  unfold accOf. fold (bucket s e (Mongo.ymd (v_lastVisit v)) coll).
  destruct (dayStep_fold (bucket s e (Mongo.ymd (v_lastVisit v)) coll) (0, ∅, 0, 0))
    as [H1 H2]. simpl in H1, H2.
  destruct (foldl _ _ _) as [[[n ips] views] fresh]. simpl in *. subst. done.
Qed.

(** C7 (as amended): the weekly, monthly and referrer queries never read
    the timestamps of page entries: changing them changes no result. Every
    weekly or monthly row is the calendar day of the [lastVisit] of a
    selected record, counts the records last seen on that day and adds up
    all their page entries, whenever those pages were visited; every
    selected record has such a row. Only the popular-pages query looks at
    the entries' own [visitTime]: per URL it counts the entries visited
    since the start date, among records last seen since then, without any
    bucketing by day. *)
Theorem C7_buckets_by_lastVisit (s e : Z) (coll : list Visitor) :
  (forall f,
     getWeeklyStats s e (retime f <$> coll) = getWeeklyStats s e coll /\
     getMonthlyStats s e (retime f <$> coll) = getMonthlyStats s e coll /\
     forall lim, getReferrerStats s lim (retime f <$> coll) = getReferrerStats s lim coll) /\
  (forall row, row ∈ getWeeklyStats s e coll \/ row ∈ getMonthlyStats s e coll ->
     exists v, v ∈ coll /\ s ≤ v_lastVisit v ≤ e /\
       date row = Mongo.dateFromParts (Mongo.ymd (v_lastVisit v)) /\
       visitors_ row = Z.of_nat (length (bucket s e (Mongo.ymd (v_lastVisit v)) coll)) /\
       pageViews row = sumPages (bucket s e (Mongo.ymd (v_lastVisit v)) coll)) /\
  (forall v, v ∈ coll -> s ≤ v_lastVisit v ≤ e ->
     exists row, row ∈ getMonthlyStats s e coll /\
       date row = Mongo.dateFromParts (Mongo.ymd (v_lastVisit v)) /\
       pageViews row = sumPages (bucket s e (Mongo.ymd (v_lastVisit v)) coll)) /\
  (forall row, row ∈ popularRows s coll ->
     (exists vp, vp ∈ countedEntries s coll /\ pg_url vp.2 = pr_url row) /\
     pr_views row
       = Z.of_nat (length (filter (fun vp : Visitor * PageVisit => pg_url vp.2 = pr_url row)
                             (countedEntries s coll)))).
Proof.
  split; [|split; [|split]].
  - intros f. unfold getWeeklyStats, getMonthlyStats, getReferrerStats.
    by rewrite retime_daily, retime_referrers.
  - intros row Hrow.
    assert (exists row', row' ∈ dailyPipeline s e coll /\ date row = date row' /\
              visitors_ row = visitors_ row' /\ pageViews row = pageViews row')
      as (row' & Hin & -> & -> & ->).
    { destruct Hrow as [Hw|Hm]; [|by exists row].
      apply list_elem_of_fmap in Hw as (row' & -> & Hin). by exists row'. }
    apply dailyPipeline_rows in Hin as (v & Hv & Hr & ->).
    exists v. split; [done|]. split; [done|]. apply daily_row_bucket.
  - intros v Hv Hr. eexists. split.
    + apply dailyPipeline_rows. exists v. done.
    + destruct (daily_row_bucket s e coll v) as (H1 & _ & H3). done.
  - intros row. unfold popularRows.
    rewrite merge_sort_Permutation, list_elem_of_fmap.
    intros ([url acc] & -> & Hg). apply elem_of_group in Hg as [Hk ->].
    fold (countedEntries s coll) in *. split.
    + apply list_elem_of_fmap in Hk as (vp & -> & Hvp). exists vp.
      split; [done|]. unfold accOf. by destruct (foldl _ _ _) as [[??]?].
    + unfold accOf.
      pose proof (pageStep_fold
        (filter (fun vp : Visitor * PageVisit => pg_url vp.2 = url) (countedEntries s coll))
        (None, 0, ∅)) as Hf.
      destruct (foldl _ _ _) as [[title views] ips]. simpl in *. lia.
Qed.

(** A run of C7: the record of a visitor who came on two days has one
    monthly row, on the day of its last visit, holding both page views. *)
Lemma C7_buckets_by_lastVisit_witness :
  exists row, row ∈ getMonthlyStats 0 (10 * Mongo.msPerDay) [Sample.trip] /\
    date row = 3 * Mongo.msPerDay /\ pageViews row = 2.
Proof.
  destruct (C7_buckets_by_lastVisit 0 (10 * Mongo.msPerDay) [Sample.trip])
    as (_ & _ & H & _).
  destruct (H Sample.trip) as (row & Hin & Hd & Hp).
  - apply elem_of_cons. by left.
  - vm_compute. split; discriminate.
  - exists row. split; [exact Hin|]. split; [exact Hd | exact Hp].
Defined.

(** C7 as stated fails: a record with one page view on day 2 and one on
    day 3 (its last visit) yields a single weekly row, for day 3, with two
    page views; day 2, on which a page was visited, has no row, and day 3
    is credited with a page view that happened the day before. *)
Lemma C7_weekly_ignores_page_times :
  getWeeklyStats 0 (10 * Mongo.msPerDay) [Sample.trip]
    = [mkDayRow (3 * Mongo.msPerDay) 1 1 2 0] /\
  entriesOnDay (2 * Mongo.msPerDay) [Sample.trip] = 1 /\
  entriesOnDay (3 * Mongo.msPerDay) [Sample.trip] = 1 /\
  ~ (forall s e coll row, row ∈ getWeeklyStats s e coll ->
       pageViews row = entriesOnDay (date row) coll).
Proof.
  split; [by vm_compute|]. split; [by vm_compute|]. split; [by vm_compute|].
  intros H.
  specialize (H 0 (10 * Mongo.msPerDay) [Sample.trip]
                (mkDayRow (3 * Mongo.msPerDay) 1 1 2 0)).
  assert (getWeeklyStats 0 (10 * Mongo.msPerDay) [Sample.trip]
            = [mkDayRow (3 * Mongo.msPerDay) 1 1 2 0]) as E by (by vm_compute).
  rewrite E in H. specialize (H ltac:(apply elem_of_cons; by left)).
  vm_compute in H. discriminate H.
Qed.

(** * Further properties of the cited files *)

(** ** Authentication and authorization, continued *)

Import AuthRoutes.

Lemma or_else_truthy (a b : option string) : truthy a = true -> or_else a b = a.
Proof. unfold or_else. by intros ->. Qed.

Lemma strict_eq_Some (v : option string) (s : string) :
  strict_eq v s = true <-> v = Some s.
Proof.
  destruct v as [x|]; simpl; [|done]. rewrite String.eqb_eq. split; congruence.
Qed.

Ltac cases_on_middleware :=
  repeat first
    [ match goal with |- context [isActive ?u] => destruct (isActive u) eqn:? end
    | case_match ];
  simplify_eq/=; try done;
  repeat match goal with
         | H : negb _ = true |- _ => apply negb_true_iff in H
         | H : negb _ = false |- _ => apply negb_false_iff in H
         end;
  try congruence.

(** X1. [optionalAuth] of [middleware/verifyToken.js] never answers: it
    always goes on to [next()], with exactly the principal the strict
    [verifyToken] would attach, and with none where [verifyToken] would
    reject. *)
Theorem optionalAuth_follows_verifyToken (env : Env) (req : AuthRequest) :
  VerifyToken.optionalAuth env req
    = Next (match VerifyToken.verifyToken env req with
            | Next u => u
            | Respond _ => None
            end).
Proof.
  unfold VerifyToken.optionalAuth, VerifyToken.verifyToken, VerifyToken.no_token,
    VerifyToken.check_active.
  cases_on_middleware.
Qed.

(** X2. The same holds of the pair in [middleware/auth.js]: [optionalAuth]
    attaches the principal [protect] would attach, and none where
    [protect] would reject. *)
Theorem optionalAuth_follows_protect (env : Env) (req : AuthRequest) :
  AuthMw.optionalAuth env req
    = Next (match AuthMw.protect env req with
            | Next u => u
            | Respond _ => None
            end).
Proof.
  unfold AuthMw.optionalAuth, AuthMw.protect, AuthMw.invalid_token, AuthMw.finish.
  cases_on_middleware.
Qed.

(** X3. The two strict middlewares let the same requests through and
    attach the same principal, with the same [userType]; they differ only
    in their rejections. *)
Theorem strict_middlewares_admit_alike (env : Env) (req : AuthRequest)
    (u : option Principal) :
  VerifyToken.verifyToken env req = Next u <-> AuthMw.protect env req = Next u.
Proof.
  unfold VerifyToken.verifyToken, VerifyToken.no_token, VerifyToken.check_active,
    AuthMw.protect, AuthMw.invalid_token, AuthMw.finish.
  destruct (extractToken req) as [t|]; [|done].
  destruct (negb (truthy (Some t))); [done|].
  destruct (jwt_verify env t) as [d|e]; [|done].
  destruct (strict_eq (claim_userType d) "student") eqn:Hs.
  { apply strict_eq_Some in Hs. rewrite Hs.
    cases_on_middleware. }
  destruct (strict_eq (claim_userType d) "teacher" || strict_eq (claim_userType d) "admin")%bool
    eqn:Ht; [|done].
  assert (or_else (claim_userType d) (Some "teacher") = claim_userType d) as ->.
  { apply or_else_truthy.
    apply orb_true_iff in Ht as [Ht|Ht]; apply strict_eq_Some in Ht; by rewrite Ht. }
  cases_on_middleware.
Qed.

(** X4. Behind [verifyToken] and [adminOnly], a handler of the admin
    router runs only for a loaded, active principal whose token says
    [admin]; every refusal is a 401 or a 403 with a reason code, and any
    other authenticated principal gets 403 [INSUFFICIENT_PERMISSION]. *)
Theorem admin_gate_admits_only_active_admins (env : Env) (req : AuthRequest) :
  (forall u, AdminRoutes.gate env req = Next u ->
     exists p, u = Some p /\ userType p = Some "admin" /\ isActive p = true) /\
  (forall r, AdminRoutes.gate env req = Respond r ->
     (status r = 401 \/ status r = 403) /\ is_Some (code (body r))) /\
  (forall p, VerifyToken.verifyToken env req = Next (Some p) ->
     userType p <> Some "admin" ->
     rejects_with (AdminRoutes.gate env req) 403 (Some "INSUFFICIENT_PERMISSION")).
Proof.
  unfold AdminRoutes.gate, VerifyToken.adminOnly.
  destruct (VerifyToken.verifyToken env req) as [r|u] eqn:Hv.
  - split; [done|]. split; [|done]. intros r' [= <-].
    destruct (verifyToken_rejection_shape env req r Hv) as (-> & _ & c & -> & _).
    split; [by left | by eexists].
  - assert (exists p, u = Some p /\ isActive p = true) as (p & -> & Hact).
    { revert Hv. unfold VerifyToken.verifyToken, VerifyToken.no_token,
        VerifyToken.check_active.
      intros Hv. repeat case_match; simplify_eq/=;
        (eexists; split; [reflexivity|]; simpl); by apply negb_false_iff. }
    unfold VerifyToken.authorizeRoles.
    destruct (userType p) as [x|] eqn:Hx; simpl.
    + destruct (String.eqb_spec x "admin") as [->|Hne]; simpl.
      * split; [intros u [= <-]; by exists p|]. split; [done|].
        intros p' [= <-] Hp. by rewrite Hx in Hp.
      * split; [done|]. split; [intros r [= <-]; split; [by right | by eexists]|].
        intros p' [= <-] _. by eexists.
    + split; [done|]. split; [intros r [= <-]; split; [by right | by eexists]|].
      intros p' [= <-] _. by eexists.
Qed.

(** X5. [checkOwnership] refuses in one case only: a student asking for
    an id ([params.id], else [params.studentId]) that is not empty and not
    the student's own, answered with 403 [ACCESS_DENIED]. Admins, teachers
    and principals of any other kind always pass, with [req.user]
    unchanged; without a principal the answer is 500
    [AUTHORIZATION_ERROR]. *)
Theorem checkOwnership_denies_only_foreign_students (u : Principal) (params : RouteParams) :
  let rid := or_else (param_id params) (param_studentId params) in
  (forall r, VerifyToken.checkOwnership (Some u) params = Respond r <->
     userType u = Some "student" /\ truthy rid = true /\ rid <> Some (_id u) /\
     r = reject 403 "Bu kaynağa erişim yetkiniz bulunmamaktadır" (Some "ACCESS_DENIED")) /\
  (forall x, VerifyToken.checkOwnership (Some u) params = Next x -> x = Some u) /\
  rejects_with (VerifyToken.checkOwnership None params) 500 (Some "AUTHORIZATION_ERROR").
Proof.
  intros rid. unfold VerifyToken.checkOwnership. fold rid.
  split; [|split; [|by eexists]].
  - intros r. destruct (userType u) as [x|] eqn:Hx; simpl.
    + destruct (String.eqb_spec x "admin") as [->|Hadm]; simpl.
      { split; [done|]. by intros ([= ?] & _). }
      destruct (String.eqb_spec x "student") as [->|Hst]; simpl.
      * destruct (truthy rid) eqn:Ht; simpl.
        -- destruct rid as [y|]; simpl; [|done].
           destruct (String.eqb_spec y (_id u)) as [->|Hy]; simpl.
           ++ split; [done|]. by intros (_ & _ & ? & _).
           ++ split; [intros [= <-]; repeat split; congruence | by intros (_ & _ & _ & ->)].
        -- split; [done|]. by intros (_ & ? & _).
      * split; [done|]. intros ([= ?] & _). done.
    + split; [done|]. by intros (? & _).
  - intros x. repeat case_match; by intros [= <-].
Qed.

(** X6. For a principal carrying a [userType], whatever
    [ownershipOrAdmin] refuses [checkOwnership] refuses too, with the same
    status; the converse fails, since only [checkOwnership] looks at
    [params.studentId]. *)
Theorem checkOwnership_at_least_as_strict (u : Principal) (params : RouteParams) :
  truthy (userType u) = true ->
  (forall r, AuthMw.ownershipOrAdmin (Some u) params = Respond r ->
     exists r', VerifyToken.checkOwnership (Some u) params = Respond r' /\
                status r' = status r) /\
  (VerifyToken.checkOwnership (Some u) params = Next (Some u) ->
   AuthMw.ownershipOrAdmin (Some u) params = Next (Some u)).
Proof.
  intros Hut. unfold AuthMw.ownershipOrAdmin, VerifyToken.checkOwnership.
  rewrite (or_else_truthy _ (role u) Hut).
  destruct (strict_eq (userType u) "admin"); [done|].
  destruct (strict_eq (userType u) "student"); simpl; [|done].
  destruct (truthy (param_id params)) eqn:Hp; simpl; [|done].
  rewrite (or_else_truthy _ (param_studentId params) Hp), Hp. simpl.
  destruct (strict_eq (param_id params) (_id u)); simpl; [done|].
  split; [|done]. intros r [= <-]. by eexists.
Qed.

(** A run of X6: a student asking for another student's resource. *)
Lemma checkOwnership_at_least_as_strict_witness :
  exists r',
    VerifyToken.checkOwnership (Some (set_userType (Some "student") Sample.cem))
      (mkRouteParams (Some "s-deniz") None) = Respond r' /\
    status r' = 403.
Proof.
  exact (proj1 (checkOwnership_at_least_as_strict
                  (set_userType (Some "student") Sample.cem)
                  (mkRouteParams (Some "s-deniz") None) eq_refl)
           (reject 403 "Bu kaynağa erişim yetkiniz yok" None) eq_refl).
Defined.

(** A route with [:studentId]: only [checkOwnership] stops the student. *)
Example studentId_only_checked_by_checkOwnership :
  let cem := set_userType (Some "student") Sample.cem in
  let params := mkRouteParams None (Some "s-deniz") in
  AuthMw.ownershipOrAdmin (Some cem) params = Next (Some cem) /\
  rejects_with (VerifyToken.checkOwnership (Some cem) params) 403 (Some "ACCESS_DENIED").
Proof. split; [reflexivity | by eexists]. Qed.

Lemma verifyToken_accepts (env : Env) (req : AuthRequest) (t : string)
    (d : Claims) (u : Principal) :
  extractToken req = Some t -> t <> "" -> jwt_verify env t = Ok d ->
  (claim_userType d = Some "teacher" \/ claim_userType d = Some "admin") ->
  User_findById env (claim_id d) = Ok (Some u) -> isActive u = true ->
  VerifyToken.verifyToken env req = Next (Some (set_userType (claim_userType d) u)).
Proof.
  intros Ht Hne Hd Hut Hu Hact. unfold VerifyToken.verifyToken.
  rewrite Ht, (truthy_Some t Hne), Hd. simpl.
  unfold VerifyToken.check_active.
  destruct Hut as [-> | ->]; simpl; by rewrite Hu, Hact.
Qed.

Lemma extractToken_bearer (t : string) (ck : option string) :
  includes " " t = false ->
  extractToken (mkAuthRequest (Some ("Bearer " ++ t)) ck) = Some t.
Proof.
  intros Hsp. unfold extractToken. cbn [authorization].
  destruct (bearer_prefix t) as [-> ->]. cbn [andb].
  by rewrite (split_bearer t Hsp).
Qed.

Lemma extractToken_cookie_only (t : string) :
  t <> "" -> extractToken (mkAuthRequest None (Some t)) = Some t.
Proof.
  intros Hne. unfold extractToken. cbn [authorization cookie_token].
  by rewrite (truthy_Some t Hne).
Qed.

Lemma login_succeeds (env : Env) (req : LoginRequest) (u : Principal) :
  valid req = true ->
  User_findOne_email env (identifier req) = Ok (Some u) ->
  isActive u = true ->
  matchPassword env u (password req) = Ok true ->
  save_lastLogin env u = Ok tt ->
  exists t, login env req = TokenSent t /\ tr_status t = 200 /\
    tr_userType t = default "teacher" (role u) /\
    tr_body_token t = jwt_sign env (mkClaims (_id u) (Some (default "teacher" (role u)))) /\
    tr_cookie t = tr_body_token t.
Proof.
  intros Hvalid Hfind Hact Hpw Hsave. unfold login.
  rewrite Hvalid, Hfind, Hact, Hpw, Hsave. simpl.
  unfold sendTokenResponse. eexists. split; [reflexivity|]. simpl.
  by destruct (role u).
Qed.

(** X7. With the right password for an active staff document whose role
    is absent, [teacher] or [admin], [POST /api/auth/login] answers 200
    and hands out, in the body and in the cookie alike, the token signed
    for the document's id; given that the token library verifies what it
    signed and that the store finds the document by that id, [verifyToken]
    then attaches that same document, whether the token comes back in the
    header or in the cookie alone. *)
Theorem login_then_verifyToken (env : Env) (req : LoginRequest) (u : Principal) :
  let ut := default "teacher" (role u) in
  let c := mkClaims (_id u) (Some ut) in
  let token := jwt_sign env c in
  valid req = true ->
  User_findOne_email env (identifier req) = Ok (Some u) ->
  isActive u = true ->
  matchPassword env u (password req) = Ok true ->
  save_lastLogin env u = Ok tt ->
  (ut = "teacher" \/ ut = "admin") ->
  jwt_verify env token = Ok c ->
  token <> "" -> includes " " token = false ->
  User_findById env (_id u) = Ok (Some u) ->
  (exists t, login env req = TokenSent t /\ tr_status t = 200 /\
             tr_body_token t = token /\ tr_cookie t = token) /\
  (forall ck, VerifyToken.verifyToken env (mkAuthRequest (Some ("Bearer " ++ token)) ck)
     = Next (Some (set_userType (Some ut) u))) /\
  VerifyToken.verifyToken env (mkAuthRequest None (Some token))
    = Next (Some (set_userType (Some ut) u)).
Proof.
  intros ut c token Hvalid Hfind Hact Hpw Hsave Hut Hrt Hne Hsp Hid.
  split; [|split].
  - destruct (login_succeeds env req u Hvalid Hfind Hact Hpw Hsave)
      as (t & Hl & Hs & _ & Hb & Hc).
    exists t. fold ut c token in Hb. by rewrite Hc, Hb.
  - intros ck.
    apply (verifyToken_accepts env _ token c u); try done.
    + by apply extractToken_bearer.
    + simpl. destruct Hut as [-> | ->]; [by left | by right].
  - apply (verifyToken_accepts env _ token c u); try done.
    + by apply extractToken_cookie_only.
    + simpl. destruct Hut as [-> | ->]; [by left | by right].
Qed.

(** A run of X7 on the sample store. *)
Lemma login_then_verifyToken_witness :
  VerifyToken.verifyToken Sample.env2 (mkAuthRequest None (Some "tok-alice"))
    = Next (Some (set_userType (Some "teacher") Sample.alice)).
Proof.
  exact (proj2 (proj2 (login_then_verifyToken Sample.env2
    (mkLoginRequest true "alice@okul.example" "secret123") Sample.alice
    eq_refl eq_refl eq_refl eq_refl eq_refl (or_introl eq_refl) eq_refl
    ltac:(discriminate) eq_refl eq_refl))).
Defined.

(** X8. [POST /api/auth/login] takes the principal kind of the token from
    the document's [role], not from its [userType]: for a document without
    [role] the token says [teacher], so that even an administrator who
    logged in this way is refused by the admin router with 403
    [INSUFFICIENT_PERMISSION]. *)
Theorem login_token_says_teacher_without_role (env : Env) (req : LoginRequest)
    (u : Principal) :
  let c := mkClaims (_id u) (Some "teacher") in
  let token := jwt_sign env c in
  role u = None ->
  valid req = true ->
  User_findOne_email env (identifier req) = Ok (Some u) ->
  isActive u = true ->
  matchPassword env u (password req) = Ok true ->
  save_lastLogin env u = Ok tt ->
  jwt_verify env token = Ok c ->
  token <> "" -> includes " " token = false ->
  User_findById env (_id u) = Ok (Some u) ->
  (exists t, login env req = TokenSent t /\ tr_body_token t = token /\
             tr_userType t = "teacher") /\
  forall ck,
    rejects_with (AdminRoutes.gate env (mkAuthRequest (Some ("Bearer " ++ token)) ck))
      403 (Some "INSUFFICIENT_PERMISSION").
Proof.
  intros c token Hrole Hvalid Hfind Hact Hpw Hsave Hrt Hne Hsp Hid. split.
  - destruct (login_succeeds env req u Hvalid Hfind Hact Hpw Hsave)
      as (t & Hl & _ & Hut & Hb & _).
    rewrite Hrole in Hut, Hb. by exists t.
  - intros ck. unfold AdminRoutes.gate.
    rewrite (verifyToken_accepts env _ token c u); try done.
    + by eexists.
    + by apply extractToken_bearer.
    + by left.
Qed.

(** A run of X8: the sample administrator. *)
Lemma login_token_says_teacher_without_role_witness :
  userType Sample.emine = Some "admin" /\
  (exists t, login Sample.env2 (mkLoginRequest true "emine@okul.example" "secret123")
               = TokenSent t /\ tr_body_token t = "tok-emine" /\
             tr_userType t = "teacher") /\
  rejects_with (AdminRoutes.gate Sample.env2 (Sample.bearer "tok-emine"))
    403 (Some "INSUFFICIENT_PERMISSION").
Proof.
  destruct (login_token_says_teacher_without_role Sample.env2
    (mkLoginRequest true "emine@okul.example" "secret123") Sample.emine
    eq_refl eq_refl eq_refl eq_refl eq_refl eq_refl eq_refl
    ltac:(discriminate) eq_refl eq_refl) as [H1 H2].
  split; [reflexivity|]. split; [exact H1 | exact (H2 None)].
Defined.

Lemma student_login_succeeds (env : Env) (req : LoginRequest) (u : Principal) :
  valid req = true ->
  Student_findOne_number env (identifier req) = Ok (Some u) ->
  isActive u = true ->
  matchPassword env u (password req) = Ok true ->
  save_lastLogin env u = Ok tt ->
  student_login env req
    = TokenSent (mkTokenResponse 200
        (jwt_sign env (mkClaims (_id u) (Some "student")))
        (jwt_sign env (mkClaims (_id u) (Some "student")))
        "student" "Öğrenci girişi başarılı").
Proof.
  intros Hvalid Hfind Hact Hpw Hsave. unfold student_login.
  by rewrite Hvalid, Hfind, Hact, Hpw, Hsave.
Qed.

(** X9. With the right password for an active student, [POST
    /api/auth/student-login] hands out the token signed for the student's
    id with the kind [student]; given that the token library verifies what
    it signed and that the store finds the student by that id,
    [verifyToken] then attaches that student with [userType] [student],
    from the header as from the cookie, and the admin router answers the
    same token with 403 [INSUFFICIENT_PERMISSION]. *)
Theorem student_login_then_verifyToken (env : Env) (req : LoginRequest) (u : Principal) :
  let c := mkClaims (_id u) (Some "student") in
  let token := jwt_sign env c in
  valid req = true ->
  Student_findOne_number env (identifier req) = Ok (Some u) ->
  isActive u = true ->
  matchPassword env u (password req) = Ok true ->
  save_lastLogin env u = Ok tt ->
  jwt_verify env token = Ok c ->
  token <> "" -> includes " " token = false ->
  Student_findById env (_id u) = Ok (Some u) ->
  issued (student_login env req) = Some token /\
  (forall ck,
     let req' := mkAuthRequest (Some ("Bearer " ++ token)) ck in
     VerifyToken.verifyToken env req' = Next (Some (set_userType (Some "student") u)) /\
     rejects_with (AdminRoutes.gate env req') 403 (Some "INSUFFICIENT_PERMISSION")) /\
  VerifyToken.verifyToken env (mkAuthRequest None (Some token))
    = Next (Some (set_userType (Some "student") u)).
Proof.
  intros c token Hvalid Hfind Hact Hpw Hsave Hrt Hne Hsp Hid.
  assert (forall req', extractToken req' = Some token ->
            VerifyToken.verifyToken env req'
            = Next (Some (set_userType (Some "student") u))) as Hv.
  { intros req' Hx. unfold VerifyToken.verifyToken.
    rewrite Hx, (truthy_Some token Hne), Hrt. simpl.
    rewrite Hid. unfold VerifyToken.check_active. by rewrite Hact. }
  split; [|split].
  - by rewrite (student_login_succeeds env req u Hvalid Hfind Hact Hpw Hsave).
  - intros ck req'.
    assert (VerifyToken.verifyToken env req'
            = Next (Some (set_userType (Some "student") u))) as Hadm
      by (apply Hv; by apply extractToken_bearer).
    split; [done|]. unfold AdminRoutes.gate. rewrite Hadm. by eexists.
  - apply Hv. by apply extractToken_cookie_only.
Qed.

(** A run of X9 on the sample store. *)
Lemma student_login_then_verifyToken_witness :
  issued (student_login Sample.env2 (mkLoginRequest true "1001" "secret123"))
    = Some "tok-cem" /\
  VerifyToken.verifyToken Sample.env2 (mkAuthRequest None (Some "tok-cem"))
    = Next (Some (set_userType (Some "student") Sample.cem)).
Proof.
  destruct (student_login_then_verifyToken Sample.env2
    (mkLoginRequest true "1001" "secret123") Sample.cem
    eq_refl eq_refl eq_refl eq_refl eq_refl eq_refl
    ltac:(discriminate) eq_refl eq_refl) as (H1 & _ & H3).
  split; [exact H1 | exact H3].
Defined.

(** X10. Both login routes answer an unknown identifier and a wrong
    password with one and the same 401, but a deactivated account with a
    401 of its own, sent before the password is looked at: the message
    [Hesabınız deaktif durumda] is the answer exactly when the identifier
    belongs to a deactivated account, whatever the password. *)
Theorem login_tells_deactivation_before_password (env : Env) (req : LoginRequest) :
  (login env req = Rejected (reject 401 "Hesabınız deaktif durumda" None) <->
     valid req = true /\
     exists u, User_findOne_email env (identifier req) = Ok (Some u) /\ isActive u = false) /\
  (login env req = Rejected (reject 401 "Geçersiz email veya şifre" None) <->
     valid req = true /\
     (User_findOne_email env (identifier req) = Ok None \/
      exists u, User_findOne_email env (identifier req) = Ok (Some u) /\
                isActive u = true /\ matchPassword env u (password req) = Ok false)) /\
  (student_login env req = Rejected (reject 401 "Hesabınız deaktif durumda" None) <->
     valid req = true /\
     exists u, Student_findOne_number env (identifier req) = Ok (Some u) /\
               isActive u = false) /\
  (student_login env req
     = Rejected (reject 401 "Geçersiz öğrenci numarası veya şifre" None) <->
     valid req = true /\
     (Student_findOne_number env (identifier req) = Ok None \/
      exists u, Student_findOne_number env (identifier req) = Ok (Some u) /\
                isActive u = true /\ matchPassword env u (password req) = Ok false)).
Proof.
  unfold login, student_login, sendTokenResponse.
  destruct (valid req); cbn [negb];
    [|repeat split; try done; intros [? _]; done].
  split; [|split; [|split]].
  - destruct (User_findOne_email env (identifier req)) as [[u|]|e];
      [|split; [done | intros [_ (? & ? & _)]; done]..].
    destruct (isActive u) eqn:Hact; cbn [negb].
    + split; [|intros [_ (u' & Hu & Hu')]; congruence].
      destruct (matchPassword env u (password req)) as [[]|?]; [|done..].
      by destruct (save_lastLogin env u).
    + split; [intros _; split; [done|]; by exists u | done].
  - destruct (User_findOne_email env (identifier req)) as [[u|]|e].
    + destruct (isActive u) eqn:Hact; cbn [negb].
      * destruct (matchPassword env u (password req)) as [[]|?] eqn:Hpw.
        -- split; [by destruct (save_lastLogin env u)|].
           intros [_ [? | (u' & Hu & _ & ?)]]; congruence.
        -- split; [intros _; split; [done|]; right; by exists u | done].
        -- split; [done|]. intros [_ [? | (u' & Hu & _ & ?)]]; congruence.
      * split; [done|]. intros [_ [? | (u' & Hu & ? & _)]]; congruence.
    + split; [intros _; split; [done|]; by left | done].
    + split; [done|]. intros [_ [? | (u' & ? & _)]]; done.
  - destruct (Student_findOne_number env (identifier req)) as [[u|]|e];
      [|split; [done | intros [_ (? & ? & _)]; done]..].
    destruct (isActive u) eqn:Hact; cbn [negb].
    + split; [|intros [_ (u' & Hu & Hu')]; congruence].
      destruct (matchPassword env u (password req)) as [[]|?]; [|done..].
      by destruct (save_lastLogin env u).
    + split; [intros _; split; [done|]; by exists u | done].
  - destruct (Student_findOne_number env (identifier req)) as [[u|]|e].
    + destruct (isActive u) eqn:Hact; cbn [negb].
      * destruct (matchPassword env u (password req)) as [[]|?] eqn:Hpw.
        -- split; [by destruct (save_lastLogin env u)|].
           intros [_ [? | (u' & Hu & _ & ?)]]; congruence.
        -- split; [intros _; split; [done|]; right; by exists u | done].
        -- split; [done|]. intros [_ [? | (u' & Hu & _ & ?)]]; congruence.
      * split; [done|]. intros [_ [? | (u' & Hu & ? & _)]]; congruence.
    + split; [intros _; split; [done|]; by left | done].
    + split; [done|]. intros [_ [? | (u' & ? & _)]]; done.
Qed.

(** X11. [GET /api/auth/check] always answers 200. Whenever [verifyToken]
    admits a request, [check] reports it authenticated, with the
    [userType] [verifyToken] attaches. The converse fails in one way only:
    [check] looks every token that does not say [student] up among the
    staff, so it can report a request authenticated that [verifyToken]
    rejects with [INVALID_USER_TYPE]. *)
Theorem check_vouches_for_more_than_verifyToken (env : Env) (req : AuthRequest) :
  chk_status (check env req) = 200 /\
  (forall u, VerifyToken.verifyToken env req = Next u ->
     exists p, u = Some p /\ authenticated (check env req) = true /\
               chk_userType (check env req) = userType p) /\
  (authenticated (check env req) = true ->
     (exists p, VerifyToken.verifyToken env req = Next (Some p)) \/
     rejects_with (VerifyToken.verifyToken env req) 401 (Some "INVALID_USER_TYPE")).
Proof.
  unfold check, VerifyToken.verifyToken, VerifyToken.no_token, VerifyToken.check_active.
  destruct (extractToken req) as [t|]; [|by repeat split].
  destruct (negb (truthy (Some t))); [by repeat split|].
  destruct (jwt_verify env t) as [d|e]; [|by repeat split].
  destruct (strict_eq (claim_userType d) "student") eqn:Hs.
  - destruct (Student_findById env (claim_id d)) as [[p|]|e]; [|by repeat split..].
    destruct (isActive p); simpl; [|by repeat split].
    split; [done|]. split; [intros u [= <-]; by eexists | intros _; left; by eexists].
  - destruct (strict_eq (claim_userType d) "teacher" || strict_eq (claim_userType d) "admin")%bool.
    + destruct (User_findById env (claim_id d)) as [[p|]|e]; [|by repeat split..].
      destruct (isActive p); simpl; [|by repeat split].
      split; [done|]. split; [intros u [= <-]; by eexists | intros _; left; by eexists].
    + destruct (User_findById env (claim_id d)) as [[p|]|e]; [|by repeat split..].
      destruct (isActive p); simpl; [|by repeat split].
      split; [done|]. split; [done|]. intros _. right. by eexists.
Qed.

(** A token of an unknown kind for an active staff document. *)
Example check_vouches_for_unknown_kind :
  authenticated (check Sample.env (Sample.bearer "tok-robot")) = true /\
  rejects_with (VerifyToken.verifyToken Sample.env (Sample.bearer "tok-robot"))
    401 (Some "INVALID_USER_TYPE").
Proof. split; [reflexivity | by eexists]. Qed.

Lemma dispatch_app (stack1 stack2 : list Express.Middleware) (req : Express.Req) :
  Express.dispatch (stack1 ++ stack2) req
    = match Express.dispatch stack1 req with
      | Express.Answer r => Express.Answer r
      | Express.Continue req' => Express.dispatch stack2 req'
      end.
Proof.
  revert req. induction stack1 as [|mw stack1 IH]; intros req; [done|].
  simpl. destruct (mw req) as [r|req']; [done | apply IH].
Qed.

Lemma dispatch_leaves_user (stack : list Express.Middleware) (req req' : Express.Req) :
  Forall leavesUserAlone stack ->
  Express.dispatch stack req = Express.Continue req' ->
  Express.user req' = Express.user req.
Proof.
  intros Hall. revert req. induction Hall as [|mw stack Hmw _ IH]; intros req; simpl.
  - by intros [= <-].
  - destruct (mw req) as [r|req1] eqn:E; [done|].
    intros Hd. rewrite (IH req1 Hd). by apply Hmw.
Qed.

Lemma dispatch_calls_next (stack : list Express.Middleware) (req : Express.Req) :
  Forall callsNext stack -> exists req', Express.dispatch stack req = Express.Continue req'.
Proof.
  intros Hall. revert req. induction Hall as [|mw stack Hmw _ IH]; intros req; simpl.
  - by eexists.
  - destruct (Hmw req) as (req1 & ->). apply IH.
Qed.

Lemma teacherOnly_admits (p : Principal) :
  VerifyToken.teacherOnly (Some p) = Next (Some p) <->
  userType p = Some "teacher" \/ userType p = Some "admin".
Proof.
  unfold VerifyToken.teacherOnly, VerifyToken.authorizeRoles.
  destruct (userType p) as [x|]; simpl.
  - destruct (String.eqb_spec x "teacher") as [->|Ht]; simpl; [by split; [left|]|].
    destruct (String.eqb_spec x "admin") as [->|Ha]; simpl; [by split; [right|]|].
    split; [done | intros [[= ?]|[= ?]]; done].
  - split; [done | intros [?|?]; done].
Qed.

(** X12. The detailed analytics routes put [teacherOnly] in front of
    their handlers without [verifyToken] before it. A request arrives
    without [req.user]; as long as the third-party middleware that
    [app.js] mounts before the routers, in development or not, leaves
    [req.user] alone, the
    request never reaches the handler of such a route, whatever token it
    carries, and where every one of them calls [next()] the answer is
    401 [NOT_AUTHENTICATED]. With [verifyToken] mounted in front of the
    route, the same request carrying the valid token of an active teacher
    or administrator would reach the handler: given a principal,
    [teacherOnly] lets through exactly the user types [teacher] and
    [admin]. *)
Theorem analytics_detail_routes_admit_nobody (development : bool) (l : App.Libs)
    (req : Express.Req) :
  Express.user req = None ->
  Forall leavesUserAlone (App.thirdParty development l) ->
  (forall req', Express.dispatch (App.toAnalyticsDetailed development l) req <> Express.Continue req') /\
  (Forall callsNext (App.thirdParty development l) ->
     Express.dispatch (App.toAnalyticsDetailed development l) req
       = Express.Answer (reject 401 "Önce giriş yapmalısınız" (Some "NOT_AUTHENTICATED"))) /\
  (forall env p,
     VerifyToken.verifyToken env (Express.credentials req) = Next (Some p) ->
     userType p = Some "teacher" \/ userType p = Some "admin" ->
     Express.dispatch
       (Express.authenticator (VerifyToken.verifyToken env) :: AnalyticsRoutes.detailed) req
       = Express.Continue (Express.mkReq (Express.credentials req) (Some p))) /\
  (forall p,
     (exists req', Express.gate VerifyToken.teacherOnly
                     (Express.mkReq (Express.credentials req) (Some p))
                   = Express.Continue req') <->
     userType p = Some "teacher" \/ userType p = Some "admin").
Proof.
  intros Huser Hlibs.
  assert (forall req1, Express.dispatch (App.thirdParty development l) req = Express.Continue req1 ->
            Express.dispatch ([App.analytics] ++ AnalyticsRoutes.detailed) req1
            = Express.Answer (reject 401 "Önce giriş yapmalısınız" (Some "NOT_AUTHENTICATED")))
    as Hroute.
  { intros req1 Hd. pose proof (dispatch_leaves_user _ _ _ Hlibs Hd) as Hu.
    rewrite Huser in Hu. simpl. unfold Express.gate. by rewrite Hu. }
  unfold App.toAnalyticsDetailed. rewrite dispatch_app. split; [|split; [|split]].
  - intros req'. destruct (Express.dispatch (App.thirdParty development l) req) as [r|req1] eqn:Hd;
      [done|]. by rewrite (Hroute req1 eq_refl).
  - intros Hnext. destruct (dispatch_calls_next _ req Hnext) as (req1 & Hd).
    rewrite Hd. by apply Hroute.
  - intros env p Hv Hut. simpl. unfold Express.authenticator, Express.gate.
    rewrite Hv. cbn [Express.user]. by rewrite (proj2 (teacherOnly_admits p) Hut).
  - intros p. rewrite <- teacherOnly_admits. unfold Express.gate. cbn [Express.user].
    destruct (VerifyToken.teacherOnly (Some p)) as [r|u] eqn:E.
    + split; [by intros [? ?] | done].
    + split; [intros _ | by eexists].
      unfold VerifyToken.teacherOnly, VerifyToken.authorizeRoles in E.
      by destruct (negb _).
Qed.

(** A run of X12 with libraries that pass every request on: the valid
    token of a teacher is answered 401 on a detailed analytics route, and
    would be let through behind [verifyToken]. *)
Lemma analytics_detail_routes_admit_nobody_witness :
  Express.dispatch (App.toAnalyticsDetailed false Sample.passOn)
    (Express.mkReq (Sample.bearer "tok-alice") None)
    = Express.Answer (reject 401 "Önce giriş yapmalısınız" (Some "NOT_AUTHENTICATED")) /\
  Express.dispatch
    (Express.authenticator (VerifyToken.verifyToken Sample.env) :: AnalyticsRoutes.detailed)
    (Express.mkReq (Sample.bearer "tok-alice") None)
    = Express.Continue (Express.mkReq (Sample.bearer "tok-alice")
                          (Some (set_userType (Some "teacher") Sample.alice))).
Proof.
  assert (Forall leavesUserAlone (App.thirdParty false Sample.passOn)) as Hlibs
    by (repeat (apply Forall_cons_2; [by intros r r' [= <-]|]); apply Forall_nil_2).
  assert (Forall callsNext (App.thirdParty false Sample.passOn)) as Hnext
    by (repeat (apply Forall_cons_2; [intros r; by exists r|]); apply Forall_nil_2).
  destruct (analytics_detail_routes_admit_nobody false Sample.passOn
              (Express.mkReq (Sample.bearer "tok-alice") None) eq_refl Hlibs)
    as (_ & H2 & H3 & _).
  split; [exact (H2 Hnext)|].
  exact (H3 Sample.env (set_userType (Some "teacher") Sample.alice) eq_refl
            (or_introl eq_refl)).
Defined.

(** ** The tracking middleware, continued *)

Import OnlineStats.

Lemma truthy_or_else_r (a b : option string) :
  truthy b = true -> truthy (or_else a b) = true.
Proof. intros Hb. unfold or_else. by destruct (truthy a) eqn:Ha. Qed.

Lemma or_else_falsy (a b : option string) : truthy a = false -> or_else a b = b.
Proof. unfold or_else. by intros ->. Qed.

Lemma interpolate_truthy (v : option string) : truthy v = true -> interpolate v <> "".
Proof.
  destruct v as [s|]; simpl; [|done]. intros H ->. done.
Qed.

Lemma getClientIP_nonempty (req : Request) : getClientIP req <> "".
Proof.
  unfold getClientIP. apply interpolate_truthy. by do 6 apply truthy_or_else_r.
Qed.

(** X13. [getClientIP] never yields the empty string. The first
    non-empty of its six sources wins, in this order: [x-forwarded-for],
    [x-real-ip], [req.connection.remoteAddress],
    [req.socket.remoteAddress], [req.connection.socket.remoteAddress],
    [req.ip]; each is the answer exactly when it is non-empty and all
    before it are missing or empty, and [127.0.0.1] stands in when all six
    are. *)
Theorem getClientIP_never_empty (req : Request) :
  getClientIP req <> "" /\
  (forall x, h_x_forwarded_for req = Some x -> x <> "" -> getClientIP req = x) /\
  (truthy (h_x_forwarded_for req) = false ->
   forall x, h_x_real_ip req = Some x -> x <> "" -> getClientIP req = x) /\
  (truthy (h_x_forwarded_for req) = false -> truthy (h_x_real_ip req) = false ->
   forall x, connection_remoteAddress req = Some x -> x <> "" -> getClientIP req = x) /\
  (truthy (h_x_forwarded_for req) = false -> truthy (h_x_real_ip req) = false ->
   truthy (connection_remoteAddress req) = false ->
   forall x, socket_remoteAddress req = Some x -> x <> "" -> getClientIP req = x) /\
  (truthy (h_x_forwarded_for req) = false -> truthy (h_x_real_ip req) = false ->
   truthy (connection_remoteAddress req) = false ->
   truthy (socket_remoteAddress req) = false ->
   forall x, connection_socket_remoteAddress req = Some x -> x <> "" ->
     getClientIP req = x) /\
  (truthy (h_x_forwarded_for req) = false -> truthy (h_x_real_ip req) = false ->
   truthy (connection_remoteAddress req) = false ->
   truthy (socket_remoteAddress req) = false ->
   truthy (connection_socket_remoteAddress req) = false ->
   forall x, req_ip req = Some x -> x <> "" -> getClientIP req = x) /\
  (truthy (h_x_forwarded_for req) = false -> truthy (h_x_real_ip req) = false ->
   truthy (connection_remoteAddress req) = false ->
   truthy (socket_remoteAddress req) = false ->
   truthy (connection_socket_remoteAddress req) = false ->
   truthy (req_ip req) = false ->
   getClientIP req = "127.0.0.1").
Proof.
  unfold getClientIP.
  split; [|split; [|split; [|split; [|split; [|split; [|split]]]]]].
  - apply interpolate_truthy. by do 6 apply truthy_or_else_r.
  - intros x Hx Hne. by rewrite Hx, (or_else_truthy _ _ (truthy_Some x Hne)).
  - intros H1 x Hx Hne.
    by rewrite (or_else_falsy _ _ H1), Hx, (or_else_truthy _ _ (truthy_Some x Hne)).
  - intros H1 H2 x Hx Hne.
    by rewrite (or_else_falsy _ _ H1), (or_else_falsy _ _ H2), Hx,
      (or_else_truthy _ _ (truthy_Some x Hne)).
  - intros H1 H2 H3 x Hx Hne.
    by rewrite (or_else_falsy _ _ H1), (or_else_falsy _ _ H2), (or_else_falsy _ _ H3), Hx,
      (or_else_truthy _ _ (truthy_Some x Hne)).
  - intros H1 H2 H3 H4 x Hx Hne.
    by rewrite (or_else_falsy _ _ H1), (or_else_falsy _ _ H2), (or_else_falsy _ _ H3),
      (or_else_falsy _ _ H4), Hx, (or_else_truthy _ _ (truthy_Some x Hne)).
  - intros H1 H2 H3 H4 H5 x Hx Hne.
    by rewrite (or_else_falsy _ _ H1), (or_else_falsy _ _ H2), (or_else_falsy _ _ H3),
      (or_else_falsy _ _ H4), (or_else_falsy _ _ H5), Hx,
      (or_else_truthy _ _ (truthy_Some x Hne)).
  - intros H1 H2 H3 H4 H5 H6.
    by rewrite (or_else_falsy _ _ H1), (or_else_falsy _ _ H2), (or_else_falsy _ _ H3),
      (or_else_falsy _ _ H4), (or_else_falsy _ _ H5), (or_else_falsy _ _ H6).
Qed.

Lemma lower_empty (s : string) : lower s = "" -> s = "".
Proof. by destruct s. Qed.

Lemma lower_app (s t : string) : lower (s ++ t) = lower s ++ lower t.
Proof.
  induction s as [|c s IH]; [done|]. rewrite append_cons. simpl.
  by rewrite IH, append_cons.
Qed.

(** X14. [isBot] does not depend on letter case, holds of no empty
    [User-Agent], and holds of every string that contains one of
    [BOT_PATTERNS] anywhere. *)
Theorem isBot_ignores_letter_case :
  (forall ua ua', lower ua = lower ua' -> isBot ua = isBot ua') /\
  isBot "" = false /\
  (forall pattern before after, pattern ∈ BOT_PATTERNS ->
     isBot (before ++ pattern ++ after) = true).
Proof.
  split; [|split; [done|]].
  - intros ua ua' Hl. unfold isBot, test_i. rewrite Hl.
    assert (truthy (Some ua) = truthy (Some ua')) as ->; [|done].
    simpl. f_equal.
    destruct (String.eqb_spec ua ""), (String.eqb_spec ua' ""); try done; subst.
    + symmetry in Hl. by apply lower_empty in Hl.
    + by apply lower_empty in Hl.
  - intros pattern before after Hin. unfold isBot.
    assert (lower pattern = pattern) as Hlow.
    { unfold BOT_PATTERNS in Hin.
      repeat (apply elem_of_cons in Hin as [->|Hin]; [reflexivity|]).
      by apply elem_of_nil in Hin. }
    assert (before ++ pattern ++ after <> "") as Hne.
    { intros E. assert (pattern <> "") as Hp.
      { intros ->. unfold BOT_PATTERNS in Hin.
        repeat (apply elem_of_cons in Hin as [Hin|Hin]; [discriminate Hin|]).
        by apply elem_of_nil in Hin. }
      destruct before; [|discriminate E]. destruct pattern; [done | discriminate E]. }
    rewrite (truthy_Some _ Hne). cbn [negb].
    apply (proj2 (existsb_exists _ _)). exists pattern. split; [by apply list_elem_of_In|].
    unfold test_i. rewrite !lower_app, Hlow.
    apply includes_app_r, includes_here.
Qed.

Lemma unknown_if_falsy_nonempty (v : option string) : unknown_if_falsy v <> "".
Proof.
  unfold unknown_if_falsy. apply interpolate_truthy, truthy_or_else_r. done.
Qed.

(** X15. [getLocationInfo] never leaves [country], [region], [city] or
    [timezone] empty. For a loopback or private address it answers
    [Turkey] without consulting the geo database; for any other address
    that the database does not know, or on which it throws, it answers
    the all-[Unknown] location. *)
Theorem getLocationInfo_never_blank (lib : Lib) (ip : string) :
  let loc := getLocationInfo lib ip in
  (country loc <> "" /\ region loc <> "" /\ city loc <> "" /\ timezone loc <> "") /\
  (isLocalIP ip = true ->
     forall lib', getLocationInfo lib' ip = loc /\ country loc = "Turkey") /\
  (isLocalIP ip = false ->
   (geoip_lookup lib ip = Ok None \/ exists e, geoip_lookup lib ip = Throw e) ->
     loc = unknown_location).
Proof.
  intros loc. unfold loc, getLocationInfo, isLocalIP.
  destruct (String.eqb ip "127.0.0.1" || String.eqb ip "::1" ||
            startsWith "192.168." ip || startsWith "10." ip)%bool.
  { split; [by repeat split|]. split; [|done]. by intros _ lib'. }
  assert (forall v d, d <> "" -> interpolate (or_else v (Some d)) <> "") as Hnb.
  { intros v d Hd. apply interpolate_truthy, truthy_or_else_r. by apply truthy_Some. }
  destruct (geoip_lookup lib ip) as [[geo|]|e]; cbn [country region city timezone].
  - split; [|split; [done|]].
    + repeat split; try apply unknown_if_falsy_nonempty. by apply Hnb.
    + intros _ [?|[? ?]]; done.
  - split; [by repeat split|]. by split.
  - split; [by repeat split|]. by split.
Qed.

Lemma device_in_enum (lib : Lib) (ua : string) :
  (analyzeUserAgent lib ua).2 ∈ deviceEnum /\
  ((analyzeUserAgent lib ua).2 = "unknown" <-> ua = "").
Proof.
  unfold analyzeUserAgent, deviceEnum. simpl.
  destruct (String.eqb_spec ua "") as [->|Hne]; simpl.
  - split; [set_solver | done].
  - repeat case_match; (split; [set_solver | split; [discriminate | done]]).
Qed.

Lemma getUserRole_in_enum (req : Request) :
  getUserRole req ∈ roleEnum /\
  (isAuthenticatedReq req = false <-> getUserRole req = "guest").
Proof.
  unfold getUserRole, isAuthenticatedReq, roleEnum.
  repeat case_match; (split; [set_solver | split; (discriminate || done)]).
Qed.

Lemma upsertOnline_record (lib : Lib) (c : Tick) (req : Request)
    (m : gmap string OnlineUser) :
  exists d, upsertOnline lib c req m = <[sessionIdOf c req := d]> m /\
    ou_sessionId d = sessionIdOf c req /\
    ou_ip d = getClientIP req /\
    ou_device d = (analyzeUserAgent lib (userAgentString req)).2 /\
    ou_userRole d = getUserRole req /\
    ou_isAuthenticated d = isAuthenticatedReq req /\
    ou_currentPage d = path req /\
    ou_lastActivity d = now c /\
    ou_loginTime d = default (now c) (ou_loginTime <$> m !! sessionIdOf c req).
Proof.
  unfold upsertOnline.
  destruct (analyzeUserAgent lib (userAgentString req)) as [[br os] device].
  destruct (subjectIds req) as [[userId teacherId] studentId].
  eexists. split; [reflexivity|]. simpl. repeat split.
  by destruct (m !! sessionIdOf c req).
Qed.

Lemma run_invariant (lib : Lib) (I : Db -> Prop) :
  (forall c req db, I db -> I (trackOnlineUser lib c req db)) ->
  (forall c req db, I db -> I (trackVisitor lib c req db)) ->
  forall reqs db, I db -> I (run lib reqs db).
Proof.
  intros Ho Hv reqs. unfold run.
  induction reqs as [|[[c1 c2] req] reqs IH]; intros db Hdb; [done|].
  simpl. apply IH. unfold analytics. by apply Hv, Ho.
Qed.

(** X16. Every presence record in the store after any sequence of
    requests is filed under its own [sessionId], has a non-empty [ip], a
    [device] and a [userRole] out of the values the schema allows, and is
    marked unauthenticated exactly when its role is [guest]. *)
Theorem presence_records_well_formed (lib : Lib)
    (reqs : list (Tick * Tick * Request)) (k : string) (d : OnlineUser) :
  onlineUsers (run lib reqs emptyDb) !! k = Some d -> presenceWellFormed k d.
Proof.
  revert k d.
  apply (run_invariant lib
           (fun db => forall k d, onlineUsers db !! k = Some d -> presenceWellFormed k d)).
  - intros c req db Hdb k d. unfold trackOnlineUser.
    destruct (skipOnline (path req)); [apply Hdb|].
    destruct (isBot (userAgentString req)); [apply Hdb|]. simpl.
    destruct (upsertOnline_record lib c req (onlineUsers db))
      as (d' & -> & Hk & Hip & Hdev & Hrole & Hauth & _).
    intros [[<- <-] | [_ Hold]]%lookup_insert_Some; [|by apply Hdb].
    unfold presenceWellFormed. rewrite Hip, Hdev, Hrole, Hauth.
    split; [done|]. split; [apply getClientIP_nonempty|].
    split; [apply device_in_enum|]. apply getUserRole_in_enum.
  - intros c req db Hdb k d. rewrite trackVisitor_onlineUsers. apply Hdb.
  - intros k d Hk. cbn in Hk. by rewrite lookup_empty in Hk.
Qed.

(** A run of X16. *)
Lemma presence_records_well_formed_witness :
  exists d,
    onlineUsers (run Sample.lib
      [(mkTick 1000 "0.25", mkTick 1001 "0.75",
        Sample.browse "/" (Some "sess-1") Sample.firefox)] emptyDb) !! "sess-1"
      = Some d /\ presenceWellFormed "sess-1" d.
Proof.
  eexists. split; [reflexivity|].
  eapply (presence_records_well_formed Sample.lib
            [(mkTick 1000 "0.25", mkTick 1001 "0.75",
              Sample.browse "/" (Some "sess-1") Sample.firefox)]).
  reflexivity.
Defined.

Lemma upsertVisitor_record (lib : Lib) (c : Tick) (req : Request)
    (m : gmap (string * string) Visitor) :
  let key := (getClientIP req, sessionIdOf c req) in
  let v := upsertVisitor lib c req m in
  v_device v = (analyzeUserAgent lib (userAgentString req)).2 /\
  match m !! key with
  | Some old =>
      v_ip v = v_ip old /\ v_sessionId v = v_sessionId old /\
      v_firstVisit v = v_firstVisit old /\ v_referrer v = v_referrer old /\
      v_visitCount v = v_visitCount old /\ v_pages v = v_pages old /\
      v_totalDuration v = v_totalDuration old
  | None =>
      v_ip v = getClientIP req /\ v_sessionId v = sessionIdOf c req /\
      v_firstVisit v = now c /\
      v_referrer v = interpolate (or_else (h_referrer req) (Some "direct")) /\
      v_visitCount v = 0 /\ v_pages v = [] /\ v_totalDuration v = 0
  end.
Proof.
  unfold upsertVisitor.
  destruct (analyzeUserAgent lib (userAgentString req)) as [[br os] device].
  destruct (subjectIds req) as [[userId teacherId] studentId].
  simpl. destruct (m !! _); done.
Qed.

(** X17. Every visit record in the store after any sequence of requests
    is filed under its own [(ip, sessionId)], has a non-empty [ip] and a
    [device] the schema allows, counts in [visitCount] exactly its page
    entries, holds at least one page entry whenever its [userAgent] is
    not empty (a record without any was last written by a request without
    [User-Agent], whose page view [save()] refused), and has
    [totalDuration] 0. *)
Theorem visit_records_well_formed (lib : Lib)
    (reqs : list (Tick * Tick * Request)) (k : string * string) (v : Visitor) :
  visitors (run lib reqs emptyDb) !! k = Some v -> visitWellFormed k v.
Proof.
  revert k v.
  apply (run_invariant lib
           (fun db => forall k v, visitors db !! k = Some v -> visitWellFormed k v)).
  - intros c req db Hdb k v. unfold trackOnlineUser.
    destruct (skipOnline (path req)); [apply Hdb|].
    destruct (isBot (userAgentString req)); apply Hdb.
  - intros c req db Hdb k v.
    destruct (skipVisitor (path req)) eqn:Hs;
      [rewrite trackVisitor_untracked by auto; apply Hdb|].
    destruct (isBot (userAgentString req)) eqn:Hb;
      [rewrite trackVisitor_untracked by auto; apply Hdb|].
    rewrite (proj1 (trackVisitor_tracked lib c req db (conj Hs Hb))).
    intros [[<- <-] | [_ Hold]]%lookup_insert_Some; [|by apply Hdb].
    destruct (upsertVisitor_record lib c req (visitors db)) as [Hdev Hrec].
    destruct (upsertVisitor_fields lib c req (visitors db)) as (Hua & _).
    cbv zeta in Hdev, Hrec, Hua.
    assert (forall old, visitors db !! (getClientIP req, sessionIdOf c req) = Some old ->
              visitWellFormed (getClientIP req, sessionIdOf c req) old) as Hinv
      by (intros old; apply Hdb).
    destruct (visitors db !! (getClientIP req, sessionIdOf c req)) as [old|].
    + destruct (Hinv old eq_refl) as (Hkey & Hip & _ & Hcnt & _ & Hdur).
      destruct Hrec as (Eip & Esid & _ & _ & En & Ep & Ed).
      destruct (truthy (Some (userAgentString req))) eqn:Ht; unfold visitWellFormed;
        cbn [recordPage v_ip v_sessionId v_device v_visitCount v_pages v_userAgent
             v_totalDuration];
        rewrite Hdev, Eip, Esid, En, Ep, Ed.
      * split; [done|]. split; [done|]. split; [apply device_in_enum|].
        rewrite length_app, length_cons, length_nil.
        split; [lia|]. split; [lia|done].
      * split; [done|]. split; [done|]. split; [apply device_in_enum|].
        split; [done|]. split; [|done].
        rewrite Hua. intros Hne. by rewrite (truthy_Some _ Hne) in Ht.
    + destruct Hrec as (Eip & Esid & _ & _ & En & Ep & Ed).
      destruct (truthy (Some (userAgentString req))) eqn:Ht; unfold visitWellFormed;
        cbn [recordPage v_ip v_sessionId v_device v_visitCount v_pages v_userAgent
             v_totalDuration];
        rewrite Hdev, Eip, Esid, En, Ep, Ed.
      * split; [done|]. split; [apply getClientIP_nonempty|].
        split; [apply device_in_enum|]. done.
      * split; [done|]. split; [apply getClientIP_nonempty|].
        split; [apply device_in_enum|].
        split; [done|]. split; [|done].
        rewrite Hua. intros Hne. by rewrite (truthy_Some _ Hne) in Ht.
  - intros k v Hk. cbn in Hk. by rewrite lookup_empty in Hk.
Qed.

(** A run of X17: two page views of one session. *)
Lemma visit_records_well_formed_witness :
  exists v,
    visitors (run Sample.lib
      [(mkTick 1000 "0.25", mkTick 1001 "0.75",
        Sample.browse "/" (Some "sess-1") Sample.firefox);
       (mkTick 2000 "0.5", mkTick 2001 "0.125",
        Sample.browse "/haberler" (Some "sess-1") Sample.firefox)] emptyDb)
      !! ("203.0.113.7", "sess-1") = Some v /\
    visitWellFormed ("203.0.113.7", "sess-1") v /\ v_visitCount v = 2.
Proof.
  eexists. split; [reflexivity|]. split; [|reflexivity].
  eapply (visit_records_well_formed Sample.lib
    [(mkTick 1000 "0.25", mkTick 1001 "0.75",
      Sample.browse "/" (Some "sess-1") Sample.firefox);
     (mkTick 2000 "0.5", mkTick 2001 "0.125",
      Sample.browse "/haberler" (Some "sess-1") Sample.firefox)]).
  reflexivity.
Defined.

Lemma sumPages_perm (l l' : list Visitor) : l ≡ₚ l' -> sumPages l = sumPages l'.
Proof.
  induction 1 as [|x l l' _ IH|x y l|l l' l'' _ IH1 _ IH2]; simpl; lia.
Qed.

Lemma totalEntries_insert (m : gmap (string * string) Visitor)
    (k : string * string) (v : Visitor) :
  totalEntries (<[k:=v]> m)
    = totalEntries m - Z.of_nat (length (default [] (v_pages <$> m !! k)))
      + Z.of_nat (length (v_pages v)).
Proof.
  unfold totalEntries.
  assert (forall (m' : gmap (string * string) Visitor) x, m' !! k = None ->
            sumPages (map_to_list (<[k:=x]> m')).*2
              = Z.of_nat (length (v_pages x)) + sumPages (map_to_list m').*2) as Hfresh.
  { intros m' x Hk.
    rewrite (sumPages_perm _ (x :: (map_to_list m').*2)); [done|].
    by rewrite (map_to_list_insert m' k x Hk). }
  destruct (m !! k) as [old|] eqn:Hk; simpl.
  - rewrite <- (insert_delete_eq m k v), Hfresh by apply lookup_delete_eq.
    rewrite <- (insert_delete_id m k old Hk) at 2.
    rewrite Hfresh by apply lookup_delete_eq. lia.
  - rewrite Hfresh by done. lia.
Qed.

Lemma group_const {A Acc} (init : Acc) (step : A -> Acc -> Acc) (l : list A) :
  Mongo.group (fun _ => tt) init step l
    = match l with
      | [] => []
      | _ => [(tt, foldl (fun acc a => step a acc) init l)]
      end.
Proof.
  induction l as [|a l IH] using rev_ind; [done|].
  rewrite group_snoc, IH, foldl_app.
  destruct l as [|b l]; simpl; [done|].
  by destruct (l ++ [a])%list.
Qed.

Lemma sum_of_sizes (l : list Visitor) (i : Z) :
  foldl (fun total v => total + Z.of_nat (length (v_pages v))) i l = i + sumPages l.
Proof.
  revert i. induction l as [|v l IH]; intros i; simpl; [lia|].
  rewrite IH. lia.
Qed.

Lemma getSiteStats_counts_entries (cnt : AnalyticsController.Counts) (now : Z) (db : Db) :
  siteStats (AnalyticsController.getSiteStats cnt now db)
    = Some (mkSiteStats (Z.of_nat (size (visitors db))) (totalEntries (visitors db))
              (AnalyticsController.cnt_users cnt) (AnalyticsController.cnt_teachers cnt)
              (AnalyticsController.cnt_students cnt) (AnalyticsController.cnt_news cnt)
              (AnalyticsController.cnt_galleries cnt) now) /\
  visitors (AnalyticsController.getSiteStats cnt now db) = visitors db /\
  onlineUsers (AnalyticsController.getSiteStats cnt now db) = onlineUsers db.
Proof.
  unfold AnalyticsController.getSiteStats. cbv zeta. cbn [siteStats visitors onlineUsers].
  split; [|done]. do 2 f_equal.
  rewrite group_const. unfold totalEntries, AnalyticsController.docs.
  destruct ((map_to_list (visitors db)).*2) as [|v l] eqn:E; [done|].
  cbn [snd]. by rewrite sum_of_sizes.
Qed.

Lemma analytics_keeps_counter (lib : Lib) (c1 c2 : Tick) (req : Request) (db : Db) :
  counterAgrees db -> counterAgrees (analytics lib c1 c2 req db).
Proof.
  intros Hdb. unfold analytics.
  assert (counterAgrees (trackOnlineUser lib c1 req db)) as Hon.
  { unfold trackOnlineUser.
    destruct (skipOnline (path req)); [done|].
    by destruct (isBot (userAgentString req)). }
  revert Hon. generalize (trackOnlineUser lib c1 req db). clear db Hdb.
  intros db Hdb.
  destruct (skipVisitor (path req)) eqn:Hs;
    [by rewrite trackVisitor_untracked by auto|].
  destruct (isBot (userAgentString req)) eqn:Hb;
    [by rewrite trackVisitor_untracked by auto|].
  unfold counterAgrees in *.
  rewrite (trackVisitor_siteStats lib c2 req db (conj Hs Hb)).
  rewrite (proj1 (trackVisitor_tracked lib c2 req db (conj Hs Hb))).
  rewrite totalEntries_insert.
  destruct (upsertVisitor_fields lib c2 req (visitors db)) as (_ & _ & _ & _ & Hp).
  cbv zeta in Hp.
  destruct (truthy (Some (userAgentString req))).
  - cbn [recordPage v_pages]. rewrite Hp, length_app, length_cons, length_nil.
    unfold updateSiteStats. destruct (siteStats db) as [st|]; cbn [totalPageViews]; lia.
  - rewrite Hp. lia.
Qed.

(** X18. The site-wide [totalPageViews] counter and the visit log agree:
    the log holds as many page entries as the counter says, and none as
    long as no counter document exists. The analytics middleware keeps
    this agreement on every request, also on one whose page view is not
    saved; the [getSiteStats] handler, the other writer of the counter,
    sets it to the number of page entries of the log, whatever it was.
    Hence the agreement holds after any sequence of requests and
    [getSiteStats] calls handled one after the other from an empty store.
    The sweep of old visit records does not keep it: it deletes page
    entries and leaves the counter. *)
Theorem page_view_counter_agrees (lib : Lib) :
  (forall c1 c2 req db, counterAgrees db -> counterAgrees (analytics lib c1 c2 req db)) /\
  (forall cnt now db, counterAgrees (AnalyticsController.getSiteStats cnt now db)) /\
  (forall events, counterAgrees (serveAll lib events emptyDb)) /\
  (forall reqs, counterAgrees (run lib reqs emptyDb)) /\
  (exists db,
     counterAgrees db /\ ~ counterAgrees (cleanupOldRecords 5000 db)).
Proof.
  assert (forall cnt now db, counterAgrees (AnalyticsController.getSiteStats cnt now db))
    as Hstats.
  { intros cnt now db.
    destruct (getSiteStats_counts_entries cnt now db) as (Est & Evs & _).
    unfold counterAgrees. by rewrite Est, Evs. }
  split; [apply analytics_keeps_counter|]. split; [exact Hstats|].
  split; [|split].
  - intros events. unfold serveAll.
    induction events as [|e events IH] using rev_ind; [done|].
    rewrite foldl_app. cbn [foldl].
    destruct e as [c1 c2 req | cnt now]; cbn [serve];
      [by apply analytics_keeps_counter | apply Hstats].
  - intros reqs. unfold run.
    induction reqs as [|x reqs IH] using rev_ind; [done|].
    rewrite foldl_app. cbn [foldl]. by apply analytics_keeps_counter.
  - exists (run Sample.lib
              [(mkTick 1000 "0.25", mkTick 1001 "0.75",
                Sample.browse "/" (Some "sess-1") Sample.firefox)] emptyDb).
    split; [by vm_compute|]. by vm_compute.
Qed.

(** X19. A tracked request leaves a presence record under its session
    with [lastActivity] and [currentPage] of this request, while
    [loginTime] is the time of the first tracked request of the session:
    it is set on insert and never moved afterwards. *)
Theorem loginTime_set_once (lib : Lib) (c : Tick) (req : Request) (db : Db) :
  trackedOnline req ->
  exists d,
    onlineUsers (trackOnlineUser lib c req db) !! sessionIdOf c req = Some d /\
    ou_lastActivity d = now c /\ ou_currentPage d = path req /\
    ou_loginTime d
      = match onlineUsers db !! sessionIdOf c req with
        | Some old => ou_loginTime old
        | None => now c
        end.
Proof.
  intros [Hs Hb]. unfold trackOnlineUser. rewrite Hs, Hb. simpl.
  destruct (upsertOnline_record lib c req (onlineUsers db))
    as (d & -> & _ & _ & _ & _ & _ & Hpage & Hact & Hlogin).
  exists d. rewrite lookup_insert_eq. repeat split; try done.
  rewrite Hlogin. by destruct (onlineUsers db !! sessionIdOf c req).
Qed.

(** A run of X19: the second request of a session. *)
Lemma loginTime_set_once_witness :
  exists d,
    onlineUsers
      (trackOnlineUser Sample.lib (mkTick 2000 "0.5")
         (Sample.browse "/haberler" (Some "sess-1") Sample.firefox)
         (trackOnlineUser Sample.lib (mkTick 1000 "0.25")
            (Sample.browse "/" (Some "sess-1") Sample.firefox) emptyDb))
      !! "sess-1" = Some d /\
    ou_lastActivity d = 2000 /\ ou_currentPage d = "/haberler" /\ ou_loginTime d = 1000.
Proof.
  exact (loginTime_set_once Sample.lib (mkTick 2000 "0.5")
           (Sample.browse "/haberler" (Some "sess-1") Sample.firefox)
           (trackOnlineUser Sample.lib (mkTick 1000 "0.25")
              (Sample.browse "/" (Some "sess-1") Sample.firefox) emptyDb)
           (conj eq_refl eq_refl)).
Defined.

(** X20. Handling one request changes at most the presence record of its
    own session and the visit record of its own address and session; every
    other record stays as it was, and no record is ever removed. *)
Theorem analytics_touches_one_record_each (lib : Lib) (c1 c2 : Tick)
    (req : Request) (db : Db) :
  let db' := analytics lib c1 c2 req db in
  (forall k, k <> sessionIdOf c1 req -> onlineUsers db' !! k = onlineUsers db !! k) /\
  (forall k, k <> (getClientIP req, sessionIdOf c2 req) ->
     visitors db' !! k = visitors db !! k) /\
  (forall k, is_Some (onlineUsers db !! k) -> is_Some (onlineUsers db' !! k)) /\
  (forall k, is_Some (visitors db !! k) -> is_Some (visitors db' !! k)).
Proof.
  intros db'.
  assert (onlineUsers db' = onlineUsers db \/
          exists d, onlineUsers db' = <[sessionIdOf c1 req := d]> (onlineUsers db)) as Ho.
  { unfold db', analytics. rewrite trackVisitor_onlineUsers. unfold trackOnlineUser.
    destruct (skipOnline (path req)), (isBot (userAgentString req));
      simpl; try (by left);
      destruct (upsertOnline_record lib c1 req (onlineUsers db)) as (d & -> & _);
      right; by exists d. }
  assert (visitors db' = visitors db \/
          exists v, visitors db' = <[(getClientIP req, sessionIdOf c2 req) := v]> (visitors db))
    as Hv.
  { assert (visitors (trackOnlineUser lib c1 req db) = visitors db) as Hon
      by (unfold trackOnlineUser; by repeat case_match).
    unfold db', analytics.
    destruct (skipVisitor (path req)) eqn:Hs;
      [left; by rewrite trackVisitor_untracked by auto|].
    destruct (isBot (userAgentString req)) eqn:Hb;
      [left; by rewrite trackVisitor_untracked by auto|].
    right. rewrite (proj1 (trackVisitor_tracked lib c2 req _ (conj Hs Hb))), Hon.
    by eexists. }
  repeat split.
  - intros k Hk. destruct Ho as [-> | [d ->]]; [done | by rewrite lookup_insert_ne].
  - intros k Hk. destruct Hv as [-> | [v ->]]; [done | by rewrite lookup_insert_ne].
  - intros k Hk. destruct Ho as [-> | [d ->]]; [done|].
    destruct (decide (sessionIdOf c1 req = k)) as [->|Hne].
    + by rewrite lookup_insert_eq.
    + by rewrite lookup_insert_ne.
  - intros k Hk. destruct Hv as [-> | [v ->]]; [done|].
    destruct (decide ((getClientIP req, sessionIdOf c2 req) = k)) as [<-|Hne].
    + by rewrite lookup_insert_eq.
    + by rewrite lookup_insert_ne.
Qed.

(** X21. Whatever the presence tracker skips the visit log skips too, so
    a request that enters the visit log also enters the presence
    collection; requests under [/api] never touch the visit log or the
    site counters; a tracked page request with a session leaves both
    records. *)
Theorem visits_imply_presence :
  (forall p, skipOnline p = true -> skipVisitor p = true) /\
  (forall req, trackedVisit req -> trackedOnline req) /\
  (forall lib c1 c2 req db, startsWith "/api" (path req) = true ->
     visitors (analytics lib c1 c2 req db) = visitors db /\
     siteStats (analytics lib c1 c2 req db) = siteStats db) /\
  (forall lib c1 c2 req db sid, trackedVisit req ->
     sessionID req = Some sid -> sid <> "" ->
     is_Some (onlineUsers (analytics lib c1 c2 req db) !! sid) /\
     is_Some (visitors (analytics lib c1 c2 req db) !! (getClientIP req, sid))).
Proof.
  assert (forall p, skipOnline p = true -> skipVisitor p = true) as Hskip.
  { intros p. unfold skipOnline, skipVisitor.
    destruct (startsWith "/uploads" p); [by rewrite orb_true_r|].
    destruct (startsWith "/favicon" p); [by rewrite !orb_true_r|].
    destruct (String.eqb_spec p "/robots.txt") as [->|_]; [done|].
    destruct (String.eqb_spec p "/sitemap.xml") as [->|_]; [done|].
    destruct (String.eqb_spec p "/api/health") as [->|_]; [done|].
    by rewrite !orb_false_r. }
  assert (forall req, trackedVisit req -> trackedOnline req) as Htr.
  { intros req [Hs Hb]. split; [|done].
    destruct (skipOnline (path req)) eqn:Ho; [|done].
    by rewrite (Hskip _ Ho) in Hs. }
  split; [done|]. split; [done|]. split.
  - intros lib c1 c2 req db Hapi. unfold analytics.
    assert (skipVisitor (path req) = true) as Hs by (unfold skipVisitor; by rewrite Hapi).
    rewrite trackVisitor_untracked by auto.
    unfold trackOnlineUser. by repeat case_match.
  - intros lib c1 c2 req db sid Hv Hsid Hne.
    destruct (Htr req Hv) as [Hso Hb].
    unfold analytics.
    rewrite trackVisitor_onlineUsers,
      (proj1 (trackVisitor_tracked lib c2 req _ Hv)).
    unfold trackOnlineUser. rewrite Hso, Hb. simpl.
    destruct (upsertOnline_record lib c1 req (onlineUsers db)) as (d & -> & _).
    rewrite (sessionIdOf_present c1 req sid Hsid Hne),
      (sessionIdOf_present c2 req sid Hsid Hne), !lookup_insert_eq. done.
Qed.

(** X22. [cleanupOldRecords] keeps exactly the visit records whose
    [lastVisit] is not before the cutoff, and touches neither the presence
    collection nor the site counters; two sweeps amount to one with the
    later cutoff; a record that a query over a range starting at or after
    the cutoff selects is still there after the sweep. *)
Theorem cleanup_keeps_recent_records (cutoff : Z) (db : Db) :
  (forall k v, visitors (cleanupOldRecords cutoff db) !! k = Some v <->
     visitors db !! k = Some v /\ cutoff ≤ v_lastVisit v) /\
  onlineUsers (cleanupOldRecords cutoff db) = onlineUsers db /\
  siteStats (cleanupOldRecords cutoff db) = siteStats db /\
  (forall cutoff', cleanupOldRecords cutoff' (cleanupOldRecords cutoff db)
     = cleanupOldRecords (cutoff `max` cutoff') db) /\
  (forall s e, cutoff ≤ s ->
     forall v, v ∈ docs db -> s ≤ v_lastVisit v ≤ e ->
       v ∈ docs (cleanupOldRecords cutoff db)).
Proof.
  split; [|split; [done|split; [done|split]]].
  - intros k v. unfold cleanupOldRecords. simpl.
    rewrite map_lookup_filter_Some. simpl. split; intros [? ?]; split; try done; lia.
  - intros cutoff'. unfold cleanupOldRecords. simpl. f_equal.
    rewrite map_filter_filter. apply map_filter_ext. intros k v _. simpl. lia.
  - intros s e Hs v Hv Hr. unfold docs in *.
    apply list_elem_of_fmap in Hv as ([k v'] & -> & Hv).
    apply elem_of_map_to_list in Hv.
    apply list_elem_of_fmap. exists (k, v'). split; [done|].
    apply elem_of_map_to_list. unfold cleanupOldRecords. simpl.
    apply map_lookup_filter_Some. simpl in *. split; [done | lia].
Qed.

(** ** The methods and virtuals of the visit record *)

Lemma durations_snoc (l : list PageVisit) (p : PageVisit) :
  foldr (fun p sum => durationOrZero p + sum) 0 (l ++ [p])%list
  = foldr (fun p sum => durationOrZero p + sum) 0 l + durationOrZero p.
Proof. induction l as [|q l IH]; simpl; [lia|]. rewrite IH. lia. Qed.

Lemma durations_foldl (l : list PageVisit) (acc : Z) :
  foldl (fun sum page => sum + durationOrZero page) acc l
  = acc + foldr (fun p sum => durationOrZero p + sum) 0 l.
Proof. revert acc. induction l as [|q l IH]; intros acc; simpl; [lia|]. rewrite IH. lia. Qed.

(** X23. [addPageVisit] appends the entry at the end, adds one to
    [visitCount] for the one entry it adds, keeps [totalDuration] equal to
    the sum of the entries' durations where it was so before (a duration
    that is missing or 0 adds nothing), and leaves [ip], [sessionId],
    [firstVisit] and [referrer] alone. What [trackVisitor] does to the
    document in place is [addPageVisit] without a duration. *)
Theorem addPageVisit_keeps_the_books (visitTime lastVisit : Z) (url title : string)
    (duration : option Z) (v : Visitor) :
  let v' := addPageVisit visitTime lastVisit url title duration v in
  v_visitCount v' - Z.of_nat (length (v_pages v'))
    = v_visitCount v - Z.of_nat (length (v_pages v)) /\
  (durationsAddUp v -> durationsAddUp v') /\
  last (v_pages v') = Some (mkPageVisit url title visitTime duration) /\
  (v_ip v', v_sessionId v', v_firstVisit v', v_referrer v')
    = (v_ip v, v_sessionId v, v_firstVisit v, v_referrer v) /\
  (forall c req,
     recordPage c req v
     = addPageVisit (now c) (now c) (path req)
         (interpolate (or_else (h_x_page_title req) (Some (path req)))) None v).
Proof.
  intros v'. unfold v', addPageVisit. cbn [v_visitCount v_pages v_ip v_sessionId
    v_firstVisit v_referrer].
  split; [rewrite length_app, Nat2Z.inj_add; cbn [length]; lia|].
  split; [|split; [apply last_snoc|by split]].
  unfold durationsAddUp. cbn [v_totalDuration v_pages]. intros ->.
  rewrite durations_snoc.
  change (durationOrZero (mkPageVisit url title visitTime duration))
    with (default 0 duration).
  destruct duration as [d|]; cbn [default]; [|lia].
  destruct (Z.eqb_spec d 0); unfold id; lia.
Qed.

Lemma durations_bounds (l : list PageVisit) (lo hi : Z) :
  (forall p, p ∈ l -> lo ≤ durationOrZero p ≤ hi) ->
  Z.of_nat (length l) * lo ≤ foldr (fun p sum => durationOrZero p + sum) 0 l
    ≤ Z.of_nat (length l) * hi.
Proof.
  induction l as [|p l IH]; intros Hb; [simpl; lia|].
  assert (lo ≤ durationOrZero p ≤ hi) as Hp by (apply Hb; by left).
  assert (forall q, q ∈ l -> lo ≤ durationOrZero q ≤ hi) as Hl
    by (intros q Hq; apply Hb; by right).
  specialize (IH Hl). rewrite length_cons. cbn [foldr]. lia.
Qed.

Lemma tracker_records_no_duration (lib : Lib) (reqs : list (Tick * Tick * Request))
    (k : string * string) (v : Visitor) :
  visitors (run lib reqs emptyDb) !! k = Some v ->
  forall p, p ∈ v_pages v -> pg_duration p = None.
Proof.
  revert k v.
  apply (run_invariant lib
           (fun db => forall k v, visitors db !! k = Some v ->
              forall p, p ∈ v_pages v -> pg_duration p = None)).
  - intros c req db Hdb k v. unfold trackOnlineUser.
    destruct (skipOnline (path req)); [apply Hdb|].
    destruct (isBot (userAgentString req)); apply Hdb.
  - intros c req db Hdb k v.
    destruct (skipVisitor (path req)) eqn:Hs;
      [rewrite trackVisitor_untracked by auto; apply Hdb|].
    destruct (isBot (userAgentString req)) eqn:Hb;
      [rewrite trackVisitor_untracked by auto; apply Hdb|].
    destruct (trackVisitor_record lib c req db (conj Hs Hb))
      as (w & -> & _ & _ & _ & Hp & _).
    intros [[<- <-] | [_ Hother]]%lookup_insert_Some; [|by apply (Hdb k)].
    rewrite Hp. intros p [Hin | Hin]%elem_of_app.
    + destruct (visitors db !! (getClientIP req, sessionIdOf c req)) as [old|] eqn:Hold;
        cbn [fmap option_fmap option_map default] in Hin.
      * by apply (Hdb _ _ Hold).
      * by apply elem_of_nil in Hin.
    + unfold savedEntries in Hin.
      destruct (truthy (Some (userAgentString req)));
        [by apply list_elem_of_singleton in Hin as ->| by apply elem_of_nil in Hin].
  - intros k v Hk. cbn in Hk. by rewrite lookup_empty in Hk.
Qed.

(** X24. The virtual [avgPageDuration] is 0 without page entries;
    otherwise it lies between the smallest and the largest duration of the
    entries, and, where [totalDuration] is the sum of the entries'
    durations, it is [totalDuration / pages.length] rounded to the nearest
    integer. For every record written by the tracker, which never records
    a duration, it is 0. *)
Theorem avgPageDuration_is_a_rounded_mean (v : Visitor) :
  let n := Z.of_nat (length (v_pages v)) in
  (v_pages v = [] -> avgPageDuration v = 0) /\
  (v_pages v <> [] -> durationsAddUp v ->
     2 * n * avgPageDuration v ≤ 2 * v_totalDuration v + n
       < 2 * n * (avgPageDuration v + 1)) /\
  (forall lo hi, v_pages v <> [] ->
     (forall p, p ∈ v_pages v -> lo ≤ durationOrZero p ≤ hi) ->
     lo ≤ avgPageDuration v ≤ hi) /\
  (forall lib reqs k, visitors (run lib reqs emptyDb) !! k = Some v ->
     avgPageDuration v = 0).
Proof.
  intros n.
  assert (v_pages v <> [] -> 0 < n) as Hn.
  { intros Hne. unfold n. destruct (v_pages v); [done|]. rewrite length_cons. lia. }
  assert (v_pages v <> [] ->
          avgPageDuration v
          = (2 * foldr (fun p sum => durationOrZero p + sum) 0 (v_pages v) + n) `div` (2 * n))
    as Havg.
  { intros Hne. unfold avgPageDuration.
    destruct (decide (length (v_pages v) = 0%nat)) as [E|_].
    - apply length_zero_iff_nil in E. done.
    - cbv zeta. rewrite durations_foldl. fold n. f_equal; lia. }
  assert (forall lo hi, v_pages v <> [] ->
            (forall p, p ∈ v_pages v -> lo ≤ durationOrZero p ≤ hi) ->
            lo ≤ avgPageDuration v ≤ hi) as Hrange.
  { intros lo hi Hne Hb. rewrite (Havg Hne). specialize (Hn Hne).
    pose proof (durations_bounds _ lo hi Hb) as Hs. fold n in Hs. split.
    - apply Z.div_le_lower_bound; nia.
    - assert ((2 * foldr (fun p sum => durationOrZero p + sum) 0 (v_pages v) + n)
                `div` (2 * n) < hi + 1); [|lia].
      apply Z.div_lt_upper_bound; nia. }
  split; [|split; [|split; [done|]]].
  - intros E. unfold avgPageDuration. rewrite E. done.
  - intros Hne Hsum. rewrite (Havg Hne). specialize (Hn Hne).
    unfold durationsAddUp in Hsum. rewrite <- Hsum.
    pose proof (Z.div_mod (2 * v_totalDuration v + n) (2 * n)) as Hdm.
    pose proof (Z.mod_pos_bound (2 * v_totalDuration v + n) (2 * n)) as Hmb.
    nia.
  - intros lib reqs k Hk. pose proof (tracker_records_no_duration lib reqs k v Hk) as Hnone.
    destruct (decide (v_pages v = [])) as [Hpages|Hpages];
      [unfold avgPageDuration; by rewrite Hpages|].
    assert (0 ≤ avgPageDuration v ≤ 0); [|lia].
    apply Hrange; [done|]. intros p Hp. unfold durationOrZero. by rewrite (Hnone p Hp).
Qed.

(** ** Aggregations, continued *)

Lemma sumZ_cons (x : Z) (l : list Z) : sumZ (x :: l) = x + sumZ l.
Proof. reflexivity. Qed.

Lemma sumZ_app (l k : list Z) : sumZ (l ++ k) = sumZ l + sumZ k.
Proof. induction l as [|x l IH]; simpl; lia. Qed.

Lemma sumZ_perm (l k : list Z) : l ≡ₚ k -> sumZ l = sumZ k.
Proof. induction 1; simpl; lia. Qed.

Section GroupSums.
Context {A K Acc : Type} `{EqDecision K}.
Variables (key : A -> K) (init : Acc) (step : A -> Acc -> Acc).
Variables (measure : Acc -> Z) (weight : A -> Z).
Hypothesis measure_init : measure init = 0.
Hypothesis measure_step : forall a acc, measure (step a acc) = measure acc + weight a.

Lemma sum_group_add (a : A) (gs : list (K * Acc)) :
  sumZ ((fun g => measure g.2) <$> Mongo.group_add key init step a gs)
    = sumZ ((fun g => measure g.2) <$> gs) + weight a.
Proof.
  induction gs as [|[k acc] gs IH]; cbn [Mongo.group_add].
  - simpl. rewrite measure_step, measure_init. lia.
  - destruct (decide (key a = k)); rewrite !fmap_cons; cbn [sumZ foldr snd].
    + rewrite measure_step. lia.
    + fold (sumZ ((fun g => measure g.2) <$> Mongo.group_add key init step a gs)).
      rewrite IH. unfold sumZ. lia.
Qed.

Lemma sum_group (docs : list A) :
  sumZ ((fun g => measure g.2) <$> Mongo.group key init step docs)
    = sumZ (weight <$> docs).
Proof.
  induction docs as [|a docs IH] using rev_ind; [done|].
  rewrite group_snoc, sum_group_add, IH, fmap_app, sumZ_app. simpl. lia.
Qed.

Lemma accOf_measure (k : K) (docs : list A) :
  measure (accOf key init step k docs)
    = sumZ (weight <$> filter (fun a => key a = k) docs).
Proof.
  unfold accOf. generalize (filter (fun a => key a = k) docs). intros l.
  induction l as [|a l IH] using rev_ind; [done|].
  rewrite foldl_app, fmap_app, sumZ_app. cbn [foldl fmap list_fmap sumZ foldr].
  rewrite measure_step, IH. lia.
Qed.
End GroupSums.

Lemma sumZ_ones {A} (l : list A) : sumZ ((fun _ => 1) <$> l) = Z.of_nat (length l).
Proof.
  induction l as [|a l IH]; [done|].
  rewrite fmap_cons, sumZ_cons, IH, length_cons. lia.
Qed.

Lemma sumZ_pages (l : list Visitor) :
  sumZ ((fun v => Z.of_nat (length (v_pages v))) <$> l) = sumPages l.
Proof.
  induction l as [|a l IH]; [done|].
  rewrite fmap_cons, sumZ_cons, IH. done.
Qed.

(** The set of addresses gathered by [$addToSet: '$ip'] holds at least one
    and at most as many addresses as there are documents. *)
Lemma size_addToSet {A} (ip : A -> string) (l : list A) (ips : gset string) :
  let r := foldl (fun (s : gset string) a => {[ip a]} ∪ s) ips l in
  (size r ≤ size ips + length l)%nat /\ (l <> [] -> 1 ≤ size r)%nat /\ ips ⊆ r.
Proof.
  revert ips. induction l as [|a l IH]; intros ips; simpl.
  - split; [lia|]. split; [done | done].
  - destruct (IH ({[ip a]} ∪ ips)) as (H1 & H2 & H3). clear IH.
    assert (size ({[ip a]} ∪ ips) = 1 + size (ips ∖ {[ip a]}))%nat as Hsz.
    { by rewrite size_union_alt, size_singleton. }
    split; [|split].
    + etrans; [exact H1|].
      assert (size (ips ∖ {[ip a]}) ≤ size ips)%nat; [|lia].
      apply subseteq_size, subseteq_difference_l. done.
    + intros _. apply (Nat.le_trans _ (size ({[ip a]} ∪ ips))); [lia|].
      by apply subseteq_size.
    + etrans; [|exact H3]. apply union_subseteq_r.
Qed.

Lemma todayStep_fold (l : list Visitor) (acc : Z * gset string * Z * Z) :
  foldl (fun acc v =>
           let '(n, ips, views, dur) := acc in
           (n + 1, {[v_ip v]} ∪ ips, views + Z.of_nat (length (v_pages v)),
            dur + v_totalDuration v)) acc l
  = (acc.1.1.1 + Z.of_nat (length l),
     foldl (fun (s : gset string) v => {[v_ip v]} ∪ s) acc.1.1.2 l,
     acc.1.2 + sumPages l,
     acc.2 + sumZ (v_totalDuration <$> l)).
Proof.
  revert acc. induction l as [|v l IH]; intros [[[n ips] views] dur].
  - simpl. f_equal; [f_equal; [f_equal|]|]; lia.
  - cbn [foldl]. rewrite IH. cbn [fst snd]. rewrite fmap_cons, sumZ_cons, length_cons.
    cbn [sumPages foldr foldl]. fold (sumPages l).
    f_equal; [f_equal; [f_equal|]|]; lia.
Qed.

(** X25. [Visitor.getTodayStats] returns no row when no record was last
    seen today, and otherwise exactly one row: [totalVisitors] is the
    number of records last seen today, [totalPageViews] the number of all
    their page entries, [uniqueVisitors] at least 1 and at most
    [totalVisitors], [avgDuration] the rounded mean of their
    [totalDuration]. *)
Theorem getTodayStats_one_row (today tomorrow : Z) (coll : list Visitor) :
  let matched := filter (fun v => today ≤ v_lastVisit v < tomorrow) coll in
  (matched = [] -> getTodayStats today tomorrow coll = []) /\
  (matched <> [] ->
     exists row, getTodayStats today tomorrow coll = [row] /\
       ts_totalVisitors row = Z.of_nat (length matched) /\
       ts_totalPageViews row = sumPages matched /\
       1 ≤ ts_uniqueVisitors row ≤ ts_totalVisitors row /\
       ts_avgDuration row
         = Mongo.round_avg (sumZ (v_totalDuration <$> matched)) (Z.of_nat (length matched))).
Proof.
  intros matched. unfold getTodayStats. fold matched.
  rewrite group_const. split; [by intros ->|].
  intros Hne. rewrite todayStep_fold. cbn [fst snd].
  destruct (size_addToSet v_ip matched ∅) as (Hle & Hge & _).
  rewrite size_empty in Hle. specialize (Hge Hne).
  destruct matched as [|v l] eqn:E; [done|]. rewrite <- E in *.
  eexists. split; [reflexivity|]. cbn [ts_totalVisitors ts_totalPageViews
    ts_uniqueVisitors ts_avgDuration].
  repeat split; try lia. 
Qed.

Lemma pageStep_fold_all (l : list (Visitor * PageVisit))
    (acc : option string * Z * gset string) :
  foldl (fun acc vp => pageStep vp acc) acc l
  = (match acc.1.1 with
     | Some t => Some t
     | None => (fun vp : Visitor * PageVisit => pg_title vp.2) <$> head l
     end,
     acc.1.2 + Z.of_nat (length l),
     foldl (fun (s : gset string) (vp : Visitor * PageVisit) => {[v_ip vp.1]} ∪ s) acc.2 l).
Proof.
  revert acc. induction l as [|vp l IH]; intros [[title views] ips].
  - simpl. rewrite Z.add_0_r. by destruct title.
  - cbn [foldl]. rewrite IH. cbn [pageStep fst snd head fmap option_fmap option_map].
    rewrite length_cons.
    replace (views + 1 + Z.of_nat (length l)) with (views + Z.of_nat (S (length l))) by lia.
    by destruct title.
Qed.

#[local] Instance byViewsDesc_trans : Transitive byViewsDesc.
Proof. intros a b c. unfold byViewsDesc. lia. Qed.

#[local] Instance byViewsDesc_total : Total byViewsDesc.
Proof. intros a b. unfold byViewsDesc. lia. Qed.

Lemma limit_spec {A} (n : Z) (l : list A) :
  (0 < n -> Mongo.limit n l = Ok (take (Z.to_nat n) l)) /\
  (n ≤ 0 -> exists e, Mongo.limit n l = Throw e).
Proof.
  unfold Mongo.limit. destruct (Z.leb_spec n 0); split; try lia; try done.
  intros _. by eexists.
Qed.

(** X27. The rows of the popular-pages query have pairwise distinct URLs,
    one for every URL with a counted entry, and come in descending order
    of [views]; a row's title is the title of the first counted entry of
    its URL, its [uniqueVisitors] is at least 1 and at most its [views];
    the [views] of all rows add up to the number of counted entries. The
    answer is the first [limit] rows, [limit] defaulting to 20 when the
    parameter is missing, not a number or 0; a negative [limit] makes the
    aggregation fail. *)
Theorem popular_pages_ranking (s : Z) (coll : list Visitor) :
  let rows := popularRows s coll in
  let entries url :=
    filter (fun vp : Visitor * PageVisit => pg_url vp.2 = url) (countedEntries s coll) in
  NoDup (pr_url <$> rows) /\
  StronglySorted byViewsDesc rows /\
  (forall url, url ∈ pr_url <$> rows <-> entries url <> []) /\
  (forall row, row ∈ rows ->
     pr_title row = (fun vp : Visitor * PageVisit => pg_title vp.2) <$> head (entries (pr_url row)) /\
     1 ≤ pr_uniqueVisitors row ≤ pr_views row) /\
  sumZ (pr_views <$> rows) = Z.of_nat (length (countedEntries s coll)) /\
  (forall q, (forall n, q = Some n -> 0 ≤ n) ->
     getPopularPages s (param q 20) coll = Ok (take (Z.to_nat (param q 20)) rows)) /\
  (forall n, n < 0 -> exists e, getPopularPages s (param (Some n) 20) coll = Throw e).
Proof.
  intros rows entries.
  set (key := fun vp : Visitor * PageVisit => pg_url vp.2).
  set (init := (@None string, 0, (∅ : gset string))).
  assert (rows ≡ₚ pageProject <$> Mongo.group key init pageStep (countedEntries s coll))
    as Hperm by apply merge_sort_Permutation.
  assert (pr_url <$> rows ≡ₚ (Mongo.group key init pageStep (countedEntries s coll)).*1)
    as Hkeys.
  { rewrite Hperm, <- list_fmap_compose.
    assert (forall l : list (string * (option string * Z * gset string)),
              (pr_url ∘ pageProject) <$> l = l.*1) as ->; [|done].
    intros l. apply list_fmap_ext. by intros i [url [[t v] ips]]. }
  destruct (keys_group key init pageStep (countedEntries s coll)) as [Hnd Hk].
  assert (forall url, url ∈ key <$> countedEntries s coll <-> entries url <> []) as Hent.
  { intros url. unfold entries. rewrite list_elem_of_fmap. split.
    - intros (vp & -> & Hvp) E.
      assert (vp ∈ filter (fun vp' : Visitor * PageVisit => pg_url vp'.2 = key vp)
                     (countedEntries s coll)) as Hin by (by apply list_elem_of_filter).
      rewrite E in Hin. by apply elem_of_nil in Hin.
    - intros Hne. destruct (filter _ _) as [|vp l] eqn:E; [done|].
      assert (vp ∈ vp :: l) as Hin by (by left). rewrite <- E in Hin.
      apply list_elem_of_filter in Hin as [Hu Hin]. by exists vp. }
  split; [by rewrite Hkeys|]. split; [apply StronglySorted_merge_sort; apply _|].
  split; [intros url; by rewrite Hkeys, Hk|].
  split; [|split; [|split]].
  - intros row Hrow. rewrite Hperm in Hrow.
    apply list_elem_of_fmap in Hrow as ([url acc] & -> & Hg).
    apply elem_of_group in Hg as [Hin ->]. unfold accOf.
    rewrite pageStep_fold_all. cbn [init fst snd pageProject pr_title pr_url
      pr_uniqueVisitors pr_views].
    fold (entries url). apply Hent in Hin.
    destruct (size_addToSet (fun vp : Visitor * PageVisit => v_ip vp.1) (entries url) ∅)
      as (Hle & Hge & _).
    rewrite size_empty in Hle. specialize (Hge Hin).
    unfold entries, key in *. split; [done | lia].
  - rewrite (sumZ_perm _ _ (fmap_Permutation pr_views _ _ Hperm)), <- list_fmap_compose.
    etrans; [|apply (sumZ_ones (countedEntries s coll))].
    etrans; [|apply (sum_group key init pageStep (fun acc => acc.1.2) (fun _ => 1))].
    + f_equal. apply list_fmap_ext. by intros i [url [[t v] ips]].
    + done.
    + by intros vp [[t v] ips].
  - intros q Hq. unfold getPopularPages. apply limit_spec.
    unfold param. destruct q as [n|]; [|done].
    specialize (Hq n eq_refl). destruct (Z.eqb_spec n 0); lia.
  - intros n Hn. unfold getPopularPages. apply limit_spec.
    unfold param. destruct (Z.eqb_spec n 0); lia.
Qed.

#[local] Instance byDate_trans : Transitive byDate.
Proof. intros a b c. unfold byDate. lia. Qed.

#[local] Instance byDate_total : Total byDate.
Proof. intros a b. unfold byDate. lia. Qed.

#[local] Instance byVisitorsDesc_trans : Transitive byVisitorsDesc.
Proof. intros a b c. unfold byVisitorsDesc. lia. Qed.

#[local] Instance byVisitorsDesc_total : Total byVisitorsDesc.
Proof. intros a b. unfold byVisitorsDesc. lia. Qed.

Lemma dayStep_fold_all (l : list Visitor) (acc : Z * gset string * Z * Z) :
  foldl (fun acc v => dayStep v acc) acc l
  = (acc.1.1.1 + Z.of_nat (length l),
     foldl (fun (s : gset string) v => {[v_ip v]} ∪ s) acc.1.1.2 l,
     acc.1.2 + sumPages l,
     acc.2 + Z.of_nat (length (filter (fun v => v_visitCount v = 1) l))).
Proof.
  revert acc. induction l as [|v l IH]; intros [[[n ips] views] fresh].
  - simpl. by rewrite !Z.add_0_r.
  - cbn [foldl]. rewrite IH. cbn [dayStep fst snd]. rewrite filter_cons, length_cons.
    cbn [sumPages foldr foldl]. fold (sumPages l).
    f_equal; [f_equal; [f_equal|]|]; try lia.
    destruct (Z.eqb_spec (v_visitCount v) 1) as [E|E].
    + rewrite decide_True by done. rewrite length_cons. lia.
    + rewrite decide_False by done. lia.
Qed.

(** X26. The weekly and monthly rows come in ascending order of date.
    Over the monthly rows, [visitors] adds up to the number of selected
    records, [pageViews] to the number of their page entries and
    [newVisitors] to the number of selected records with [visitCount] 1;
    in every row [uniqueVisitors] is at least 1, and neither it nor
    [newVisitors] exceeds [visitors]. The weekly rows carry the same
    dates, [visitors] and [pageViews]. *)
Theorem daily_rows_add_up (s e : Z) (coll : list Visitor) :
  let selected := filter (fun v => s ≤ v_lastVisit v ≤ e) coll in
  let monthly := getMonthlyStats s e coll in
  let weekly := getWeeklyStats s e coll in
  StronglySorted byDate monthly /\ StronglySorted byDate weekly /\
  sumZ (visitors_ <$> monthly) = Z.of_nat (length selected) /\
  sumZ (pageViews <$> monthly) = sumPages selected /\
  sumZ (newVisitors <$> monthly)
    = Z.of_nat (length (filter (fun v => v_visitCount v = 1) selected)) /\
  (forall row, row ∈ monthly ->
     1 ≤ uniqueVisitors row ≤ visitors_ row /\ 0 ≤ newVisitors row ≤ visitors_ row) /\
  visitors_ <$> weekly = visitors_ <$> monthly /\
  pageViews <$> weekly = pageViews <$> monthly /\
  date <$> weekly = date <$> monthly.
Proof.
  intros selected monthly weekly.
  set (key := fun v => Mongo.ymd (v_lastVisit v)).
  set (init := (0, (∅ : gset string), 0, 0)).
  assert (monthly ≡ₚ dayProject <$> Mongo.group key init dayStep selected) as Hperm
    by apply merge_sort_Permutation.
  assert (StronglySorted byDate monthly) as Hsorted
    by (apply StronglySorted_merge_sort; apply _).
  split; [done|]. split; [by apply (StronglySorted_fmap _ byDate byDate)|].
  split; [|split; [|split; [|split; [|split; [|split]]]]].
  - rewrite (sumZ_perm _ _ (fmap_Permutation visitors_ _ _ Hperm)), <- list_fmap_compose.
    etrans; [|apply (sumZ_ones selected)].
    etrans; [|apply (sum_group key init dayStep (fun acc => acc.1.1.1) (fun _ => 1))].
    + f_equal. apply list_fmap_ext. by intros i [k [[[n ips] views] fresh]].
    + done.
    + by intros v [[[n ips] views] fresh].
  - rewrite (sumZ_perm _ _ (fmap_Permutation pageViews _ _ Hperm)), <- list_fmap_compose.
    etrans; [|apply (sumZ_pages selected)].
    etrans; [|apply (sum_group key init dayStep (fun acc => acc.1.2)
                       (fun v => Z.of_nat (length (v_pages v))))].
    + f_equal. apply list_fmap_ext. by intros i [k [[[n ips] views] fresh]].
    + done.
    + by intros v [[[n ips] views] fresh].
  - rewrite (sumZ_perm _ _ (fmap_Permutation newVisitors _ _ Hperm)), <- list_fmap_compose.
    assert (forall l : list (Z * Z * Z * (Z * gset string * Z * Z)),
              (newVisitors ∘ dayProject) <$> l = (fun g => g.2.2) <$> l) as ->.
    { intros l. apply list_fmap_ext. by intros i [k [[[n ips] views] fresh]]. }
    etrans; [apply (sum_group key init dayStep (fun acc => acc.2)
                      (fun v => if v_visitCount v =? 1 then 1 else 0))|].
    + done.
    + by intros v [[[n ips] views] fresh].
    + clear. induction selected as [|v l IH]; [done|].
      rewrite fmap_cons, sumZ_cons, IH, filter_cons.
      destruct (Z.eqb_spec (v_visitCount v) 1) as [E|E].
      * rewrite decide_True by done. rewrite length_cons. lia.
      * rewrite decide_False by done. lia.
  - intros row Hrow. rewrite Hperm in Hrow.
    apply list_elem_of_fmap in Hrow as ([k acc] & -> & Hg).
    apply elem_of_group in Hg as [Hin ->]. unfold accOf.
    rewrite dayStep_fold_all. cbn [init fst snd dayProject uniqueVisitors visitors_ newVisitors].
    set (l := filter (fun a => key a = k) selected).
    assert (l <> []) as Hne.
    { apply list_elem_of_fmap in Hin as (v & -> & Hv).
      assert (v ∈ l) as Hl by (by apply list_elem_of_filter).
      intros E. rewrite E in Hl. by apply elem_of_nil in Hl. }
    destruct (size_addToSet v_ip l ∅) as (Hle & Hge & _).
    rewrite size_empty in Hle. specialize (Hge Hne).
    pose proof (length_filter (fun v => v_visitCount v = 1) l) as Hf.
    lia.
  - unfold weekly, getWeeklyStats. rewrite <- list_fmap_compose. done.
  - unfold weekly, getWeeklyStats. rewrite <- list_fmap_compose. done.
  - unfold weekly, getWeeklyStats. rewrite <- list_fmap_compose. done.
Qed.

Lemma addToSet_fold_referrers (l : list Visitor) (acc : Z * gset string) :
  foldl (fun acc v => let '(n, ips) := acc in (n + 1, {[v_ip v]} ∪ ips)) acc l
  = (acc.1 + Z.of_nat (length l),
     foldl (fun (s : gset string) v => {[v_ip v]} ∪ s) acc.2 l).
Proof.
  revert acc. induction l as [|v l IH]; intros [n ips].
  - simpl. by rewrite Z.add_0_r.
  - cbn [foldl]. rewrite IH. cbn [fst snd]. rewrite length_cons. f_equal. lia.
Qed.

(** X28. The rows of the referrer query have pairwise distinct referrers,
    one for every referrer other than [direct] of a record last seen since
    the start date, and come in descending order of [visitors]; no row is
    [direct]; a row's [visitors] is the number of those records with that
    referrer, its [uniqueVisitors] at least 1 and at most its [visitors];
    the [visitors] of all rows add up to the number of those records. The
    answer is the first [limit] rows, [limit] defaulting to 10; a negative
    [limit] makes the aggregation fail. *)
Theorem referrer_rows_ranking (s : Z) (coll : list Visitor) :
  let rows := referrerRows s coll in
  let selected := filter (fun v => s ≤ v_lastVisit v ∧ v_referrer v ≠ "direct") coll in
  let from r := filter (fun v => v_referrer v = r) selected in
  NoDup (rr_referrer <$> rows) /\
  StronglySorted byVisitorsDesc rows /\
  (forall r, r ∈ rr_referrer <$> rows <-> from r <> []) /\
  (forall row, row ∈ rows ->
     rr_referrer row <> "direct" /\
     rr_visitors row = Z.of_nat (length (from (rr_referrer row))) /\
     1 ≤ rr_uniqueVisitors row ≤ rr_visitors row) /\
  sumZ (rr_visitors <$> rows) = Z.of_nat (length selected) /\
  (forall q, (forall n, q = Some n -> 0 ≤ n) ->
     getReferrerStats s (param q 10) coll = Ok (take (Z.to_nat (param q 10)) rows)) /\
  (forall n, n < 0 -> exists e, getReferrerStats s (param (Some n) 10) coll = Throw e).
Proof.
  intros rows selected from.
  set (init := (0, (∅ : gset string))).
  set (step := fun (v : Visitor) '((n, ips) : Z * gset string) => (n + 1, {[v_ip v]} ∪ ips)).
  set (proj := fun g : string * (Z * gset string) =>
                 mkReferrerRow g.1 g.2.1 (Z.of_nat (size g.2.2))).
  assert (rows ≡ₚ proj <$> Mongo.group v_referrer init step selected) as Hperm
    by apply merge_sort_Permutation.
  assert (rr_referrer <$> rows ≡ₚ (Mongo.group v_referrer init step selected).*1) as Hkeys.
  { rewrite Hperm, <- list_fmap_compose. done. }
  destruct (keys_group v_referrer init step selected) as [Hnd Hk].
  assert (forall r, r ∈ v_referrer <$> selected <-> from r <> []) as Hent.
  { intros r. unfold from. rewrite list_elem_of_fmap. split.
    - intros (v & -> & Hv) E.
      assert (v ∈ filter (fun v' => v_referrer v' = v_referrer v) selected) as Hin
        by (by apply list_elem_of_filter).
      rewrite E in Hin. by apply elem_of_nil in Hin.
    - intros Hne. destruct (filter (fun v => v_referrer v = r) selected) as [|v l] eqn:E;
        [done|].
      assert (v ∈ v :: l) as Hin by (by left). rewrite <- E in Hin.
      apply list_elem_of_filter in Hin as [Hu Hin]. by exists v. }
  split; [by rewrite Hkeys|]. split; [apply StronglySorted_merge_sort; apply _|].
  split; [intros r; by rewrite Hkeys, Hk|].
  split; [|split; [|split]].
  - intros row Hrow. rewrite Hperm in Hrow.
    apply list_elem_of_fmap in Hrow as ([r acc] & -> & Hg).
    apply elem_of_group in Hg as [Hin ->]. unfold accOf.
    unfold step. rewrite addToSet_fold_referrers.
    cbn [proj init fst snd rr_referrer rr_visitors rr_uniqueVisitors].
    split.
    { apply list_elem_of_fmap in Hin as (v & -> & Hv).
      apply list_elem_of_filter in Hv as [[_ Hd] _]. done. }
    apply Hent in Hin.
    destruct (size_addToSet v_ip (from r) ∅) as (Hle & Hge & _).
    rewrite size_empty in Hle. specialize (Hge Hin).
    unfold from in *. split; lia.
  - rewrite (sumZ_perm _ _ (fmap_Permutation rr_visitors _ _ Hperm)), <- list_fmap_compose.
    etrans; [|apply (sumZ_ones selected)].
    apply (sum_group v_referrer init step (fun acc => acc.1) (fun _ => 1)); [done|].
    by intros v [n ips].
  - intros q Hq. unfold getReferrerStats. apply limit_spec.
    unfold param. destruct q as [n|]; [|done].
    specialize (Hq n eq_refl). destruct (Z.eqb_spec n 0); lia.
  - intros n Hn. unfold getReferrerStats. apply limit_spec.
    unfold param. destruct (Z.eqb_spec n 0); lia.
Qed.

(** ** What the dashboard reads *)

Lemma append_inj_r (a b t : string) : a ++ t = b ++ t -> a = b.
Proof.
  intros E.
  assert (forall x y : string, String.length (x ++ y) = (String.length x + String.length y)%nat)
    as Hlen.
  { intros x y. induction x as [|c x IH]; [done|]. rewrite append_cons. simpl. by rewrite IH. }
  assert (String.length a = String.length b) as Hl.
  { pose proof (f_equal String.length E) as H. rewrite !Hlen in H. lia. }
  clear Hlen. revert b E Hl. induction a as [|c a IH]; intros [|d b] E Hl; try done.
  rewrite !append_cons in E. injection E as -> E. f_equal. apply IH; [done|].
  simpl in Hl. lia.
Qed.

Lemma glookup_absent {K Acc} `{EqDecision K} (k : K) (gs : list (K * Acc)) :
  k ∉ gs.*1 -> glookup k gs = None.
Proof.
  induction gs as [|[k' acc] gs IH]; [done|]. rewrite fmap_cons, not_elem_of_cons.
  intros [Hne Hin]. simpl in *. rewrite decide_False by done. by apply IH.
Qed.

Lemma stats_lookup (gs : list (string * Z)) (b : gmap string Z) (r : string) :
  NoDup gs.*1 ->
  foldl (fun stats (role : string * Z) => <[role.1 ++ "s" := role.2]> stats) b gs
    !! (r ++ "s")
  = match glookup r gs with Some n => Some n | None => b !! (r ++ "s") end.
Proof.
  revert b. induction gs as [|[k acc] gs IH]; intros b Hnd; [done|].
  rewrite fmap_cons in Hnd. apply NoDup_cons in Hnd as [Hk Hnd].
  cbn [foldl glookup fst snd]. rewrite (IH _ Hnd).
  destruct (decide (r = k)) as [->|Hne].
  - rewrite (glookup_absent k gs Hk). apply lookup_insert_eq.
  - destruct (glookup r gs); [done|]. apply lookup_insert_ne.
    intros E. apply append_inj_r in E. done.
Qed.

Lemma stats_lookup_other (gs : list (string * Z)) (b : gmap string Z) (k : string) :
  (forall g, g ∈ gs -> g.1 ++ "s" <> k) ->
  foldl (fun stats (role : string * Z) => <[role.1 ++ "s" := role.2]> stats) b gs !! k
  = b !! k.
Proof.
  revert b. induction gs as [|g gs IH]; intros b Hk; [done|].
  cbn [foldl]. rewrite IH.
  - apply lookup_insert_ne, Hk. by left.
  - intros g' Hg'. apply Hk. by right.
Qed.

Lemma count_by_role (l : list OnlineUser) :
  (forall d, d ∈ l -> ou_userRole d ∈ roleEnum) ->
  Z.of_nat (length l)
  = sumZ ((fun r => Z.of_nat (length (filter (fun d => ou_userRole d = r) l))) <$> roleEnum).
Proof.
  induction l as [|d l IH]; intros Hr; [done|].
  rewrite length_cons, Nat2Z.inj_succ, IH by (intros d' Hd'; apply Hr; by right).
  assert (ou_userRole d ∈ roleEnum) as Hd by (apply Hr; by left).
  unfold roleEnum in *. cbn [fmap list_fmap sumZ foldr]. rewrite !filter_cons.
  repeat (apply elem_of_cons in Hd as [->|Hd];
          [repeat case_decide; try done; rewrite ?length_cons; lia|]).
  by apply elem_of_nil in Hd.
Qed.

Lemma online_roles_in_enum (now : Z) (m : gmap string OnlineUser) :
  (forall k d, m !! k = Some d -> ou_userRole d ∈ roleEnum) ->
  (forall d, d ∈ filter (fun d => now - window ≤ ou_lastActivity d) (map_to_list m).*2 ->
     ou_userRole d ∈ roleEnum) /\
  NoDup (getOnlineByRole now m).*1 /\
  (forall g, g ∈ getOnlineByRole now m -> g.1 ∈ roleEnum).
Proof.
  intros Hroles.
  set (L := filter (fun d => now - window ≤ ou_lastActivity d) (map_to_list m).*2).
  assert (forall d, d ∈ L -> ou_userRole d ∈ roleEnum) as HL.
  { intros d Hd. apply list_elem_of_filter in Hd as [_ Hd].
    apply list_elem_of_fmap in Hd as ([k d'] & -> & Hd).
    apply elem_of_map_to_list in Hd. by apply (Hroles k). }
  destruct (keys_group ou_userRole 0 (fun (_ : OnlineUser) n => n + 1) L) as [Hnd Hk].
  split; [done|]. split; [done|].
  intros [r n] Hg. simpl.
  assert (r ∈ (getOnlineByRole now m).*1) as Hr by (apply list_elem_of_fmap; by exists (r, n)).
  apply Hk in Hr. apply list_elem_of_fmap in Hr as (d & -> & Hd). by apply HL.
Qed.

Lemma online_stats_role (now1 now2 : Z) (m : gmap string OnlineUser) (r : string) :
  (forall k d, m !! k = Some d -> ou_userRole d ∈ roleEnum) ->
  r ∈ roleEnum ->
  getOnlineStats now1 now2 m !! (r ++ "s")
    = Some (Z.of_nat (length (onlineWithRole now2 r m))).
Proof.
  intros Hroles Hr. destruct (online_roles_in_enum now2 m Hroles) as (_ & Hnd & _).
  unfold getOnlineStats. rewrite (stats_lookup _ _ r Hnd).
  set (L := filter (fun d => now2 - window ≤ ou_lastActivity d) (map_to_list m).*2).
  unfold getOnlineByRole. fold L. rewrite glookup_group.
  assert (accOf ou_userRole 0 (fun (_ : OnlineUser) n => n + 1) r L
          = Z.of_nat (length (onlineWithRole now2 r m))) as Hacc.
  { etrans; [apply (accOf_measure ou_userRole 0 (fun (_ : OnlineUser) n => n + 1)
                      (fun n => n) (fun _ => 1)); done|].
    apply sumZ_ones. }
  destruct (decide (r ∈ ou_userRole <$> L)) as [Hin|Hin]; [by rewrite Hacc|].
  assert (onlineWithRole now2 r m = []) as ->.
  { unfold onlineWithRole. fold L.
    destruct (filter (fun d => ou_userRole d = r) L) as [|d l] eqn:E; [done|].
    assert (d ∈ d :: l) as Hd by (by left). rewrite <- E in Hd.
    apply list_elem_of_filter in Hd as [<- Hd]. destruct Hin.
    apply list_elem_of_fmap. by exists d. }
  unfold roleEnum in Hr.
  repeat (apply elem_of_cons in Hr as [->|Hr]; [reflexivity|]).
  by apply elem_of_nil in Hr.
Qed.

Lemma online_stats_total (now1 now2 : Z) (m : gmap string OnlineUser) :
  (forall k d, m !! k = Some d -> ou_userRole d ∈ roleEnum) ->
  getOnlineStats now1 now2 m !! "total" = Some (Z.of_nat (getOnlineCount now1 m)).
Proof.
  intros Hroles. destruct (online_roles_in_enum now2 m Hroles) as (_ & _ & Hgs).
  unfold getOnlineStats. rewrite stats_lookup_other; [done|].
  intros g Hg. apply Hgs in Hg. unfold roleEnum in Hg.
  repeat (apply elem_of_cons in Hg as [->|Hg]; [discriminate|]).
  by apply elem_of_nil in Hg.
Qed.

(** X29. With every stored role among the four the schema allows,
    [getOnlineStats] returns an object with the keys [total], [guests],
    [students], [teachers] and [admins] and no other: [total] is
    [getOnlineCount], each of the others the number of presence records of
    that role active in the trailing 30 minutes (0 when there is none);
    when both queries read the same instant, the four add up to [total]. *)
Theorem online_stats_by_role (now1 now2 : Z) (m : gmap string OnlineUser) :
  (forall k d, m !! k = Some d -> ou_userRole d ∈ roleEnum) ->
  let stats := getOnlineStats now1 now2 m in
  stats !! "total" = Some (Z.of_nat (getOnlineCount now1 m)) /\
  (forall r, r ∈ roleEnum ->
     stats !! (r ++ "s") = Some (Z.of_nat (length (onlineWithRole now2 r m)))) /\
  (forall k, is_Some (stats !! k) ->
     k ∈ ["total"; "guests"; "students"; "teachers"; "admins"]) /\
  (now1 = now2 ->
     Z.of_nat (getOnlineCount now1 m)
     = sumZ ((fun r => default 0 (stats !! (r ++ "s"))) <$> roleEnum)).
Proof.
  intros Hroles stats.
  destruct (online_roles_in_enum now2 m Hroles) as (HL & Hnd & Hgs).
  split; [by apply online_stats_total|].
  split; [intros r Hr; by apply online_stats_role|]. split.
  - intros k Hsome.
    destruct (decide (k ∈ (fun r => r ++ "s") <$> roleEnum)) as [Hin|Hout].
    + apply list_elem_of_fmap in Hin as (r & -> & Hr). unfold roleEnum in Hr.
      repeat (apply elem_of_cons in Hr as [->|Hr];
              [apply (list_elem_of_In _ _); vm_compute; tauto|]).
      by apply elem_of_nil in Hr.
    + unfold stats, getOnlineStats in Hsome.
      rewrite stats_lookup_other in Hsome.
      * rewrite !lookup_insert_is_Some, lookup_singleton_is_Some in Hsome.
        apply (list_elem_of_In _ _).
        destruct Hsome as [<-|[_ [<-|[_ [<-|[_ [<-|[_ <-]]]]]]]]; vm_compute; tauto.
      * intros g Hg E. apply Hout. rewrite <- E. apply list_elem_of_fmap.
        exists g.1. split; [done | by apply Hgs].
  - intros <-.
    assert (getOnlineCount now1 m
            = length (filter (fun d => now1 - window ≤ ou_lastActivity d) (map_to_list m).*2))
      as -> by exact (size_filter_values (fun d => now1 - window ≤ ou_lastActivity d) m).
    rewrite (count_by_role _ HL). f_equal.
    apply list_fmap_ext. intros i r Hi. apply list_elem_of_lookup_2 in Hi.
    unfold stats. by rewrite (online_stats_role now1 now1 m r Hroles Hi).
Qed.

(** A run of X29: one guest, seen a minute before the query. *)
Lemma online_stats_by_role_witness :
  getOnlineStats 60000 60000 {["sess-1" := Sample.guest]} !! "total" = Some 1 /\
  getOnlineStats 60000 60000 {["sess-1" := Sample.guest]} !! "guests" = Some 1.
Proof.
  assert (forall k d, ({["sess-1" := Sample.guest]} : gmap string OnlineUser) !! k = Some d ->
            ou_userRole d ∈ roleEnum) as Hroles.
  { intros k d [_ <-]%lookup_singleton_Some. apply (list_elem_of_In _ _).
    simpl. tauto. }
  destruct (online_stats_by_role 60000 60000 {["sess-1" := Sample.guest]} Hroles)
    as (Htotal & Hrole & _).
  split; [exact Htotal|].
  exact (Hrole "guest" ltac:(apply (list_elem_of_In _ _); simpl; tauto)).
Defined.

Lemma run_invariant_for (lib : Lib) (P : Request -> Prop) (I : Db -> Prop) :
  (forall c req db, P req -> I db -> I (trackOnlineUser lib c req db)) ->
  (forall c req db, P req -> I db -> I (trackVisitor lib c req db)) ->
  forall reqs db, Forall (fun x : Tick * Tick * Request => P x.2) reqs ->
    I db -> I (run lib reqs db).
Proof.
  intros Ho Hv reqs. unfold run.
  induction reqs as [|[[c1 c2] req] reqs IH]; intros db HP Hdb; [done|].
  apply Forall_cons in HP as [Hreq HP].
  simpl. apply IH; [done|]. unfold analytics. by apply Hv, Ho.
Qed.

Lemma anonymous_subject (req : Request) :
  anonymous req ->
  subjectIds req = (None, None, None) /\ getUserRole req = "guest" /\
  isAuthenticatedReq req = false.
Proof.
  intros (Hu & Ht & Hs). unfold subjectIds, getUserRole, isAuthenticatedReq.
  by rewrite Hu, Ht, Hs.
Qed.

(** X30. When no request carries a principal as it reaches the analytics
    middleware (it is mounted before every router, hence before every
    authenticator), all presence records are [guest] records without
    subject ids, all visit records are without subject ids, and
    [getOnlineStats] reports 0 students, teachers and admins, and as many
    guests as [total]. *)
Theorem unauthenticated_traffic_is_all_guests (lib : Lib)
    (reqs : list (Tick * Tick * Request)) :
  Forall (fun x : Tick * Tick * Request => anonymous x.2) reqs ->
  let db := run lib reqs emptyDb in
  (forall k d, onlineUsers db !! k = Some d -> anonymousRecord d) /\
  (forall k v, visitors db !! k = Some v -> anonymousVisit v) /\
  (forall now1 now2,
     let stats := getOnlineStats now1 now2 (onlineUsers db) in
     stats !! "students" = Some 0 /\ stats !! "teachers" = Some 0 /\
     stats !! "admins" = Some 0 /\
     (now1 = now2 -> stats !! "guests" = stats !! "total")).
Proof.
  intros Hanon db.
  assert ((forall k d, onlineUsers db !! k = Some d -> anonymousRecord d) /\
          (forall k v, visitors db !! k = Some v -> anonymousVisit v)) as [Hon Hvis].
  { unfold db.
    apply (run_invariant_for lib anonymous
             (fun db => (forall k d, onlineUsers db !! k = Some d -> anonymousRecord d) /\
                        (forall k v, visitors db !! k = Some v -> anonymousVisit v)));
      [| |done|by split].
    - intros c req db' Hreq [H1 H2]. split; [|].
      + intros k d. unfold trackOnlineUser.
        destruct (skipOnline (path req)); [apply H1|].
        destruct (isBot (userAgentString req)); [apply H1|]. simpl.
        unfold upsertOnline.
        destruct (anonymous_subject req Hreq) as (-> & -> & ->).
        destruct (analyzeUserAgent lib (userAgentString req)) as [[br os] device].
        intros [[<- <-] | [_ Hold]]%lookup_insert_Some; [by repeat split | by apply (H1 k)].
      + unfold trackOnlineUser.
        destruct (skipOnline (path req)); [apply H2|].
        destruct (isBot (userAgentString req)); [apply H2|]. apply H2.
    - intros c req db' Hreq [H1 H2].
      split; [by rewrite trackVisitor_onlineUsers|].
      destruct (skipVisitor (path req)) eqn:Hs;
        [by rewrite trackVisitor_untracked by auto|].
      destruct (isBot (userAgentString req)) eqn:Hb;
        [by rewrite trackVisitor_untracked by auto|].
      rewrite (proj1 (trackVisitor_tracked lib c req db' (conj Hs Hb))).
      intros k v [[<- <-] | [_ Hold]]%lookup_insert_Some; [|by apply (H2 k)].
      unfold recordPage, upsertVisitor.
      destruct (anonymous_subject req Hreq) as (-> & _ & _).
      destruct (analyzeUserAgent lib (userAgentString req)) as [[br os] device].
      by destruct (truthy (Some (userAgentString req))), (visitors db' !! _);
        repeat split. }
  split; [done|]. split; [done|].
  intros now1 now2 stats.
  assert (forall k d, onlineUsers db !! k = Some d -> ou_userRole d ∈ roleEnum) as Hroles.
  { intros k d Hd. destruct (Hon k d Hd) as (-> & _). unfold roleEnum.
    apply (list_elem_of_In _ _). vm_compute. tauto. }
  assert (forall now r, r <> "guest" -> onlineWithRole now r (onlineUsers db) = []) as Hnone.
  { intros now r Hr. unfold onlineWithRole.
    destruct (filter (fun d => ou_userRole d = r) _) as [|d l] eqn:E; [done|].
    assert (d ∈ d :: l) as Hd by (by left). rewrite <- E in Hd.
    apply list_elem_of_filter in Hd as [Hrd Hd].
    apply list_elem_of_filter in Hd as [_ Hd].
    apply list_elem_of_fmap in Hd as ([k d'] & -> & Hd).
    apply elem_of_map_to_list in Hd. destruct (Hon k d' Hd) as (Hg & _).
    simpl in Hrd. congruence. }
  assert (forall r, r ∈ roleEnum -> r <> "guest" -> stats !! (r ++ "s") = Some 0) as Hzero.
  { intros r Hr Hne. unfold stats.
    by rewrite (online_stats_role now1 now2 _ r Hroles Hr), (Hnone now2 r Hne). }
  split; [apply (Hzero "student"); [apply (list_elem_of_In _ _); vm_compute; tauto | done]|].
  split; [apply (Hzero "teacher"); [apply (list_elem_of_In _ _); vm_compute; tauto | done]|].
  split; [apply (Hzero "admin"); [apply (list_elem_of_In _ _); vm_compute; tauto | done]|].
  intros <-. unfold stats.
  rewrite (online_stats_total now1 now1 _ Hroles).
  etrans; [apply (online_stats_role now1 now1 _ "guest" Hroles);
           apply (list_elem_of_In _ _); vm_compute; tauto|].
  do 2 f_equal.
  etrans; [|symmetry; exact (size_filter_values
                               (fun d => now1 - window ≤ ou_lastActivity d) (onlineUsers db))].
  unfold onlineWithRole. f_equal.
  etrans; [apply (filter_ext_elem _ (fun _ => True))|].
  - intros d Hd. apply list_elem_of_filter in Hd as [_ Hd].
    apply list_elem_of_fmap in Hd as ([k d'] & -> & Hd).
    apply elem_of_map_to_list in Hd. destruct (Hon k d' Hd) as (Hg & _). done.
  - generalize (filter (fun d => now1 - window ≤ ou_lastActivity d)
                  (map_to_list (onlineUsers db)).*2).
    intros l. induction l as [|d l IH]; [done|].
    rewrite filter_cons. simpl. by rewrite IH.
Qed.

(** A run of X30: a visitor without a session. *)
Lemma unauthenticated_traffic_is_all_guests_witness :
  let stats :=
    getOnlineStats 2000 2000
      (onlineUsers (run Sample.lib
         [(mkTick 1000 "0.25", mkTick 1001 "0.75",
           Sample.browse "/" None Sample.firefox)] emptyDb)) in
  stats !! "students" = Some 0 /\ stats !! "teachers" = Some 0 /\
  stats !! "admins" = Some 0 /\ stats !! "guests" = stats !! "total".
Proof.
  destruct (proj2 (proj2 (unauthenticated_traffic_is_all_guests Sample.lib
    [(mkTick 1000 "0.25", mkTick 1001 "0.75", Sample.browse "/" None Sample.firefox)]
    ltac:(repeat constructor))) 2000 2000) as (H1 & H2 & H3 & H4).
  split; [exact H1|]. split; [exact H2|]. split; [exact H3 | exact (H4 eq_refl)].
Defined.
